(** * mx_native: native build orchestration on top of Ninja

    A shallow embedding of [src/mx_native.py] and the properties of its
    staleness protocol, manifest generation, multi-architecture composition
    and archivable results.

    Conventions.
    - Paths and other text are [string]s; path operations follow Python's
      [posixpath] ([mx.join], [mx.dirname], [mx.basename] are aliases of
      the [os.path] functions).
    - The file system is a finite map from paths to file contents.
    - Code that talks to the outside world runs in a state-and-error monad
      over a [World]: the file system plus the log of spawned processes.
      [mx.abort] and Python exceptions are the error results; the state
      reached when the error was raised is kept.
    - What lives outside [mx_native.py] (the [mx] globals, [mx_subst],
      [ninja_syntax], the Ninja binary itself) is collected in the [Env]
      record and stays abstract. *)

From Stdlib Require Import ZArith Ascii String List Bool Lia.
From stdpp Require Import base option list gmap strings.

Open Scope string_scope.
Open Scope Z_scope.

(* ===================================================================== *)
(** ** Python string primitives *)
(* ===================================================================== *)

Module Py.

(** [s.startswith(p)] *)
Definition startswith (s p : string) : bool := String.prefix p s.

(** [sub in s] *)
Fixpoint contains (sub s : string) : bool :=
  match s with
  | EmptyString => String.prefix sub EmptyString
  | String _ r => String.prefix sub s || contains sub r
  end.

(** [s.endswith(c)] for a single character [c] *)
Fixpoint endswith_char (s : string) (c : ascii) : bool :=
  match s with
  | EmptyString => false
  | String a EmptyString => Ascii.eqb a c
  | String _ r => endswith_char r c
  end.

(** [s.rfind(c)]: index of the last occurrence of [c], or [-1]. *)
Fixpoint rfind_from (i : Z) (c : ascii) (s : string) : Z :=
  match s with
  | EmptyString => -1
  | String a r =>
      let k := rfind_from (i + 1) c r in
      if 0 <=? k then k else if Ascii.eqb a c then i else -1
  end.

Definition rfind (s : string) (c : ascii) : Z := rfind_from 0 c s.

Definition len (s : string) : Z := Z.of_nat (String.length s).

(** [s[:i]] and [s[i:]] for [0 <= i]. *)
Definition take (i : Z) (s : string) : string :=
  String.substring 0 (Z.to_nat i) s.

Definition drop (i : Z) (s : string) : string :=
  String.substring (Z.to_nat i) (String.length s - Z.to_nat i) s.

(** [s.rstrip(c)] *)
Fixpoint rstrip (s : string) (c : ascii) : string :=
  match s with
  | EmptyString => EmptyString
  | String a r =>
      match rstrip r c with
      | EmptyString => if Ascii.eqb a c then EmptyString else String a EmptyString
      | r' => String a r'
      end
  end.

(** [s == c * len(s)] *)
Fixpoint all_char (s : string) (c : ascii) : bool :=
  match s with
  | EmptyString => true
  | String a r => Ascii.eqb a c && all_char r c
  end.

Definition truthy (s : string) : bool :=
  match s with EmptyString => false | _ => true end.

(** [' '.join(l)] *)
Definition unwords (l : list string) : string := String.concat " " l.

End Py.

(* ===================================================================== *)
(** ** [os.path] (POSIX flavour) *)
(* ===================================================================== *)

Module posixpath.

Definition sep : ascii := "/"%char.
Definition extsep : ascii := "."%char.

(** [os.path.join(a, b)] *)
Definition join (a b : string) : string :=
  if Py.startswith b "/" then b
  else if negb (Py.truthy a) || Py.endswith_char a sep then a +:+ b
  else a +:+ "/" +:+ b.

(** [os.path.split(p)] before the head is stripped *)
Definition split_raw (p : string) : string * string :=
  let i := Py.rfind p sep + 1 in (Py.take i p, Py.drop i p).

(** [os.path.basename(p)] *)
Definition basename (p : string) : string := snd (split_raw p).

(** [os.path.dirname(p)] *)
Definition dirname (p : string) : string :=
  let head := fst (split_raw p) in
  if Py.truthy head && negb (Py.all_char head sep)
  then Py.rstrip head sep else head.

(** The loop of [genericpath._splitext] that skips leading dots:
    [true] when a character other than the dot is met in
    [filenameIndex, filenameIndex + n). *)
Fixpoint has_stem (p : string) (filenameIndex : nat) (n : nat) : bool :=
  match n with
  | O => false
  | S n' =>
      match String.get filenameIndex p with
      | Some c =>
          if negb (Ascii.eqb c extsep) then true
          else has_stem p (S filenameIndex) n'
      | None => true
      end
  end.

(** [os.path.splitext(p)] *)
Definition splitext (p : string) : string * string :=
  let sepIndex := Py.rfind p sep in
  let dotIndex := Py.rfind p extsep in
  if (sepIndex <? dotIndex)
     && has_stem p (Z.to_nat (sepIndex + 1))
                   (Z.to_nat (dotIndex - (sepIndex + 1)))
  then (Py.take dotIndex p, Py.drop dotIndex p)
  else (p, EmptyString).

(** [os.path.isabs(p)] *)
Definition isabs (p : string) : bool := Py.startswith p "/".

End posixpath.

(* ===================================================================== *)
(** ** The outside world *)
(* ===================================================================== *)

(** Calls made on a [ninja_syntax.Writer]; a manifest is the sequence of
    calls the generator makes, each rendered to text by the writer. *)
Inductive Stmt : Type :=
| Comment (text : string)
| Newline
| Variable_ (key : string) (value : string + list string)
| Rule (name command : string) (generator : bool)
| Build (outputs : list string) (rule : string)
        (inputs : list string) (implicit : list string)
| Include (path : string).

(** What [mx.run] observes of a finished process. *)
Record ProcResult : Type := mkProcResult {
  rc : Z;
  out_lines : list string;
  err_lines : list string;
  fs_after : gmap string string;
  mtimes_after : gmap string Z
}.

(** Everything [mx_native.py] reads from [mx], [mx_subst], [mx_compdb],
    [ninja_syntax], [tempfile] and the operating system. *)
Record Env : Type := mkEnv {
  get_arch : string;
  get_os : string;
  is_windows : bool;
  is_linux : bool;
  is_darwin : bool;
  is_morello : bool;
  opt_verbose : bool;
  opt_very_verbose : bool;
  opt_multiarch : bool;
  MX_VERBOSE : option string;
  jdk_home : string;
  compdb_enabled : bool;
  ninja_binary : string;
  path_substitute : string -> string;
  add_lib_prefix : string -> string;
  add_lib_suffix : string -> string;
  exe_suffix : string -> string;
  relpath : string -> string -> string;
  escape_path : string -> string;
  render : Stmt -> string;
  run : list string -> string -> gmap string string -> gmap string Z -> ProcResult;
  mkstemp : string -> string -> gmap string string -> string
}.

(** The mutable world: the files and their contents, the modification
    times [mx.TimeStampFile] reads (a path without one is a file that does
    not exist for it), the processes spawned so far (command line and
    working directory, oldest first) and the lines handed to the
    compile-database sink.  Only the executor moves modification times: the
    module reads none but those of deliverables. *)
Record World : Type := mkWorld {
  fs : gmap string string;
  mtimes : gmap string Z;
  procs : list (list string * string);
  compdb_data : list string
}.

Definition exists_ (p : string) (w : World) : bool :=
  match fs w !! p with Some _ => true | None => false end.

Definition set_fs (f : gmap string string) (w : World) : World :=
  {| fs := f; mtimes := mtimes w; procs := procs w; compdb_data := compdb_data w |}.

(* ===================================================================== *)
(** ** Errors and the state-and-error monad *)
(* ===================================================================== *)

(** [mx.abort] raises [SystemExit]; the other constructors are the Python
    exceptions the modelled code can raise. *)
Inductive Error : Type :=
| AbortMsg (msg : string)
| AbortUnsupported (exts : gset string)
| AbortRun (payload : Z + (list string * list string))
| PyIndexError
| PyAssertionError
| PyOSError.

Inductive Res (A : Type) : Type :=
| Ok (a : A)
| Err (e : Error).
Arguments Ok {A} a.
Arguments Err {A} e.

Definition M (S A : Type) : Type := S -> Res A * S.

Definition ret {S A} (a : A) : M S A := fun s => (Ok a, s).

Definition bind {S A B} (c : M S A) (k : A -> M S B) : M S B :=
  fun s => match c s with
           | (Ok a, s') => k a s'
           | (Err e, s') => (Err e, s')
           end.

Definition raise {S A} (e : Error) : M S A := fun s => (Err e, s).
Definition gets {S A} (f : S -> A) : M S A := fun s => (Ok (f s), s).
Definition modify {S} (f : S -> S) : M S unit := fun s => (Ok tt, f s).

(** Run a computation over a component of the state. *)
Definition zoom {S T A} (get : S -> T) (set : T -> S -> S) (c : M T A) : M S A :=
  fun s => let '(r, t') := c (get s) in (r, set t' s).

Declare Scope mx_scope.
Delimit Scope mx_scope with mx.
Notation "x <~ c ; k" := (bind c (fun x => k))
  (at level 20, c at level 100, k at level 200, only parsing) : mx_scope.
Notation "' p <~ c ; k" := (bind c (fun x => let 'p := x in k))
  (at level 20, p pattern, c at level 100, k at level 200, only parsing) : mx_scope.
Notation "c ;;; k" := (bind c (fun _ => k))
  (at level 100, k at level 200, right associativity, only parsing) : mx_scope.
Open Scope mx_scope.

Definition is_ok {A} (r : Res A) : bool :=
  match r with Ok _ => true | Err _ => false end.

(* ===================================================================== *)
(** ** [_Toolchain] *)
(* ===================================================================== *)

Module Toolchain.

Record t : Type := mk { target_arch : string }.

(** [_Toolchain.for_]: the registry hands out one descriptor per
    architecture; descriptors carry nothing but the architecture. *)
Definition for_ (target_arch : string) : t := mk target_arch.

Definition target (env : Env) (tc : t) : string :=
  get_os env +:+ "-" +:+ target_arch tc.

Definition is_native (env : Env) (tc : t) : bool :=
  String.eqb (target_arch tc) (get_arch env).

Definition is_available (env : Env) (tc : t) : bool := is_native env tc.

End Toolchain.

(* ===================================================================== *)
(** ** [Ninja]: the build-executor adapter *)
(* ===================================================================== *)

Module Ninja.

Definition default_manifest : string := "build.ninja".

Record t : Type := mk {
  build_dir : string;
  parallelism : string;
  targets : list string
}.

Definition opt_truthy (o : option string) : bool :=
  match o with Some s => Py.truthy s | None => false end.

(** The command line [_run] builds for [args]. *)
Definition cmdline (env : Env) (self : t) (args : list string) : list string :=
  ([ninja_binary env; "-j"; parallelism self]
   ++ (if opt_very_verbose env || opt_truthy (MX_VERBOSE env) then ["-v"] else [])
   ++ args)%list.

(** [Ninja._run].  [err_captured] tells whether the caller passed its own
    [err] capture (otherwise stderr is folded into [out]).  The captured
    lines are returned for the callers that inspect them. *)
Definition _run (env : Env) (self : t) (args : list string) (err_captured : bool)
  : M World (list string * list string) :=
  fun w =>
    let mx_verbose_env := MX_VERBOSE env in
    let cmd := cmdline env self args in
    let verbose := opt_verbose env || opt_truthy mx_verbose_env in
    let r := run env cmd (build_dir self) (fs w) (mtimes w) in
    let w' := {| fs := fs_after r;
                 mtimes := mtimes_after r;
                 procs := (procs w ++ [(cmd, build_dir self)])%list;
                 compdb_data := compdb_data w |} in
    let captured := (out_lines r, if err_captured then err_lines r else []) in
    if negb (rc r =? 0)
    then (Err (AbortRun (if verbose then inl (rc r) else inr captured)), w')
    else (Ok captured, w').

Definition needs_build (env : Env) (self : t) : M World (bool * string) :=
  '(out, details) <~ _run env self (["-n"; "-d"; "explain"] ++ targets self)%list true ;
  match details with
  | _ :: _ =>
      match List.filter (fun l => Py.startswith l "ninja explain:") details with
      | l :: _ => ret (true, l)
      | [] => raise PyIndexError
      end
  | [] =>
      match out with
      | [l] => if String.eqb l "ninja: no work to do." then ret (false, l)
               else raise PyAssertionError
      | _ => raise PyAssertionError
      end
  end.

(** [Ninja.compdb]: [out] is the sink of the compile database, and
    [mx.run] hands it the lines the executor prints as they come, before
    [_run] looks at the exit status: the sink has them whether or not the
    run then aborts. *)
Definition compdb (env : Env) (self : t) : M World unit :=
  fun w =>
    let args := (["-t"; "compdb"] ++ targets self)%list in
    let printed :=
      out_lines (run env (cmdline env self args) (build_dir self) (fs w) (mtimes w)) in
    let feed := fun w' : World =>
      {| fs := fs w'; mtimes := mtimes w'; procs := procs w';
         compdb_data := (compdb_data w' ++ printed)%list |} in
    match _run env self args false w with
    | (Ok _, w') => (Ok tt, feed w')
    | (Err e, w') => (Err e, feed w')
    end.

Definition build (env : Env) (self : t) : M World unit :=
  _run env self (targets self) false ;;; ret tt.

Definition clean (env : Env) (self : t) : M World unit :=
  _run env self (["-t"; "clean"] ++ targets self)%list false ;;; ret tt.

End Ninja.

(* ===================================================================== *)
(** ** Projects *)
(* ===================================================================== *)

(** A build dependency as the manifest generator sees it:
    [getattr(d, 'include_dirs', [])] and [getattr(d, 'libs', [])];
    [None] stands for a dependency without the attribute. *)
Record Dependency : Type := mkDependency {
  include_dirs : option (list string);
  libs : option (list string)
}.

Inductive Kind : Type := static_lib | shared_lib | executable.

Definition Kind_eqb (a b : Kind) : bool :=
  match a, b with
  | static_lib, static_lib | shared_lib, shared_lib | executable, executable => true
  | _, _ => false
  end.

(** A resolved [DefaultNativeProject].  [walk] is what [os.walk] yields
    over the source directories, top-down, each directory given by its
    path relative to the project directory and its files;
    [include_listing] is [os.listdir] of the public header directory. *)
Record Project : Type := mkProject {
  name : string;
  dir : string;
  out_dir : string;
  suite_py : string;
  vc_dir : string;
  multiarch : list string;
  _cflags : list string;
  _ldflags : list string;
  _ldlibs : list string;
  deliverable : string;
  _kind : Kind;
  toolchain_output : string;
  asm_requires_cpp : bool;
  buildDependencies : list Dependency;
  walk : list (string * list string);
  include_listing : list string
}.

Definition include : string := "include".
Definition src : string := "src".

(** [grouping[os.path.splitext(f)[1]].append(mx.join(rel_root, f))] *)
Definition group_step (rel_root : string) (grouping : gmap string (list string))
    (f : string) : gmap string (list string) :=
  let ext := snd (posixpath.splitext f) in
  <[ext := (default [] (grouping !! ext) ++ [posixpath.join rel_root f])%list]> grouping.

Definition group_files (rel_root : string) (files : list string)
  : gmap string (list string) :=
  foldl (group_step rel_root) ∅ files.

(** [for ext in grouping.keys(): source_files[ext] += grouping[ext]] *)
Definition merge_grouping (source_files grouping : gmap string (list string))
  : gmap string (list string) :=
  union_with (fun old new => Some (old ++ new)%list) source_files grouping.

(** [NinjaProject._source] *)
Definition _source_files (p : Project) : gmap string (list string) :=
  foldl (fun source_files '(rel_root, files) =>
           merge_grouping source_files (group_files rel_root files))
        ∅ (walk p).

Definition source_tree (p : Project) : list string := map fst (walk p).

Definition files_get (p : Project) (ext : string) : list string :=
  default [] (_source_files p !! ext).

Definition h_files (p : Project) : list string := files_get p ".h".
Definition c_files (p : Project) : list string := files_get p ".c".
Definition cxx_files (p : Project) : list string := files_get p ".cc".
Definition asm_sources (p : Project) : list string := files_get p ".S".

(** [DefaultNativeProject._target] *)
Definition _target (env : Env) (p : Project) : string :=
  match _kind p with
  | static_lib =>
      add_lib_prefix env (deliverable p) +:+ (if is_windows env then ".lib" else ".a")
  | shared_lib => add_lib_suffix env (add_lib_prefix env (deliverable p))
  | executable => exe_suffix env (deliverable p)
  end.

Definition dquote : string := String (ascii_of_nat 34) EmptyString.

Definition quote_if_spaces (path : string) : string :=
  if Py.contains " " path then dquote +:+ path +:+ dquote else path.

Definition add_debug_prefix (prefix_dir : string) : string :=
  "-fdebug-prefix-map=" +:+ quote_if_spaces prefix_dir +:+ "="
    +:+ quote_if_spaces (posixpath.basename prefix_dir).

Definition morello_applies (env : Env) (p : Project) : bool :=
  is_morello env && negb (String.eqb (name p) "com.oracle.jvmtiasmagent").

(** [DefaultNativeProject.cflags] *)
Definition cflags (env : Env) (p : Project) : list string :=
  ((if Kind_eqb (_kind p) shared_lib
    then (if String.eqb (get_os env) "windows" then ["-MD"] else ["-fPIC"])
    else [])
   ++ (if morello_applies env p
       then ["-O0"; "-Wshorten-cap-to-int"; "-Wcheri"; "-march=morello";
             "-mabi=purecap"; "-Xclang"; "-morello-vararg=new"; "-mcpu=rainier"]
       else [])
   ++ (if is_linux env || is_darwin env
       then [add_debug_prefix (vc_dir p); add_debug_prefix (jdk_home env);
             "-gno-record-gcc-switches"]
       else [])
   ++ _cflags p)%list.

(** [DefaultNativeProject.ldflags] *)
Definition ldflags (env : Env) (p : Project) : list string :=
  ((if Kind_eqb (_kind p) shared_lib
    then (if String.eqb (get_os env) "darwin"
          then ["-dynamiclib"; "-undefined"; "dynamic_lookup"]
          else if String.eqb (get_os env) "windows" then ["-dll"]
          else ["-shared"; "-fPIC"])
    else [])
   ++ (if morello_applies env p
       then ["-fsanitize=cheri"; "-Wshorten-cap-to-int"; "-mabi=purecap"; "-fuse-ld=lld"]
       else [])
   ++ _ldflags p)%list.

Definition ldlibs (p : Project) : list string := _ldlibs p.

(* ===================================================================== *)
(** ** [NinjaManifestGenerator] *)
(* ===================================================================== *)

Module Gen.

(** [NinjaManifestGenerator._resolve] *)
Definition _resolve (path : string) : string := posixpath.join "$project" path.

(** [NinjaManifestGenerator._output] *)
Definition _output (env : Env) (source_file : string) (ext : option string) : string :=
  let ext := match ext with
             | None => if is_windows env then ".obj" else ".o"
             | Some e => e
             end in
  fst (posixpath.splitext source_file) +:+ ext.

(** [variables(key=value)] with one keyword *)
Definition variables1 (key : string) (value : string + list string) : list Stmt :=
  [Variable_ key value; Newline].

Definition quote (p : Project) (path : string) : string :=
  let has_spaces := Py.contains " " path
                    || (Py.contains "$project" path && Py.contains " " (dir p)) in
  if has_spaces then dquote +:+ path +:+ dquote else path.

(** [include_dirs(dirs)] *)
Definition include_flags (p : Project) (dirs : list string) : list string :=
  map (fun d => "-I" +:+ quote p (_resolve d)) dirs.

Definition include_dirs (p : Project) (dirs : list string) : list Stmt :=
  variables1 "includes" (inr (include_flags p dirs)).

(** Each rule helper gives the statements it writes and the value it
    returns (the first output). *)
Definition cc (env : Env) (source_file : string) : list Stmt * string :=
  ([Build [_output env source_file None] "cc" [_resolve source_file] []],
   _output env source_file None).

Definition cxx (env : Env) (source_file : string) : list Stmt * string :=
  ([Build [_output env source_file None] "cxx" [_resolve source_file] []],
   _output env source_file None).

Definition asm (env : Env) (p : Project) (source_file : string) : list Stmt * string :=
  let asm_source := _resolve source_file in
  if asm_requires_cpp p
  then ([Build [_output env source_file (Some ".asm")] "cpp" [asm_source] [];
         Build [_output env source_file None] "asm"
               [_output env source_file (Some ".asm")] []],
        _output env source_file None)
  else ([Build [_output env source_file None] "asm" [asm_source] []],
        _output env source_file None).

Definition ar (archive : string) (members : list string) : list Stmt :=
  [Build [archive] "ar" members []].

Definition link (program : string) (files : list string) : list Stmt :=
  [Build [program] "link" files []].

Definition linkxx (program : string) (files : list string) : list Stmt :=
  [Build [program] "linkxx" files []].

(** [_generate_mx_interface] *)
Definition _generate_mx_interface (p : Project) : list Stmt :=
  let deps := (map _resolve (source_tree p) ++ [suite_py p])%list in
  ([Comment "Manifest dependencies"]
   ++ map (fun d => Build [_resolve d] "phony" [] []) (source_tree p)
   ++ [Newline;
       Comment "Used by mx to check...";
       Rule "dry_run" "DRY_RUN $out" true;
       Newline;
       Comment "...whether manifest needs to be regenerated";
       Build [Ninja.default_manifest] "dry_run" [] deps;
       Newline])%list.

(** [_generate], run by the constructor *)
Definition _generate (env : Env) (p : Project) (output_dir : string) : list Stmt :=
  ([Comment "Generated by mx. Do not edit."; Newline]
   ++ variables1 "ninja_required_version" (inl "1.3")
   ++ [Comment "Directories"]
   ++ variables1 "project" (inl (relpath env (dir p) output_dir))
   ++ _generate_mx_interface p)%list.

End Gen.

(** [collections.OrderedDict.fromkeys(keys).keys()]: a key that is already
    present keeps its place. *)
Definition step (d : list string) (k : string) : list string :=
  if existsb (String.eqb k) d then d else (d ++ [k])%list.

Definition ordered_keys (keys : list string) : list string := foldl step [] keys.

Definition dep_include_dirs (p : Project) : list string :=
  concat (map (fun d => default [] (include_dirs d)) (buildDependencies p)).

Definition dep_libs (p : Project) : list string :=
  concat (map (fun d => default [] (libs d)) (buildDependencies p)).

(** The argument of [gen.include_dirs] in [generate_manifest]. *)
Definition include_search_list (p : Project) : list string :=
  ordered_keys (map posixpath.dirname (h_files p) ++ dep_include_dirs p)%list.

Definition supported_exts : gset string := {[ ".h"; ".c"; ".cc"; ".S"; ".swp" ]}.

Definition unsupported_source_files (p : Project) : gset string :=
  dom (_source_files p) ∖ supported_exts.

(** The compile statements and the object files they produce. *)
Definition compile_cc (env : Env) (p : Project) : list (list Stmt * string) :=
  map (Gen.cc env) (c_files p).
Definition compile_cxx (env : Env) (p : Project) : list (list Stmt * string) :=
  map (Gen.cxx env) (cxx_files p).
Definition compile_asm (env : Env) (p : Project) : list (list Stmt * string) :=
  map (Gen.asm env p) (asm_sources p).

Definition object_files (env : Env) (p : Project) : list string :=
  (map snd (compile_cc env p) ++ map snd (compile_cxx env p)
   ++ map snd (compile_asm env p))%list.

(** The body of the [with NinjaManifestGenerator(...) as gen] block of
    [generate_manifest], after the constructor has run [_generate]. *)
Definition manifest_body (env : Env) (p : Project) : list Stmt :=
  ([Comment "Toolchain configuration";
    Include (escape_path env (posixpath.join (toolchain_output p) "toolchain.ninja"));
    Newline]
   ++ Gen.variables1 "cflags" (inr (map (path_substitute env) (cflags env p)))
   ++ (if negb (Kind_eqb (_kind p) static_lib)
       then [Variable_ "ldflags" (inr (map (path_substitute env) (ldflags env p)));
             Variable_ "ldlibs" (inr (ldlibs p));
             Newline]
       else [])
   ++ Gen.include_dirs p (include_search_list p)
   ++ [Comment "Compiled project sources"]
   ++ concat (map fst (compile_cc env p)) ++ [Newline]
   ++ concat (map fst (compile_cxx env p)) ++ [Newline]
   ++ concat (map fst (compile_asm env p)) ++ [Newline]
   ++ [Comment "Project deliverable"]
   ++ (if Kind_eqb (_kind p) static_lib
       then Gen.ar (_target env p) (object_files env p)
       else (if negb (match cxx_files p with [] => true | _ => false end)
             then Gen.linkxx else Gen.link)
              (_target env p) (object_files env p ++ dep_libs p)))%list.

Definition manifest_stmts (env : Env) (p : Project) (output_dir : string) : list Stmt :=
  (Gen._generate env p output_dir ++ manifest_body env p)%list.

(** The text of the manifest: every writer call rendered in turn. *)
Definition manifest_text (env : Env) (p : Project) (output_dir : string) : string :=
  String.concat "" (map (render env) (manifest_stmts env p output_dir)).

(** [DefaultNativeProject.generate_manifest] *)
Definition generate_manifest (env : Env) (p : Project) (output_dir filename : string)
  : M World unit :=
  if decide (unsupported_source_files p = ∅)
  then modify (fun w =>
         set_fs (<[posixpath.join output_dir filename
                   := manifest_text env p output_dir]> (fs w)) w)
  else raise (AbortUnsupported (unsupported_source_files p)).

(* ===================================================================== *)
(** ** Collaborators from [mx] that the tasks rely on *)
(* ===================================================================== *)

(** [os.rename(tmp, path)] guarded by [exists(tmp)] *)
Definition rename_if_exists (tmp path : string) (w : World) : World :=
  match fs w !! tmp with
  | Some c => set_fs (<[path := c]> (delete tmp (fs w))) w
  | None => w
  end.

(** Modelled from the spec: [mx.SafeFileCreation] is not part of
    [mx_native.py].  The manifest "is written via
    write-to-temporary-then-atomic-replace": a fresh temporary file is
    created next to [path] and handed to the body; when the body finishes
    the temporary file is swapped into place; when the body fails ("a crash
    mid-regeneration never leaves a corrupt manifest") the temporary file is
    dropped and [path] is left as it was. *)
Definition SafeFileCreation {A} (env : Env) (path : string)
    (body : string -> M World A) : M World A :=
  fun w =>
    let tmpPath := mkstemp env (posixpath.dirname path) (posixpath.basename path) (fs w) in
    match body tmpPath (set_fs (<[tmpPath := ""]> (fs w)) w) with
    | (Ok a, w') => (Ok a, rename_if_exists tmpPath path w')
    | (Err e, w') => (Err e, set_fs (delete tmpPath (fs w')) w')
    end.

(** Modelled from the spec: [mx_compdb.CompdbCapture] is not part of
    [mx_native.py].  It hands the body a sink "if downstream tooling asked
    for one" and nothing otherwise; like any context manager that does not
    say otherwise, it lets errors of the body through. *)
Definition CompdbCapture {A} (env : Env) (body : bool -> M World A) : M World A :=
  body (compdb_enabled env).

(** [filecmp.cmp(a, b, shallow=False)] *)
Definition filecmp_cmp (a b : string) : M World bool :=
  fun w => match fs w !! a, fs w !! b with
           | Some x, Some y => (Ok (String.eqb x y), w)
           | _, _ => (Err PyOSError, w)
           end.

Module TimeStampFile.

(** A time stamp file is known here by its modification time; [None] is
    the result of [newest] when no file exists. *)
Definition of_path (w : World) (path : string) : option Z := mtimes w !! path.

Definition newer (acc cand : option Z) : option Z :=
  match acc, cand with
  | Some a, Some c => if a <? c then Some c else Some a
  | None, Some c => Some c
  | acc, None => acc
  end.

(** Modelled from the spec: [mx.TimeStampFile.newest] is not part of
    [mx_native.py].  It gives the newest of the files that exist
    ("aggregate newest_output = MAX over sub-results"). *)
Definition newest (files : list (option Z)) : option Z :=
  foldl newer None files.

End TimeStampFile.

(** Sequencing over a list, left to right. *)
Fixpoint mapM {S A B} (f : A -> M S B) (l : list A) : M S (list B) :=
  match l with
  | [] => ret []
  | x :: r => y <~ f x ; ys <~ mapM f r ; ret (y :: ys)
  end.

(* ===================================================================== *)
(** ** Build tasks *)
(* ===================================================================== *)

(** What a task inherits from [mx.AbstractNativeBuildTask] and its
    ancestors, per target architecture: the parallelism (as [str] gives
    it), [buildForbidden] and the generic [needsBuild], whose reason is a
    string or [None].  The inherited checks only look at the world. *)
Record Inherited : Type := mkInherited {
  inh_parallelism : string;
  inh_buildForbidden : string -> World -> bool;
  inh_needsBuild : string -> option Z -> World -> bool * option string
}.

Record NinjaBuildTask : Type := mkTask {
  subject : Project;
  target_arch : string;
  args : Inherited;
  ninja_targets : list string;
  _reason : option string;
  built : bool
}.

Definition set_reason (self : NinjaBuildTask) (r : option string) : NinjaBuildTask :=
  {| subject := subject self; target_arch := target_arch self; args := args self;
     ninja_targets := ninja_targets self; _reason := r; built := built self |}.

Definition set_built (self : NinjaBuildTask) (b : bool) : NinjaBuildTask :=
  {| subject := subject self; target_arch := target_arch self; args := args self;
     ninja_targets := ninja_targets self; _reason := _reason self; built := b |}.

(** [TargetArchBuildTask.out_dir] *)
Definition task_out_dir (self : NinjaBuildTask) : string :=
  posixpath.join (out_dir (subject self)) (target_arch self).

Definition _manifest (self : NinjaBuildTask) : string :=
  posixpath.join (task_out_dir self) Ninja.default_manifest.

Definition ninja (self : NinjaBuildTask) : Ninja.t :=
  Ninja.mk (task_out_dir self) (inh_parallelism (args self)) (ninja_targets self).

(** [NinjaProject._build_task] *)
Definition _build_task (p : Project) (a : Inherited) (target_arch : string)
  : NinjaBuildTask :=
  {| subject := p; target_arch := target_arch; args := a;
     ninja_targets := []; _reason := None; built := false |}.

Definition missing_toolchain (target_arch : string) : Error :=
  AbortMsg ("Missing toolchain for " +:+ target_arch +:+ ".").

(** [TargetArchBuildTask.buildForbidden] *)
Definition buildForbidden (env : Env) (self : NinjaBuildTask) : M World bool :=
  forbidden <~ gets (inh_buildForbidden (args self) (target_arch self)) ;
  if negb forbidden
     && negb (Toolchain.is_available env (Toolchain.for_ (target_arch self)))
  then raise (missing_toolchain (target_arch self))
  else ret forbidden.

(** [NinjaBuildTask.needsBuild]; the task comes back with its [_reason]. *)
Definition needsBuild (env : Env) (self : NinjaBuildTask) (newestInput : option Z)
  : M World ((bool * option string) * NinjaBuildTask) :=
  '(is_needed, reason) <~
     gets (inh_needsBuild (args self) (target_arch self) newestInput) ;
  let self := set_reason self reason in
  if is_needed then ret ((true, reason), self)
  else
    present <~ gets (exists_ (_manifest self)) ;
    if negb present
    then ret ((true, Some "no build manifest"),
              set_reason self (Some "no build manifest"))
    else
      '(is_needed, reason) <~ Ninja.needs_build env (ninja self) ;
      ret ((is_needed, Some reason), set_reason self (Some reason)).

(** [NinjaBuildTask.newestOutput] *)
Definition newestOutput (env : Env) (self : NinjaBuildTask) (w : World) : option Z :=
  TimeStampFile.newest
    [TimeStampFile.of_path w (posixpath.join (task_out_dir self) (_target env (subject self)))].

(** The guard of the regeneration block of [build]. *)
Definition must_regenerate (self : NinjaBuildTask) (w : World) : bool :=
  negb (exists_ (_manifest self) w)
  || match _reason self with
     | None => true
     | Some r => Py.contains (posixpath.basename (_manifest self)) r
                 || Py.contains "phony" r
     end.

(** The body of the [with mx.SafeFileCreation(...)] block of [build]. *)
Definition regenerate (env : Env) (self : NinjaBuildTask) (tmpPath : string)
  : M World unit :=
  let output_dir := posixpath.dirname tmpPath in
  let tmpfilename := posixpath.basename tmpPath in
  generate_manifest env (subject self) output_dir tmpfilename ;;;
  present <~ gets (exists_ (_manifest self)) ;
  if present
  then same <~ filecmp_cmp (_manifest self) tmpPath ;
       if negb same then Ninja.clean env (ninja self) else ret tt
  else ret tt.

(** The end of [build]: the compile-database export, when asked for, and
    the build proper. *)
Definition export_and_build (env : Env) (self : NinjaBuildTask) : M World unit :=
  CompdbCapture env (fun out =>
    if out then Ninja.compdb env (ninja self) else ret tt) ;;;
  Ninja.build env (ninja self).

(** [NinjaBuildTask.build] *)
Definition build (env : Env) (self : NinjaBuildTask) : M World unit :=
  regen <~ gets (must_regenerate self) ;
  (if regen
   then SafeFileCreation env (_manifest self) (regenerate env self)
   else ret tt) ;;;
  export_and_build env self.

(** Modelled from the spec: [mx.BuildTask.execute] is not part of
    [mx_native.py].  Toolchain availability is verified "before a task
    runs"; then comes the build decision protocol: the staleness query,
    and, when a build is needed, manifest regeneration and the build
    itself, after which the task counts as built. *)
Definition execute (env : Env) (newestInput : option Z) (self : NinjaBuildTask)
  : M World NinjaBuildTask :=
  forbidden <~ buildForbidden env self ;
  if forbidden then ret self
  else
    '((is_needed, _), self) <~ needsBuild env self newestInput ;
    if is_needed
    then build env self ;;; ret (set_built self true)
    else ret self.

(* ===================================================================== *)
(** ** [MultiarchProject] *)
(* ===================================================================== *)

Definition nonempty {A} (l : list A) : bool :=
  match l with [] => false | _ => true end.

Definition _use_multiarch (env : Env) (p : Project) : bool :=
  nonempty (multiarch p) && opt_multiarch env.

Record MultiarchBuildTask : Type := mkMultiarchBuildTask {
  subtasks : list NinjaBuildTask;
  multi_built : bool
}.

Inductive BuildTask : Type :=
| TargetArchTask (t : NinjaBuildTask)
| MultiarchTask (m : MultiarchBuildTask).

(** [MultiarchProject.getBuildTask] *)
Definition getBuildTask (env : Env) (p : Project) (a : Inherited) : BuildTask :=
  if _use_multiarch env p
  then MultiarchTask {| subtasks := map (_build_task p a) (multiarch p);
                        multi_built := false |}
  else TargetArchTask (_build_task p a (get_arch env)).

(** Modelled from the spec: [mx.TaskSequence.execute] is not part of
    [mx_native.py].  The composer "produces one Build Task per declared
    architecture" and "executes them": every subtask is executed, in the
    order of [subtasks], through its own [execute] method. *)
Definition TaskSequence_execute (exec : NinjaBuildTask -> M World NinjaBuildTask)
    (tasks : list NinjaBuildTask) : M World (list NinjaBuildTask) :=
  mapM exec tasks.

(** [MultiarchBuildTask.execute] *)
Definition multi_execute (exec : NinjaBuildTask -> M World NinjaBuildTask)
    (self : MultiarchBuildTask) : M World MultiarchBuildTask :=
  executed <~ TaskSequence_execute exec (subtasks self) ;
  ret {| subtasks := executed; multi_built := existsb built executed |}.

(** [MultiarchBuildTask.newestOutput] *)
Definition multi_newestOutput (env : Env) (self : MultiarchBuildTask) (w : World)
  : option Z :=
  TimeStampFile.newest (map (fun t => newestOutput env t w) (subtasks self)).

(* ===================================================================== *)
(** ** Archivable results *)
(* ===================================================================== *)

(** The generators are given by the list of pairs they yield; a failed
    [assert] makes the whole result an error. *)
Fixpoint collect {A} (l : list (Res A)) : Res (list A) :=
  match l with
  | [] => Ok []
  | Err e :: _ => Err e
  | Ok a :: r => match collect r with Ok r' => Ok (a :: r') | Err e => Err e end
  end.

(** The local function [result] of [_archivable_results] *)
Definition result (use_relpath : bool) (base_dir file_path : string)
  : Res (string * string) :=
  if posixpath.isabs file_path then Err PyAssertionError
  else let archive_path := if use_relpath then file_path
                           else posixpath.basename file_path in
       Ok (posixpath.join base_dir file_path, archive_path).

(** [DefaultNativeProject._archivable_results] *)
Definition _archivable_results (env : Env) (p : Project)
    (target_arch : string) (use_relpath single : bool) : Res (list (string * string)) :=
  collect
    (result use_relpath (posixpath.join (out_dir p) target_arch) (_target env p)
     :: (if negb single
         then map (fun header => result use_relpath (dir p) (posixpath.join include header))
                  (include_listing p)
         else [])).

(** The architectures [getArchivableResults] goes through. *)
Definition archivable_archs (env : Env) (p : Project) : list string :=
  if _use_multiarch env p then multiarch p else [get_arch env].

(** One turn of the loop of [getArchivableResults]. *)
Definition archivable_for (env : Env) (p : Project) (use_relpath single : bool)
    (target_arch : string) : Res (list (string * string)) :=
  let toolchain := Toolchain.for_ target_arch in
  let target_arch_path :=
    if nonempty (multiarch p) then Toolchain.target env toolchain else "" in
  if Toolchain.is_native env toolchain || negb single
  then match _archivable_results env p target_arch use_relpath single with
       | Ok l => Ok (map (fun '(file_path, archive_path) =>
                            (file_path, posixpath.join target_arch_path archive_path)) l)
       | Err e => Err e
       end
  else Ok [].

(** [MultiarchProject.getArchivableResults] *)
Definition getArchivableResults (env : Env) (p : Project) (use_relpath single : bool)
  : Res (list (string * string)) :=
  match collect (map (archivable_for env p use_relpath single) (archivable_archs env p)) with
  | Ok ls => Ok (concat ls)
  | Err e => Err e
  end.

(* ===================================================================== *)
(** ** Reference definitions and observations the properties are stated with *)
(* ===================================================================== *)

(** "Duplicates removed while preserving first-seen order", said directly:
    an entry stays, and its later copies go. *)
Fixpoint dedup_keep_first (l : list string) : list string :=
  match l with
  | [] => []
  | x :: r => x :: List.filter (fun y => negb (String.eqb y x)) (dedup_keep_first r)
  end.

Definition mem (x : string) (l : list string) : bool := existsb (String.eqb x) l.

(** The extension of a file name, as [_source] keys it. *)
Definition ext_of (f : string) : string := snd (posixpath.splitext f).

(** The files of the source tree with extension [e], directory by
    directory in the order of the walk, as paths relative to the project. *)
Definition files_with_ext (p : Project) (e : string) : list string :=
  concat (map (fun '(rel_root, files) =>
                 map (posixpath.join rel_root)
                     (List.filter (fun f => String.eqb (ext_of f) e) files))
              (walk p)).

(** The extensions [generate_manifest] tolerates, one by one. *)
Definition tolerated (e : string) : bool :=
  mem e [".h"; ".c"; ".cc"; ".S"; ".swp"].


(** Every file of the source tree has a tolerated extension. *)
Definition all_tolerated (p : Project) : bool :=
  forallb (fun '(_, files) => forallb (fun f => tolerated (ext_of f)) files) (walk p).

(** The compile statements of one source file, per kind of source. *)
Definition cc_stmt (env : Env) (f : string) : Stmt :=
  Build [Gen._output env f None] "cc" [Gen._resolve f] [].

Definition cxx_stmt (env : Env) (f : string) : Stmt :=
  Build [Gen._output env f None] "cxx" [Gen._resolve f] [].

Definition asm_stmts (env : Env) (p : Project) (f : string) : list Stmt :=
  if asm_requires_cpp p
  then [Build [Gen._output env f (Some ".asm")] "cpp" [Gen._resolve f] [];
        Build [Gen._output env f None] "asm" [Gen._output env f (Some ".asm")] []]
  else [Build [Gen._output env f None] "asm" [Gen._resolve f] []].

(** Statements that compile a source: rules [cc], [cxx], [asm] and the
    preprocessing rule [cpp] of assembly sources. *)
Definition is_compile_stmt (s : Stmt) : bool :=
  match s with
  | Build _ r _ _ => mem r ["cc"; "cxx"; "asm"; "cpp"]
  | _ => false
  end.

(** What one run of the executor looks like from outside: the entry it
    leaves in the process log, what [mx.run] reports, and the world after. *)
Definition entry (env : Env) (self : NinjaBuildTask) (args : list string)
  : list string * string :=
  (Ninja.cmdline env (ninja self) args, task_out_dir self).

Definition clean_entry (env : Env) (self : NinjaBuildTask) : list string * string :=
  entry env self (["-t"; "clean"] ++ ninja_targets self)%list.

Definition compdb_entry (env : Env) (self : NinjaBuildTask) : list string * string :=
  entry env self (["-t"; "compdb"] ++ ninja_targets self)%list.

Definition build_entry (env : Env) (self : NinjaBuildTask) : list string * string :=
  entry env self (ninja_targets self).

Definition dry_run_entry (env : Env) (self : NinjaBuildTask) : list string * string :=
  entry env self (["-n"; "-d"; "explain"] ++ ninja_targets self)%list.

Definition outcome (env : Env) (self : NinjaBuildTask) (args : list string) (w : World)
  : ProcResult :=
  run env (Ninja.cmdline env (ninja self) args) (task_out_dir self) (fs w) (mtimes w).

Definition after_run (env : Env) (self : NinjaBuildTask) (args : list string) (w : World)
  : World :=
  {| fs := fs_after (outcome env self args w);
     mtimes := mtimes_after (outcome env self args w);
     procs := (procs w ++ [entry env self args])%list;
     compdb_data := compdb_data w |}.

(** The world after a compile-database export, whatever its outcome. *)
Definition after_compdb (env : Env) (self : NinjaBuildTask) (w : World) : World :=
  let args := (["-t"; "compdb"] ++ ninja_targets self)%list in
  let w1 := after_run env self args w in
  {| fs := fs w1; mtimes := mtimes w1; procs := procs w1;
     compdb_data := (compdb_data w1 ++ out_lines (outcome env self args w))%list |}.

(** The regeneration block of [build], seen from outside: the temporary
    path [mx.SafeFileCreation] picks, the text written to it, the world once
    it is written, and the world once it is swapped into place. *)
Definition tmp_path (env : Env) (self : NinjaBuildTask) (w : World) : string :=
  mkstemp env (posixpath.dirname (_manifest self)) (posixpath.basename (_manifest self))
          (fs w).

Definition new_text (env : Env) (self : NinjaBuildTask) (w : World) : string :=
  manifest_text env (subject self) (posixpath.dirname (tmp_path env self w)).

Definition with_tmp (env : Env) (self : NinjaBuildTask) (w : World) : World :=
  set_fs (<[tmp_path env self w := new_text env self w]> (fs w)) w.

Definition swapped (env : Env) (self : NinjaBuildTask) (w : World) : World :=
  rename_if_exists (tmp_path env self w) (_manifest self) (with_tmp env self w).

(** A manifest is on disk and its content is not the new text. *)
Definition manifest_changed (env : Env) (self : NinjaBuildTask) (w : World) : bool :=
  match fs w !! _manifest self with
  | Some old => negb (String.eqb old (new_text env self w))
  | None => false
  end.

(** The temporary path is a path of its own, in normal form. *)
Definition tmp_well_formed (env : Env) (self : NinjaBuildTask) (w : World) : Prop :=
  tmp_path env self w <> _manifest self
  /\ posixpath.join (posixpath.dirname (tmp_path env self w))
                    (posixpath.basename (tmp_path env self w))
     = tmp_path env self w.

(** What [Ninja.needs_build] makes of a dry run that exited with 0. *)
Definition read_dry_run (r : ProcResult) : Res (bool * string) :=
  match err_lines r with
  | _ :: _ =>
      match List.filter (fun l => Py.startswith l "ninja explain:") (err_lines r) with
      | l :: _ => Ok (true, l)
      | [] => Err PyIndexError
      end
  | [] =>
      match out_lines r with
      | [l] => if String.eqb l "ninja: no work to do." then Ok (false, l)
               else Err PyAssertionError
      | _ => Err PyAssertionError
      end
  end.

(** Sub-tasks run one after the other, each from the world the previous
    one left. *)
Inductive runs_in_order (exec : NinjaBuildTask -> M World NinjaBuildTask)
  : list NinjaBuildTask -> World -> list NinjaBuildTask -> World -> Prop :=
| runs_nil (w : World) : runs_in_order exec [] w [] w
| runs_cons (t t' : NinjaBuildTask) (ts ts' : list NinjaBuildTask) (w w1 w' : World) :
    exec t w = (Ok t', w1) ->
    runs_in_order exec ts w1 ts' w' ->
    runs_in_order exec (t :: ts) w (t' :: ts') w'.

(** The pairs [getArchivableResults] is expected to yield for one
    architecture: the deliverable, then, outside single mode, the entries of
    the public header directory. *)
Definition archive_name (use_relpath : bool) (file_path : string) : string :=
  if use_relpath then file_path else posixpath.basename file_path.

Definition arch_prefix (env : Env) (p : Project) (target_arch : string) : string :=
  if nonempty (multiarch p) then Toolchain.target env (Toolchain.for_ target_arch) else "".

Definition expected_pairs (env : Env) (p : Project) (use_relpath single : bool)
    (target_arch : string) : list (string * string) :=
  (posixpath.join (posixpath.join (out_dir p) target_arch) (_target env p),
   posixpath.join (arch_prefix env p target_arch)
                  (archive_name use_relpath (_target env p)))
  :: (if single then []
      else map (fun header =>
                  (posixpath.join (dir p) (posixpath.join include header),
                   posixpath.join (arch_prefix env p target_arch)
                     (archive_name use_relpath (posixpath.join include header))))
               (include_listing p)).

(** The pairs [_archivable_results] yields, before the prefix is added. *)
Definition raw_pairs (env : Env) (p : Project) (use_relpath single : bool)
    (target_arch : string) : list (string * string) :=
  (posixpath.join (posixpath.join (out_dir p) target_arch) (_target env p),
   archive_name use_relpath (_target env p))
  :: (if single then []
      else map (fun header =>
                  (posixpath.join (dir p) (posixpath.join include header),
                   archive_name use_relpath (posixpath.join include header)))
               (include_listing p)).

(** The architectures whose results are yielded. *)
Definition yielding (env : Env) (p : Project) (single : bool) : list string :=
  List.filter (fun a => Toolchain.is_native env (Toolchain.for_ a) || negb single)
              (archivable_archs env p).

(** The [assert]s of [_archivable_results] hold. *)
Definition asserts_hold (env : Env) (p : Project) (single : bool) : bool :=
  negb (posixpath.isabs (_target env p))
  && (single
      || forallb (fun header => negb (posixpath.isabs (posixpath.join include header)))
                 (include_listing p)).

(** The payload [_run] aborts with. *)
Definition run_failure (env : Env) (r : ProcResult) (err_captured : bool) : Error :=
  AbortRun (if opt_verbose env || Ninja.opt_truthy (MX_VERBOSE env)
            then inl (rc r)
            else inr (out_lines r, if err_captured then err_lines r else [])).

(** The mention of a command in the process log. *)
Definition spawned (e : list string * string) (w : World) : Prop := In e (procs w).

(* ===================================================================== *)
(** ** A concrete host, project and executor to run the model on *)
(* ===================================================================== *)

Module Demo.

(** A rendering of writer calls, one line per call. *)
Definition show (s : Stmt) : string :=
  match s with
  | Comment t => "# " +:+ t +:+ "\n"
  | Newline => "\n"
  | Variable_ k (inl v) => k +:+ " = " +:+ v +:+ "\n"
  | Variable_ k (inr vs) => k +:+ " = " +:+ Py.unwords vs +:+ "\n"
  | Rule n c g =>
      "rule " +:+ n +:+ "\n  command = " +:+ c +:+ "\n"
        +:+ (if g then "  generator = 1\n" else "")
  | Build outs r ins imp =>
      "build " +:+ Py.unwords outs +:+ ": " +:+ Py.unwords (r :: ins)
        +:+ (if nonempty imp then " | " +:+ Py.unwords imp else "") +:+ "\n"
  | Include path => "include " +:+ path +:+ "\n"
  end.

Definition has_arg (a : string) (cmd : list string) : bool :=
  existsb (String.eqb a) cmd.

(** An executor that explains its pending work with [explain], fails the
    compile-database export with [compdb_rc], and otherwise succeeds
    without touching anything. *)
Definition executor (explain : list string) (compdb_rc : Z)
    (cmd : list string) (cwd : string)
    (files : gmap string string) (times : gmap string Z) : ProcResult :=
  if has_arg "-n" cmd
  then mkProcResult 0 (match explain with
                       | [] => ["ninja: no work to do."]
                       | _ => []
                       end) explain files times
  else if has_arg "compdb" cmd
  then mkProcResult compdb_rc [] [] files times
  else mkProcResult 0 [] [] files times.

Definition env (explain : list string) (compdb_rc : Z) (compdb_on : bool) : Env :=
  {| get_arch := "amd64";
     get_os := "linux";
     is_windows := false;
     is_linux := true;
     is_darwin := false;
     is_morello := false;
     opt_verbose := false;
     opt_very_verbose := false;
     opt_multiarch := true;
     MX_VERBOSE := None;
     jdk_home := "/opt/jdk";
     compdb_enabled := compdb_on;
     ninja_binary := "ninja";
     path_substitute := fun s => s;
     add_lib_prefix := fun s => "lib" +:+ s;
     add_lib_suffix := fun s => s +:+ ".so";
     exe_suffix := fun s => s;
     relpath := fun _ _ => "../..";
     escape_path := fun s => s;
     render := show;
     run := executor explain compdb_rc;
     mkstemp := fun d suffix _ => posixpath.join d ("tmp0" +:+ suffix) |}.

Definition quiet : Env := env [] 0 false.

Definition project (archs : list string) (tree : list (string * list string))
    (deps : list Dependency) : Project :=
  {| name := "com.example.native";
     dir := "/ws/native";
     out_dir := "/ws/out";
     suite_py := "/ws/mx.ws/suite.py";
     vc_dir := "/ws";
     multiarch := archs;
     _cflags := ["-O2"];
     _ldflags := [];
     _ldlibs := [];
     deliverable := "native";
     _kind := static_lib;
     toolchain_output := "/ws/toolchain";
     asm_requires_cpp := false;
     buildDependencies := deps;
     walk := tree;
     include_listing := ["a.h"; "b.h"] |}.

Definition tree : list (string * list string) :=
  [("include", ["a.h"; "b.h"]); ("src", ["foo.c"; "bar.cc"; "start.S"; ".foo.c.swp"])].

Definition inherited : Inherited :=
  {| inh_parallelism := "1";
     inh_buildForbidden := fun _ _ => false;
     inh_needsBuild := fun _ _ _ => (false, None) |}.

Definition task (p : Project) : NinjaBuildTask := _build_task p inherited "amd64".

Definition plain : Project := project [] tree [].

(** What the dry run says when an object file is out of date. *)
Definition explanation : string :=
  "ninja explain: output src/foo.o older than most recent input src/foo.c".

(** A world whose only file is a manifest left by an earlier build. *)
Definition stale : World :=
  {| fs := {[ "/ws/out/amd64/build.ninja" := "# stale\n" ]};
     mtimes := ∅; procs := []; compdb_data := [] |}.

Definition world (files : gmap string string) : World :=
  {| fs := files; mtimes := ∅; procs := []; compdb_data := [] |}.

(** Inherited checks that forbid the build for every architecture but
    amd64. *)
Definition host_only : Inherited :=
  {| inh_parallelism := "1";
     inh_buildForbidden := fun arch _ => negb (String.eqb arch "amd64");
     inh_needsBuild := fun _ _ _ => (false, None) |}.

(** Inherited checks that ask for a build and give no reason. *)
Definition forced : Inherited :=
  {| inh_parallelism := "1";
     inh_buildForbidden := fun _ _ => false;
     inh_needsBuild := fun _ _ _ => (true, None) |}.

Definition forced_task (p : Project) : NinjaBuildTask := _build_task p forced "amd64".

(** The world [stale] with a deliverable for each of two architectures,
    the one for amd64 the more recent. *)
Definition two_outputs : World :=
  {| fs := {[ "/ws/out/amd64/build.ninja" := "# stale\n" ]};
     mtimes := {[ "/ws/out/amd64/libnative.a" := 20;
                  "/ws/out/aarch64/libnative.a" := 10 ]};
     procs := []; compdb_data := [] |}.

End Demo.

(* ===================================================================== *)
(** ** Memoized attributes, the toolchain registry and the constructors *)
(* ===================================================================== *)

(** [d.setdefault(key, default)] *)
Definition setdefault {V} (key : string) (default : V) (d : gmap string V)
  : V * gmap string V :=
  match d !! key with
  | Some v => (v, d)
  | None => (default, <[key := default]> d)
  end.

(** Reading an attribute declared with [lazy_default].  The descriptor has
    [__get__] only, so an entry of the instance dictionary wins over it;
    on a miss [__get__] evaluates [init(instance)] and stores the value with
    [setdefault] under the name of [init]. *)
Definition lazy_default_read {V} (init_name : string) (init : Res V)
    (vars_ : gmap string V) : Res V * gmap string V :=
  match vars_ !! init_name with
  | Some v => (Ok v, vars_)
  | None =>
      match init with
      | Ok v => let '(r, d) := setdefault init_name v vars_ in (Ok r, d)
      | Err e => (Err e, vars_)
      end
  end.

(** [lazy_class_default.__get__]: the value lives in the dictionary of the
    descriptor itself, whatever the class the attribute is read from. *)
Definition lazy_class_default_get {O V} (init_name : string) (init : O -> Res V)
    (owner : O) (vars_self : gmap string V) : Res V * gmap string V :=
  match vars_self !! init_name with
  | Some v => (Ok v, vars_self)
  | None =>
      match init owner with
      | Ok v => let '(r, d) := setdefault init_name v vars_self in (Ok r, d)
      | Err e => (Err e, vars_self)
      end
  end.

(** [_Toolchain.for_] with its registry:
    [cls._registry.setdefault(target_arch, _Toolchain(target_arch))]. *)
Definition registry_for_ (target_arch : string) (registry : gmap string Toolchain.t)
  : Toolchain.t * gmap string Toolchain.t :=
  setdefault target_arch (Toolchain.mk target_arch) registry.

(** Every descriptor of the registry sits under its own architecture. *)
Definition registry_ok (registry : gmap string Toolchain.t) : Prop :=
  forall k t, registry !! k = Some t -> Toolchain.target_arch t = k.

(** The message of [MultiarchProject.__init__] when the host is left out. *)
Definition host_missing (env : Env) : Error :=
  AbortMsg (dquote +:+ "multiarch" +:+ dquote +:+ " must contain the host architecture "
              +:+ dquote +:+ get_arch env +:+ dquote).

(** The [multiarch] attribute set by [MultiarchProject.__init__]; [declared]
    is the value of the keyword when it is given.  [list(set(...))] leaves
    the order of the attribute open; the order [elements] gives stands for
    it. *)
Definition multiarch_init (env : Env) (substitute : string -> string)
    (declared : option (list string)) : Res (list string) :=
  match declared with
  | Some multiarch_ =>
      let attr := elements (list_to_set (map substitute multiarch_) : gset string) in
      if negb (mem (get_arch env) attr) then Err (host_missing env) else Ok attr
  | None => Ok []
  end.

(** [name.split('.')[-1]] *)
Definition last_component (name_ : string) : string :=
  Py.drop (Py.rfind name_ "."%char + 1) name_.

(** [DefaultNativeProject._kinds[kind]] *)
Definition kind_of_string (kind : string) : option Kind :=
  if String.eqb kind "static_lib" then Some static_lib
  else if String.eqb kind "shared_lib" then Some shared_lib
  else if String.eqb kind "executable" then Some executable
  else None.

(** [_kind['target'](deliverable)], the body of [_target]. *)
Definition target_name (env : Env) (kind : Kind) (deliverable_ : string) : string :=
  match kind with
  | static_lib =>
      add_lib_prefix env deliverable_ +:+ (if is_windows env then ".lib" else ".a")
  | shared_lib => add_lib_suffix env (add_lib_prefix env deliverable_)
  | executable => exe_suffix env deliverable_
  end.

(** [os.path.join(a, b, c)] *)
Definition join3 (a b c : string) : string := posixpath.join (posixpath.join a b) c.

(** What [DefaultNativeProject.__init__] is given: the positional
    arguments it looks at, the keywords it pops, the output root the
    ancestors compute, and the sub-directories [os.walk] finds right under
    the public header directory (which is taken to exist). *)
Record InitArgs : Type := mkInitArgs {
  arg_name : string;
  arg_dir : string;
  arg_out_dir : string;
  arg_srcDirs : list string;
  arg_kind : string;
  arg_deliverable : option string;
  arg_toolchain : option string;
  arg_multiarch : option (list string);
  arg_include_subdirs : list string
}.

(** The attributes [DefaultNativeProject.__init__] sets. *)
Record Constructed : Type := mkConstructed {
  c_deliverable : string;
  c_toolchain : string;
  c_srcDirs : list string;
  c_multiarch : list string;
  c_kind : Kind;
  c_include_dirs : list string;
  c_libs : list string
}.

Definition sourceDirs_unsupported : Error :=
  AbortMsg (dquote +:+ "sourceDirs" +:+ dquote
              +:+ " is not supported for default native projects").

Definition unknown_kind (kind : string) : Error :=
  AbortMsg (dquote +:+ "native" +:+ dquote
              +:+ " should be one of ['static_lib', 'shared_lib', 'executable'], but "
              +:+ dquote +:+ kind +:+ dquote +:+ " is given").

Definition not_flat : Error := AbortMsg "include directory must have a flat structure".

(** [DefaultNativeProject.__init__], with the checks in their order: the
    source directories, the ancestors' constructors (of which
    [MultiarchProject.__init__] can abort), the kind, the layout of the
    header directory. *)
Definition DefaultNativeProject_init (env : Env) (substitute : string -> string)
    (a : InitArgs) : Res Constructed :=
  let deliverable_ := default (last_component (arg_name a)) (arg_deliverable a) in
  let toolchain_ := default "mx:DEFAULT_NINJA_TOOLCHAIN" (arg_toolchain a) in
  if nonempty (arg_srcDirs a) then Err sourceDirs_unsupported
  else
    let srcDirs := (arg_srcDirs a ++ [include; src])%list in
    match multiarch_init env substitute (arg_multiarch a) with
    | Err e => Err e
    | Ok multiarch_ =>
        match kind_of_string (arg_kind a) with
        | None => Err (unknown_kind (arg_kind a))
        | Some kind =>
            let include_dir := posixpath.join (arg_dir a) include in
            if nonempty (arg_include_subdirs a) then Err not_flat
            else Ok {| c_deliverable := deliverable_;
                       c_toolchain := toolchain_;
                       c_srcDirs := srcDirs;
                       c_multiarch := multiarch_;
                       c_kind := kind;
                       c_include_dirs := [include_dir];
                       c_libs := if String.eqb (arg_kind a) "static_lib"
                                 then [join3 (arg_out_dir a) (get_arch env)
                                             (target_name env kind deliverable_)]
                                 else [] |}
        end
    end.

(** The arguments the project of [Demo] is constructed with. *)
Definition demo_init_args : InitArgs :=
  {| arg_name := "com.example.native"; arg_dir := "/ws/native";
     arg_out_dir := "/ws/out"; arg_srcDirs := []; arg_kind := "static_lib";
     arg_deliverable := None; arg_toolchain := None;
     arg_multiarch := None; arg_include_subdirs := [] |}.

(** Arguments that fail two checks at once: the kind is unknown and the
    header directory has a sub-directory. *)
Definition demo_bad_args : InitArgs :=
  {| arg_name := "com.example.native"; arg_dir := "/ws/native";
     arg_out_dir := "/ws/out"; arg_srcDirs := []; arg_kind := "jar";
     arg_deliverable := None; arg_toolchain := None;
     arg_multiarch := None; arg_include_subdirs := ["sub"] |}.

(** A project carries what its constructor set. *)
Definition constructed_as (c : Constructed) (out : string) (p : Project) : Prop :=
  deliverable p = c_deliverable c /\ _kind p = c_kind c
  /\ multiarch p = c_multiarch c /\ out_dir p = out.

(* ===================================================================== *)
(** ** More observations of the manifest and of a build *)
(* ===================================================================== *)

(** The statement that produces the deliverable. *)
Definition is_terminal_stmt (s : Stmt) : bool :=
  match s with
  | Build _ r _ _ => mem r ["ar"; "link"; "linkxx"]
  | _ => false
  end.

Definition terminal_stmt (env : Env) (p : Project) : Stmt :=
  match _kind p with
  | static_lib => Build [_target env p] "ar" (object_files env p) []
  | _ => Build [_target env p]
               (match cxx_files p with [] => "link" | _ => "linkxx" end)
               (object_files env p ++ dep_libs p)%list []
  end.

Definition has_rule (rule : string) (s : Stmt) : bool :=
  match s with
  | Build _ r _ _ => String.eqb r rule
  | _ => false
  end.

(** The names of the variables a manifest declares, in order. *)
Definition variable_keys (l : list Stmt) : list string :=
  concat (map (fun s => match s with Variable_ k _ => [k] | _ => [] end) l).

(** The outputs of the compile statements of a manifest. *)
Definition compiled_outputs (l : list Stmt) : list string :=
  concat (map (fun s => match s with
                        | Build outs r _ _ =>
                            if mem r ["cc"; "cxx"; "asm"] then outs else []
                        | _ => []
                        end) l).

(** The world in which [build] first runs the executor. *)
Definition first_executor_world (env : Env) (self : NinjaBuildTask) (w : World) : World :=
  if must_regenerate self w
  then if manifest_changed env self w then with_tmp env self w else swapped env self w
  else w.

(** The test of the local function [quote] of [include_dirs]. *)
Definition has_spaces (p : Project) (path : string) : bool :=
  Py.contains " " path || (Py.contains "$project" path && Py.contains " " (dir p)).

(** No occurrence of a character in a string. *)
Fixpoint lacks (c : ascii) (s : string) : bool :=
  match s with
  | EmptyString => true
  | String a r => negb (Ascii.eqb a c) && lacks c r
  end.

(* ===================================================================== *)
(** ** Sanity checks of the path and string primitives *)
(* ===================================================================== *)

Example splitext_c : posixpath.splitext "src/foo.c" = ("src/foo", ".c").
Proof. reflexivity. Qed.
Example splitext_swp : posixpath.splitext "src/.foo.c.swp" = ("src/.foo.c", ".swp").
Proof. reflexivity. Qed.
Example splitext_dotfile : posixpath.splitext "src/.h" = ("src/.h", "").
Proof. reflexivity. Qed.
Example splitext_none : posixpath.splitext "src.d/Makefile" = ("src.d/Makefile", "").
Proof. reflexivity. Qed.
Example dirname_ex : posixpath.dirname "include/a.h" = "include".
Proof. reflexivity. Qed.
Example dirname_root : posixpath.dirname "/a.h" = "/".
Proof. reflexivity. Qed.
Example dirname_flat : posixpath.dirname "a.h" = "".
Proof. reflexivity. Qed.
Example basename_ex : posixpath.basename "out/amd64/build.ninja" = "build.ninja".
Proof. reflexivity. Qed.
Example join_ex : posixpath.join "linux-amd64" "include/a.h" = "linux-amd64/include/a.h".
Proof. reflexivity. Qed.
Example join_empty : posixpath.join "" "libfoo.a" = "libfoo.a".
Proof. reflexivity. Qed.
Example contains_ex : Py.contains "phony" "ninja explain: phony is dirty" = true.
Proof. reflexivity. Qed.

Example demo_h_files :
  h_files (Demo.project [] Demo.tree []) = ["include/a.h"; "include/b.h"].
Proof. vm_compute. reflexivity. Qed.

Example demo_unsupported :
  unsupported_source_files (Demo.project [] Demo.tree []) = ∅.
Proof. vm_compute. reflexivity. Qed.

(* ===================================================================== *)
(** ** The monad *)
(* ===================================================================== *)

Lemma bind_ok {S A B} (c : M S A) (k : A -> M S B) s a s' :
  c s = (Ok a, s') -> bind c k s = k a s'.
Proof. unfold bind; intros ->; reflexivity. Qed.

Lemma bind_err {S A B} (c : M S A) (k : A -> M S B) s e s' :
  c s = (Err e, s') -> bind c k s = (Err e, s').
Proof. unfold bind; intros ->; reflexivity. Qed.


(* ===================================================================== *)
(** ** Include-directory search order *)
(* ===================================================================== *)

Section IncludeOrder.

Lemma mem_In (x : string) (l : list string) : mem x l = true <-> In x l.
Proof.
  unfold mem. rewrite existsb_exists. split.
  - intros (y & Hy & E). apply String.eqb_eq in E. now subst.
  - intros H. exists x. split; [assumption | apply String.eqb_refl].
Qed.

Lemma mem_app (x : string) (l1 l2 : list string) :
  mem x (l1 ++ l2)%list = mem x l1 || mem x l2.
Proof. unfold mem. apply existsb_app. Qed.

Lemma filter_ext_in_bool (f g : string -> bool) (l : list string) :
  (forall x, In x l -> f x = g x) -> List.filter f l = List.filter g l.
Proof.
  induction l as [|a l IH]; simpl; intros H; [reflexivity|].
  rewrite (H a (or_introl eq_refl)), IH; [reflexivity|].
  intros x Hx. apply H. now right.
Qed.

Lemma filter_filter_bool (f g : string -> bool) (l : list string) :
  List.filter f (List.filter g l) = List.filter (fun x => g x && f x) l.
Proof.
  induction l as [|a l IH]; simpl; [reflexivity|].
  destruct (g a); simpl; [destruct (f a)|]; now rewrite IH.
Qed.

(** The accumulator of [OrderedDict.fromkeys] against the reference. *)
Lemma fromkeys_acc (l acc : list string) :
  foldl step acc l
  = (acc ++ List.filter (fun x => negb (mem x acc)) (dedup_keep_first l))%list.
Proof.
  revert acc. induction l as [|x l IH]; intros acc; simpl.
  - now rewrite app_nil_r.
  - rewrite IH. unfold step. fold (mem x acc).
    destruct (mem x acc) eqn:Hx; simpl.
    + f_equal. rewrite filter_filter_bool. apply filter_ext_in_bool.
      intros y _. destruct (String.eqb y x) eqn:E; simpl; [|reflexivity].
      apply String.eqb_eq in E. subst y. now rewrite Hx.
    + rewrite <- app_assoc. simpl. do 2 f_equal.
      rewrite filter_filter_bool. apply filter_ext_in_bool.
      intros y _. rewrite mem_app. unfold mem at 2. simpl.
      rewrite orb_false_r. now rewrite negb_orb, andb_comm.
Qed.

Lemma ordered_keys_spec (l : list string) : ordered_keys l = dedup_keep_first l.
Proof.
  unfold ordered_keys. change (foldl step [] l = dedup_keep_first l).
  rewrite fromkeys_acc. simpl.
  induction (dedup_keep_first l) as [|a r IH]; simpl; congruence.
Qed.

Lemma dedup_In (x : string) (l : list string) :
  In x (dedup_keep_first l) <-> In x l.
Proof.
  induction l as [|a l IH]; simpl; [tauto|].
  rewrite filter_In, IH. split.
  - intros [H | [H _]]; auto.
  - intros [H | H]; auto.
    destruct (String.eqb x a) eqn:E.
    + apply String.eqb_eq in E. auto.
    + right. split; [assumption | reflexivity].
Qed.

Lemma NoDup_filter_bool (f : string -> bool) (l : list string) :
  List.NoDup l -> List.NoDup (List.filter f l).
Proof.
  induction 1 as [|a l Ha Hl IH]; simpl; [constructor|].
  destruct (f a); [|assumption].
  constructor; [|assumption]. rewrite filter_In. tauto.
Qed.

Lemma dedup_NoDup (l : list string) : List.NoDup (dedup_keep_first l).
Proof.
  induction l as [|a l IH]; simpl; constructor.
  - rewrite filter_In. intros [_ H]. now rewrite String.eqb_refl in H.
  - now apply NoDup_filter_bool.
Qed.

(** Entries of a second list only add what the first one lacks. *)
Lemma dedup_app (l1 l2 : list string) :
  dedup_keep_first (l1 ++ l2)%list
  = (dedup_keep_first l1
     ++ List.filter (fun x => negb (mem x l1)) (dedup_keep_first l2))%list.
Proof.
  assert (H1 : foldl step [] l1 = dedup_keep_first l1) by apply ordered_keys_spec.
  transitivity (foldl step [] (l1 ++ l2)%list);
    [symmetry; apply ordered_keys_spec|].
  rewrite foldl_app, fromkeys_acc, H1. f_equal.
  apply filter_ext_in_bool. intros x _. f_equal.
  apply eq_true_iff_eq. rewrite !mem_In. apply dedup_In.
Qed.

Lemma dedup_id (l : list string) : List.NoDup l -> dedup_keep_first l = l.
Proof.
  induction 1 as [|a l Ha Hl IH]; simpl; [reflexivity|].
  rewrite IH. f_equal.
  rewrite (filter_ext_in_bool _ (fun _ => true)).
  - clear. induction l as [|b l IH]; simpl; congruence.
  - intros y Hy. destruct (String.eqb y a) eqn:E; [|reflexivity].
    apply String.eqb_eq in E. now subst.
Qed.

End IncludeOrder.

Lemma manifest_has_includes (env : Env) (p : Project) (output_dir : string) :
  In (Variable_ "includes" (inr (Gen.include_flags p (include_search_list p))))
     (manifest_stmts env p output_dir).
Proof.
  unfold manifest_stmts, manifest_body, Gen.include_dirs, Gen.variables1.
  apply in_or_app. right.
  do 3 (apply in_or_app; right).
  apply in_or_app. left. now left.
Qed.

(** The example of the claim, for any project: headers that all sit in one
    directory [H], and dependencies contributing [D1; D2; D1]. *)
Lemma include_order_example (p : Project) (H D1 D2 : string) :
  h_files p <> [] ->
  (forall h, In h (h_files p) -> posixpath.dirname h = H) ->
  dep_include_dirs p = [D1; D2; D1] ->
  H <> D1 -> H <> D2 -> D1 <> D2 ->
  include_search_list p = [H; D1; D2].
Proof.
  intros Hne Hdir Hdeps n1 n2 n3.
  unfold include_search_list. rewrite ordered_keys_spec, dedup_app, Hdeps.
  assert (Hown : dedup_keep_first (map posixpath.dirname (h_files p)) = [H]).
  { revert Hne Hdir. induction (h_files p) as [|h l IH]; intros Hne Hdir; [congruence|].
    simpl. rewrite (Hdir h (or_introl eq_refl)). f_equal.
    destruct l as [|h' l']; [reflexivity|].
    rewrite IH; [| congruence | intros x Hx; apply Hdir; now right].
    simpl. now rewrite String.eqb_refl. }
  rewrite Hown.
  assert (Hmem : forall x, mem x (map posixpath.dirname (h_files p)) = String.eqb x H).
  { intros x. apply eq_true_iff_eq. rewrite mem_In, String.eqb_eq, in_map_iff. split.
    - intros (h & E & Hh). rewrite <- E. now apply Hdir.
    - intros ->. destruct (h_files p) as [|h l]; [congruence|].
      exists h. split; [apply Hdir|]; now left. }
  assert (e1 : String.eqb D1 H = false) by (apply String.eqb_neq; congruence).
  assert (e2 : String.eqb D2 H = false) by (apply String.eqb_neq; congruence).
  assert (e3 : String.eqb D1 D2 = false) by (apply String.eqb_neq; congruence).
  assert (e4 : String.eqb D2 D1 = false) by (apply String.eqb_neq; congruence).
  simpl. rewrite e3, e4. simpl. rewrite String.eqb_refl. simpl.
  rewrite !Hmem, e1, e2. reflexivity.
Qed.

(** C4: the include-directory search list written to the manifest is made
    of the directories of the project's own headers, in discovery order,
    followed by the include directories contributed by the build
    dependencies, in dependency order, each directory kept at its first
    occurrence only.  With own headers in [include] and contributed
    directories [D1; D2; D1] the list is exactly [include; D1; D2]. *)
Theorem C4_include_search_order (env : Env) (p : Project) (output_dir : string) :
  let own := map posixpath.dirname (h_files p) in
  let contributed := dep_include_dirs p in
  In (Variable_ "includes" (inr (Gen.include_flags p (include_search_list p))))
     (manifest_stmts env p output_dir)
  /\ Gen.include_flags p (include_search_list p)
     = map (fun d => "-I" +:+ Gen.quote p (Gen._resolve d)) (include_search_list p)
  /\ include_search_list p = dedup_keep_first (own ++ contributed)%list
  /\ include_search_list p
     = (dedup_keep_first own
        ++ List.filter (fun d => negb (mem d own)) (dedup_keep_first contributed))%list
  /\ List.NoDup (include_search_list p)
  /\ (forall d, In d (include_search_list p) <-> In d own \/ In d contributed)
  /\ include_search_list
       (Demo.project [] Demo.tree
          [mkDependency (Some ["D1"; "D2"]) None; mkDependency None (Some ["libz.a"]);
           mkDependency (Some ["D1"]) None])
     = ["include"; "D1"; "D2"].
Proof.
  cbv zeta.
  refine (conj _ (conj _ (conj _ (conj _ (conj _ (conj _ _)))))).
  - apply manifest_has_includes.
  - reflexivity.
  - apply ordered_keys_spec.
  - unfold include_search_list. now rewrite ordered_keys_spec, dedup_app.
  - unfold include_search_list. rewrite ordered_keys_spec. apply dedup_NoDup.
  - intros d. unfold include_search_list.
    rewrite ordered_keys_spec, dedup_In, in_app_iff. tauto.
  - apply (include_order_example _ "include" "D1" "D2"); try discriminate.
    + intros h Hh. vm_compute in Hh. intuition (subst; reflexivity).
    + reflexivity.
Qed.

(* ===================================================================== *)
(** ** Source files grouped by extension *)
(* ===================================================================== *)

Section SourceFiles.

Implicit Types (g sf : gmap string (list string)) (e : string).

Lemma group_step_lookup rel_root g f e :
  group_step rel_root g f !! e
  = if String.eqb (ext_of f) e
    then Some (default [] (g !! e) ++ [posixpath.join rel_root f])%list
    else g !! e.
Proof.
  unfold group_step. fold (ext_of f).
  destruct (String.eqb (ext_of f) e) eqn:E.
  - apply String.eqb_eq in E. subst e. apply lookup_insert_eq.
  - apply String.eqb_neq in E. now apply lookup_insert_ne.
Qed.

Lemma group_files_acc rel_root files g e :
  default [] (foldl (group_step rel_root) g files !! e)
  = (default [] (g !! e)
     ++ map (posixpath.join rel_root)
            (List.filter (fun f => String.eqb (ext_of f) e) files))%list
  /\ (is_Some (foldl (group_step rel_root) g files !! e)
      <-> is_Some (g !! e) \/ exists f, In f files /\ ext_of f = e).
Proof.
  revert g. induction files as [|f files IH]; intros g; simpl.
  - rewrite app_nil_r. split; [reflexivity|]. split; [auto|].
    intros [H | (f & [] & _)]; exact H.
  - destruct (IH (group_step rel_root g f)) as [IH1 IH2]. split.
    + rewrite IH1, group_step_lookup.
      destruct (String.eqb (ext_of f) e); simpl; [|reflexivity].
      now rewrite <- app_assoc.
    + rewrite IH2, group_step_lookup.
      destruct (String.eqb (ext_of f) e) eqn:E.
      * apply String.eqb_eq in E. split; [|intros _; left; eauto].
        intros _. right. exists f. auto.
      * apply String.eqb_neq in E. split.
        -- intros [H | (f' & Hf & Ef)]; [auto | right; exists f'; auto].
        -- intros [H | (f' & [-> | Hf] & Ef)];
             [auto | contradiction | right; exists f'; auto].
Qed.

Lemma merge_grouping_lookup sf g e :
  default [] (merge_grouping sf g !! e)
  = (default [] (sf !! e) ++ default [] (g !! e))%list
  /\ (is_Some (merge_grouping sf g !! e) <-> is_Some (sf !! e) \/ is_Some (g !! e)).
Proof.
  unfold merge_grouping. rewrite lookup_union_with.
  destruct (sf !! e) as [a|], (g !! e) as [b|]; simpl;
    rewrite ?app_nil_r; (split; [reflexivity|]);
    split; intros H; eauto; destruct H as [H|H]; eauto;
    try (destruct H; discriminate).
Qed.

Lemma source_files_acc (tree : list (string * list string)) sf e :
  let res := foldl (fun source_files '(rel_root, files) =>
                      merge_grouping source_files (group_files rel_root files))
                   sf tree in
  default [] (res !! e)
  = (default [] (sf !! e)
     ++ concat (map (fun '(rel_root, files) =>
                       map (posixpath.join rel_root)
                           (List.filter (fun f => String.eqb (ext_of f) e) files))
                    tree))%list
  /\ (is_Some (res !! e)
      <-> is_Some (sf !! e)
          \/ exists rel_root files f,
               In (rel_root, files) tree /\ In f files /\ ext_of f = e).
Proof.
  cbv zeta. revert sf. induction tree as [|[rel_root files] tree IH]; intros sf; simpl.
  - rewrite app_nil_r. split; [reflexivity|]. split; [auto|].
    intros [H | (? & ? & ? & [] & _)]; exact H.
  - destruct (IH (merge_grouping sf (group_files rel_root files))) as [IH1 IH2].
    destruct (merge_grouping_lookup sf (group_files rel_root files) e) as [M1 M2].
    destruct (group_files_acc rel_root files ∅ e) as [G1 G2].
    fold (group_files rel_root files) in G1, G2.
    rewrite lookup_empty in G1, G2. simpl in G1.
    split.
    + rewrite IH1, M1, G1. now rewrite <- app_assoc.
    + rewrite IH2, M2, G2. split.
      * intros [[H | [H | (f & Hf & Ef)]] | (r & fs' & f & Hin & Hf & Ef)]; auto.
        -- destruct H; discriminate.
        -- right. exists rel_root, files, f. auto.
        -- right. exists r, fs', f. auto.
      * intros [H | (r & fs' & f & [Heq | Hin] & Hf & Ef)]; auto.
        -- inversion Heq; subst. left. right. right. exists f. auto.
        -- right. exists r, fs', f. auto.
Qed.

Lemma files_get_spec (p : Project) e : files_get p e = files_with_ext p e.
Proof.
  unfold files_get, _source_files, files_with_ext.
  destruct (source_files_acc (walk p) ∅ e) as [H _]. cbv zeta in H.
  rewrite H, lookup_empty. reflexivity.
Qed.

Lemma source_files_dom (p : Project) e :
  e ∈ dom (_source_files p)
  <-> exists rel_root files f,
        In (rel_root, files) (walk p) /\ In f files /\ ext_of f = e.
Proof.
  rewrite elem_of_dom. unfold _source_files.
  destruct (source_files_acc (walk p) ∅ e) as [_ H]. cbv zeta in H.
  rewrite H, lookup_empty. split; [|auto].
  intros [[x Hx] | H']; [discriminate | exact H'].
Qed.

Lemma tolerated_spec e : tolerated e = true <-> e ∈ supported_exts.
Proof.
  unfold tolerated, supported_exts. rewrite mem_In. simpl. set_unfold.
  intuition (subst; auto).
Qed.

Lemma all_tolerated_spec (p : Project) :
  all_tolerated p = true
  <-> forall rel_root files f,
        In (rel_root, files) (walk p) -> In f files -> tolerated (ext_of f) = true.
Proof.
  unfold all_tolerated. rewrite forallb_forall. split.
  - intros H r fs' f Hin Hf. specialize (H _ Hin). simpl in H.
    rewrite forallb_forall in H. now apply H.
  - intros H [r fs'] Hin. apply forallb_forall. intros f Hf. eapply H; eauto.
Qed.

Lemma unsupported_empty_iff (p : Project) :
  unsupported_source_files p = ∅ <-> all_tolerated p = true.
Proof.
  rewrite all_tolerated_spec. unfold unsupported_source_files. split.
  - intros H r fs' f Hin Hf. apply tolerated_spec.
    destruct (decide (ext_of f ∈ supported_exts)) as [|Hn]; [assumption|].
    assert (Hd : ext_of f ∈ dom (_source_files p))
      by (apply source_files_dom; exists r, fs', f; auto).
    assert (ext_of f ∈ dom (_source_files p) ∖ supported_exts) by set_solver.
    rewrite H in *. set_solver.
  - intros H. apply set_eq. intros e. split; [|set_solver].
    rewrite elem_of_difference, source_files_dom.
    intros [(r & fs' & f & Hin & Hf & <-) Hn]. exfalso. apply Hn.
    apply tolerated_spec. eapply H; eauto.
Qed.

End SourceFiles.

(* ===================================================================== *)
(** ** Compile rules of the manifest *)
(* ===================================================================== *)

Section CompileRules.

Variable env : Env.
Variable p : Project.

Lemma filter_phony (l : list string) :
  List.filter is_compile_stmt (map (fun d => Build [Gen._resolve d] "phony" [] []) l) = [].
Proof. induction l as [|d l IH]; simpl; [reflexivity | exact IH]. Qed.

Lemma filter_cc (l : list string) :
  List.filter is_compile_stmt (concat (map fst (map (Gen.cc env) l)))
  = map (cc_stmt env) l.
Proof. induction l as [|f l IH]; simpl; [reflexivity | now rewrite IH]. Qed.

Lemma filter_cxx (l : list string) :
  List.filter is_compile_stmt (concat (map fst (map (Gen.cxx env) l)))
  = map (cxx_stmt env) l.
Proof. induction l as [|f l IH]; simpl; [reflexivity | now rewrite IH]. Qed.

Lemma filter_asm (l : list string) :
  List.filter is_compile_stmt (concat (map fst (map (Gen.asm env p) l)))
  = concat (map (asm_stmts env p) l).
Proof.
  induction l as [|f l IH]; simpl; [reflexivity|].
  rewrite List.filter_app, IH. f_equal.
  unfold Gen.asm, asm_stmts. destruct (asm_requires_cpp p); reflexivity.
Qed.

Lemma compile_statements (output_dir : string) :
  List.filter is_compile_stmt (manifest_stmts env p output_dir)
  = (map (cc_stmt env) (files_with_ext p ".c")
     ++ map (cxx_stmt env) (files_with_ext p ".cc")
     ++ concat (map (asm_stmts env p) (files_with_ext p ".S")))%list.
Proof.
  unfold manifest_stmts, manifest_body, Gen._generate, Gen._generate_mx_interface,
    Gen.include_dirs, Gen.variables1, compile_cc, compile_cxx, compile_asm,
    c_files, cxx_files, asm_sources.
  rewrite !files_get_spec.
  repeat rewrite List.filter_app.
  rewrite filter_phony, filter_cc, filter_cxx, filter_asm.
  assert (Hl : List.filter is_compile_stmt
                 (if negb (Kind_eqb (_kind p) static_lib)
                  then [Variable_ "ldflags" (inr (map (path_substitute env) (ldflags env p)));
                        Variable_ "ldlibs" (inr (ldlibs p)); Newline]
                  else []) = [])
    by (destruct (negb (Kind_eqb (_kind p) static_lib)); reflexivity).
  rewrite Hl. clear Hl.
  assert (Ht : List.filter is_compile_stmt
                 (if Kind_eqb (_kind p) static_lib
                  then Gen.ar (_target env p) (object_files env p)
                  else (if negb match files_with_ext p ".cc" with
                                | [] => true
                                | _ :: _ => false
                                end
                        then Gen.linkxx else Gen.link)
                         (_target env p) (object_files env p ++ dep_libs p)%list) = []).
  { destruct (Kind_eqb (_kind p) static_lib); [reflexivity|].
    destruct (files_with_ext p ".cc"); reflexivity. }
  rewrite Ht. simpl. now rewrite !app_nil_r.
Qed.

End CompileRules.

Lemma generate_manifest_cases (env : Env) (p : Project)
    (output_dir filename : string) (w : World) :
  generate_manifest env p output_dir filename w
  = (if all_tolerated p
     then (Ok tt,
           set_fs (<[posixpath.join output_dir filename
                     := manifest_text env p output_dir]> (fs w)) w)
     else (Err (AbortUnsupported (unsupported_source_files p)), w)).
Proof.
  unfold generate_manifest.
  destruct (decide (unsupported_source_files p = ∅)) as [E | E].
  - apply unsupported_empty_iff in E. rewrite E. reflexivity.
  - destruct (all_tolerated p) eqn:T; [|reflexivity].
    apply unsupported_empty_iff in T. contradiction.
Qed.

(** C10: [generate_manifest] tolerates exactly the extensions [.h], [.c],
    [.cc], [.S] and [.swp].  A source tree with a file of any other
    extension makes it abort, the world untouched; otherwise it writes the
    manifest, whose compile statements are one [cc] rule per [.c] file, one
    [cxx] rule per [.cc] file and the [asm] rule (behind its [cpp] step when
    the toolchain asks for one) per [.S] file, and nothing for [.h] and
    [.swp] files. *)
Theorem C10_tolerated_extensions (env : Env) (p : Project)
    (output_dir filename : string) (w : World) :
  (forall e, e ∈ supported_exts
             <-> e = ".h" \/ e = ".c" \/ e = ".cc" \/ e = ".S" \/ e = ".swp")
  /\ (forall e, tolerated e = true <-> e ∈ supported_exts)
  /\ (forall e, e ∈ unsupported_source_files p
                <-> tolerated e = false
                    /\ exists rel_root files f,
                         In (rel_root, files) (walk p) /\ In f files /\ ext_of f = e)
  /\ generate_manifest env p output_dir filename w
     = (if all_tolerated p
        then (Ok tt,
              set_fs (<[posixpath.join output_dir filename
                        := manifest_text env p output_dir]> (fs w)) w)
        else (Err (AbortUnsupported (unsupported_source_files p)), w))
  /\ List.filter is_compile_stmt (manifest_stmts env p output_dir)
     = (map (cc_stmt env) (files_with_ext p ".c")
        ++ map (cxx_stmt env) (files_with_ext p ".cc")
        ++ concat (map (asm_stmts env p) (files_with_ext p ".S")))%list
  /\ (forall f, In f (files_with_ext p ".S") ->
                exists src_, In (Build [Gen._output env f None] "asm" [src_] [])
                               (asm_stmts env p f)).
Proof.
  refine (conj _ (conj _ (conj _ (conj _ (conj _ _))))).
  - intros e. unfold supported_exts. set_unfold. tauto.
  - apply tolerated_spec.
  - intros e. unfold unsupported_source_files.
    rewrite elem_of_difference, source_files_dom, <- tolerated_spec.
    destruct (tolerated e); intuition congruence.
  - apply generate_manifest_cases.
  - apply compile_statements.
  - intros f _. unfold asm_stmts. destruct (asm_requires_cpp p); eexists; simpl; eauto.
Qed.

(* ===================================================================== *)
(** ** Rejection of unsupported sources *)
(* ===================================================================== *)


(* ===================================================================== *)
(** ** Runs of the executor *)
(* ===================================================================== *)

Section Runs.

Variable env : Env.
Variable self : NinjaBuildTask.

Lemma _run_eq (args : list string) (b : bool) (w : World) :
  Ninja._run env (ninja self) args b w
  = (if rc (outcome env self args w) =? 0
     then Ok (out_lines (outcome env self args w),
              if b then err_lines (outcome env self args w) else [])
     else Err (run_failure env (outcome env self args w) b),
     after_run env self args w).
Proof.
  unfold Ninja._run, after_run, outcome, run_failure, entry. simpl.
  destruct (rc _ =? 0); reflexivity.
Qed.

Lemma ninja_build_eq (w : World) :
  Ninja.build env (ninja self) w
  = (if rc (outcome env self (ninja_targets self) w) =? 0
     then Ok tt
     else Err (run_failure env (outcome env self (ninja_targets self) w) false),
     after_run env self (ninja_targets self) w).
Proof.
  unfold Ninja.build, bind. change (Ninja.targets (ninja self)) with (ninja_targets self).
  rewrite _run_eq. destruct (rc _ =? 0); reflexivity.
Qed.

Lemma ninja_clean_eq (w : World) :
  let args := (["-t"; "clean"] ++ ninja_targets self)%list in
  Ninja.clean env (ninja self) w
  = (if rc (outcome env self args w) =? 0
     then Ok tt
     else Err (run_failure env (outcome env self args w) false),
     after_run env self args w).
Proof.
  cbv zeta. unfold Ninja.clean, bind.
  change (Ninja.targets (ninja self)) with (ninja_targets self).
  rewrite _run_eq. destruct (rc _ =? 0); reflexivity.
Qed.

Lemma ninja_compdb_eq (w : World) :
  let args := (["-t"; "compdb"] ++ ninja_targets self)%list in
  Ninja.compdb env (ninja self) w
  = if rc (outcome env self args w) =? 0
    then (Ok tt, after_compdb env self w)
    else (Err (run_failure env (outcome env self args w) false),
          after_compdb env self w).
Proof.
  cbv zeta. unfold Ninja.compdb, after_compdb.
  change (Ninja.targets (ninja self)) with (ninja_targets self).
  rewrite _run_eq. destruct (rc _ =? 0); reflexivity.
Qed.

(** The end of [build], case by case. *)
Lemma export_and_build_eq (w : World) :
  let args := (["-t"; "compdb"] ++ ninja_targets self)%list in
  export_and_build env self w
  = if compdb_enabled env
    then if rc (outcome env self args w) =? 0
         then Ninja.build env (ninja self) (after_compdb env self w)
         else (Err (run_failure env (outcome env self args w) false),
               after_compdb env self w)
    else Ninja.build env (ninja self) w.
Proof.
  cbv zeta. unfold export_and_build, CompdbCapture, bind.
  destruct (compdb_enabled env); [|reflexivity].
  rewrite ninja_compdb_eq. destruct (rc _ =? 0); reflexivity.
Qed.

(** [build] when the guard of the regeneration block does not hold. *)
Lemma build_without_regeneration (w : World) :
  must_regenerate self w = false -> build env self w = export_and_build env self w.
Proof. intros H. unfold build, bind, gets. rewrite H. reflexivity. Qed.

Lemma build_unfold (w : World) :
  build env self w
  = if must_regenerate self w
    then match SafeFileCreation env (_manifest self) (regenerate env self) w with
         | (Ok _, w1) => export_and_build env self w1
         | (Err e, w1) => (Err e, w1)
         end
    else export_and_build env self w.
Proof.
  unfold build, bind, gets. destruct (must_regenerate self w); [|reflexivity].
  destruct (SafeFileCreation _ _ _ _) as [[[]|e] w1]; reflexivity.
Qed.

End Runs.

(* ===================================================================== *)
(** ** Manifest regeneration *)
(* ===================================================================== *)

Section Regeneration.

Variable env : Env.
Variable self : NinjaBuildTask.

Lemma exists_with_tmp (w : World) :
  tmp_path env self w <> _manifest self ->
  fs (with_tmp env self w) !! _manifest self = fs w !! _manifest self.
Proof. intros H. unfold with_tmp. simpl. now apply lookup_insert_ne. Qed.

Lemma swapped_eq (w : World) :
  swapped env self w
  = set_fs (<[_manifest self := new_text env self w]>
              (delete (tmp_path env self w) (fs w))) w.
Proof.
  unfold swapped, rename_if_exists, with_tmp. simpl.
  rewrite lookup_insert_eq. unfold set_fs. simpl.
  now rewrite delete_insert_eq.
Qed.

Lemma swapped_manifest (w : World) :
  fs (swapped env self w) !! _manifest self = Some (new_text env self w).
Proof. rewrite swapped_eq. simpl. apply lookup_insert_eq. Qed.

(** The regeneration block, case by case. *)
Lemma safe_regenerate_eq (w : World) :
  all_tolerated (subject self) = true ->
  tmp_well_formed env self w ->
  SafeFileCreation env (_manifest self) (regenerate env self) w
  = if manifest_changed env self w
    then match Ninja.clean env (ninja self) (with_tmp env self w) with
         | (Ok _, w2) =>
             (Ok tt, rename_if_exists (tmp_path env self w) (_manifest self) w2)
         | (Err e, w2) =>
             (Err e, set_fs (delete (tmp_path env self w) (fs w2)) w2)
         end
    else (Ok tt, swapped env self w).
Proof.
  intros Htol [Hne Hrt].
  unfold SafeFileCreation. fold (tmp_path env self w).
  unfold regenerate at 1. unfold bind at 1.
  rewrite generate_manifest_cases, Htol, Hrt.
  assert (Hw : set_fs (<[tmp_path env self w
                         := manifest_text env (subject self)
                              (posixpath.dirname (tmp_path env self w))]>
                         (fs (set_fs (<[tmp_path env self w := ""]> (fs w)) w)))
                      (set_fs (<[tmp_path env self w := ""]> (fs w)) w)
               = with_tmp env self w).
  { unfold with_tmp, new_text, set_fs. simpl. now rewrite insert_insert_eq. }
  rewrite Hw. unfold bind, gets, exists_, manifest_changed.
  rewrite exists_with_tmp by assumption.
  destruct (fs w !! _manifest self) as [old|] eqn:Hold; [|reflexivity].
  unfold filecmp_cmp. rewrite exists_with_tmp, Hold by assumption.
  assert (Ht : fs (with_tmp env self w) !! tmp_path env self w
               = Some (new_text env self w))
    by (unfold with_tmp; simpl; apply lookup_insert_eq).
  rewrite Ht.
  destruct (String.eqb old (new_text env self w)); simpl; [reflexivity|].
  destruct (Ninja.clean env (ninja self) (with_tmp env self w)) as [[[]|e] w2];
    reflexivity.
Qed.


Lemma procs_rename (a b : string) (w : World) :
  procs (rename_if_exists a b w) = procs w.
Proof. unfold rename_if_exists. destruct (fs w !! a); reflexivity. Qed.

(** The process log after the end of [build]. *)
Lemma export_and_build_procs (w w' : World) :
  export_and_build env self w = (Ok tt, w') ->
  procs w'
  = (procs w ++ (if compdb_enabled env then [compdb_entry env self] else [])
       ++ [build_entry env self])%list.
Proof.
  rewrite export_and_build_eq. cbv zeta.
  destruct (compdb_enabled env).
  - destruct (rc _ =? 0); [|discriminate].
    rewrite ninja_build_eq. intros H. inversion H. simpl.
    now rewrite <- app_assoc.
  - rewrite ninja_build_eq. intros H. inversion H. reflexivity.
Qed.

End Regeneration.

(** The regenerating build, case by case. *)
Lemma build_cases (env : Env) (self : NinjaBuildTask) (w : World) :
  all_tolerated (subject self) = true ->
  tmp_well_formed env self w ->
  build env self w
  = if must_regenerate self w
    then if manifest_changed env self w
         then match Ninja.clean env (ninja self) (with_tmp env self w) with
              | (Ok _, w2) =>
                  export_and_build env self
                    (rename_if_exists (tmp_path env self w) (_manifest self) w2)
              | (Err e, w2) =>
                  (Err e, set_fs (delete (tmp_path env self w) (fs w2)) w2)
              end
         else export_and_build env self (swapped env self w)
    else export_and_build env self w.
Proof.
  intros Htol Hwf. rewrite build_unfold.
  destruct (must_regenerate self w); [|reflexivity].
  rewrite safe_regenerate_eq by assumption.
  destruct (manifest_changed env self w); [|reflexivity].
  destruct (Ninja.clean env (ninja self) (with_tmp env self w)) as [[[]|e] w2];
    reflexivity.
Qed.

(** C2 (amended): [build] regenerates the manifest only under its guard:
    no manifest on disk, no recorded reason, or a reason that mentions the
    manifest file or a phony node.  Under the guard the manifest is
    generated into a temporary file; when a manifest is on disk and its
    content is not the generated one, the executor's clean runs before
    anything else, and the build runs after it; the temporary file is then
    swapped into place whether or not the content changed.  Outside the
    guard the manifest is left alone and the build goes ahead. *)
Theorem C2_manifest_regeneration (env : Env) (self : NinjaBuildTask) (w : World) :
  all_tolerated (subject self) = true ->
  tmp_well_formed env self w ->
  build env self w
  = (if must_regenerate self w
     then if manifest_changed env self w
          then match Ninja.clean env (ninja self) (with_tmp env self w) with
               | (Ok _, w2) =>
                   export_and_build env self
                     (rename_if_exists (tmp_path env self w) (_manifest self) w2)
               | (Err e, w2) =>
                   (Err e, set_fs (delete (tmp_path env self w) (fs w2)) w2)
               end
          else export_and_build env self (swapped env self w)
     else export_and_build env self w)
  /\ fs (with_tmp env self w) !! tmp_path env self w = Some (new_text env self w)
  /\ fs (swapped env self w) !! _manifest self = Some (new_text env self w)
  /\ procs (snd (Ninja.clean env (ninja self) (with_tmp env self w)))
     = (procs w ++ [clean_entry env self])%list
  /\ (forall w', build env self w = (Ok tt, w') ->
        procs w'
        = (procs w
           ++ (if must_regenerate self w && manifest_changed env self w
               then [clean_entry env self] else [])
           ++ (if compdb_enabled env then [compdb_entry env self] else [])
           ++ [build_entry env self])%list).
Proof.
  intros Htol Hwf.
  refine (conj (build_cases env self w Htol Hwf) (conj _ (conj _ (conj _ _)))).
  - unfold with_tmp. simpl. apply lookup_insert_eq.
  - apply swapped_manifest.
  - rewrite ninja_clean_eq. reflexivity.
  - intros w'. rewrite (build_cases env self w Htol Hwf).
    destruct (must_regenerate self w); simpl.
    + destruct (manifest_changed env self w).
      * rewrite ninja_clean_eq. cbv zeta.
        destruct (rc _ =? 0); [|discriminate].
        intros H. apply export_and_build_procs in H.
        rewrite procs_rename in H. simpl in H. rewrite H.
        now rewrite <- app_assoc.
      * intros H. apply export_and_build_procs in H.
        rewrite swapped_eq in H. exact H.
    + apply export_and_build_procs.
Qed.

Lemma C2_manifest_regeneration_witness :
  all_tolerated (subject (Demo.task Demo.plain)) = true
  /\ tmp_well_formed Demo.quiet (Demo.task Demo.plain) Demo.stale
  /\ fs (swapped Demo.quiet (Demo.task Demo.plain) Demo.stale)
       !! _manifest (Demo.task Demo.plain)
     = Some (new_text Demo.quiet (Demo.task Demo.plain) Demo.stale).
Proof.
  assert (H1 : all_tolerated (subject (Demo.task Demo.plain)) = true)
    by (vm_compute; reflexivity).
  assert (H2 : tmp_well_formed Demo.quiet (Demo.task Demo.plain) Demo.stale)
    by (split; [apply String.eqb_neq | ]; vm_compute; reflexivity).
  split; [exact H1 | split; [exact H2 |]].
  exact (proj1 (proj2 (proj2
    (C2_manifest_regeneration Demo.quiet (Demo.task Demo.plain) Demo.stale H1 H2)))).
Defined.

(** C2 as stated fails: a NeedsBuild decision whose reason names neither
    the manifest nor a phony node is followed by a build that does not
    regenerate the manifest, although the manifest on disk is not what
    generation would write; nothing is cleaned. *)
Lemma C2_counterexample :
  let env := Demo.env [Demo.explanation] 0 false in
  let task := set_reason (Demo.task Demo.plain) (Some Demo.explanation) in
  let decided := needsBuild env (Demo.task Demo.plain) None Demo.stale in
  let built_ := build env task (snd decided) in
  fst decided = Ok ((true, Some Demo.explanation), task)
  /\ fst built_ = Ok tt
  /\ procs (snd built_) = [dry_run_entry env task; build_entry env task]
  /\ fs (snd built_) !! _manifest task = Some "# stale\n"
  /\ new_text env task (snd decided) <> "# stale\n"
  /\ fs (snd built_) !! tmp_path env task (snd decided) = None.
Proof.
  cbv zeta. repeat split; try (vm_compute; reflexivity).
  apply String.eqb_neq. vm_compute. reflexivity.
Qed.




(* ===================================================================== *)
(** ** The compile-database export *)
(* ===================================================================== *)

(** C8 (amended): a failing compile-database export (a non-zero exit of
    the executor) aborts [build] like any other failing run of the executor:
    the error is the one [_run] raises, the export is the last process
    spawned, the sink holds what the executor printed, and the real build is
    not invoked.  When the export is not
    asked for, or succeeds, the real build is what runs next. *)
Theorem C8_compdb_failure_aborts (env : Env) (self : NinjaBuildTask) (w : World) :
  let args := (["-t"; "compdb"] ++ ninja_targets self)%list in
  let r := outcome env self args w in
  (compdb_enabled env = true -> rc r <> 0 ->
     export_and_build env self w
     = (Err (run_failure env r false), after_compdb env self w)
     /\ procs (after_compdb env self w) = (procs w ++ [compdb_entry env self])%list
     /\ (must_regenerate self w = false ->
         build env self w
         = (Err (run_failure env r false), after_compdb env self w)))
  /\ (compdb_enabled env = true -> rc r = 0 ->
        export_and_build env self w
        = Ninja.build env (ninja self) (after_compdb env self w)
        /\ procs (snd (export_and_build env self w))
           = (procs w ++ [compdb_entry env self; build_entry env self])%list)
  /\ (compdb_enabled env = false ->
        export_and_build env self w = Ninja.build env (ninja self) w
        /\ procs (snd (export_and_build env self w))
           = (procs w ++ [build_entry env self])%list).
Proof.
  cbv zeta. refine (conj _ (conj _ _)).
  - intros Hon Hrc.
    assert (He : export_and_build env self w
                 = (Err (run_failure env
                           (outcome env self (["-t"; "compdb"] ++ ninja_targets self)%list w)
                           false),
                    after_compdb env self w)).
    { rewrite export_and_build_eq. cbv zeta. rewrite Hon.
      apply Z.eqb_neq in Hrc. now rewrite Hrc. }
    refine (conj He (conj eq_refl _)).
    intros Hregen. now rewrite build_without_regeneration.
  - intros Hon Hrc.
    assert (He : export_and_build env self w
                 = Ninja.build env (ninja self) (after_compdb env self w)).
    { rewrite export_and_build_eq. cbv zeta. rewrite Hon.
      apply Z.eqb_eq in Hrc. now rewrite Hrc. }
    split; [exact He|]. rewrite He, ninja_build_eq. simpl.
    now rewrite <- app_assoc.
  - intros Hoff.
    assert (He : export_and_build env self w = Ninja.build env (ninja self) w).
    { rewrite export_and_build_eq. cbv zeta. now rewrite Hoff. }
    split; [exact He|]. rewrite He, ninja_build_eq. reflexivity.
Qed.

Lemma C8_compdb_failure_aborts_witness :
  let env := Demo.env [Demo.explanation] 1 true in
  let self := set_reason (Demo.task Demo.plain) (Some Demo.explanation) in
  compdb_enabled env = true
  /\ rc (outcome env self (["-t"; "compdb"] ++ ninja_targets self)%list Demo.stale) <> 0
  /\ export_and_build env self Demo.stale
     = (Err (run_failure env
               (outcome env self (["-t"; "compdb"] ++ ninja_targets self)%list Demo.stale)
               false),
        after_compdb env self Demo.stale).
Proof.
  cbv zeta.
  assert (H1 : compdb_enabled (Demo.env [Demo.explanation] 1 true) = true)
    by reflexivity.
  assert (H2 : rc (outcome (Demo.env [Demo.explanation] 1 true)
                     (set_reason (Demo.task Demo.plain) (Some Demo.explanation))
                     (["-t"; "compdb"]
                      ++ ninja_targets
                           (set_reason (Demo.task Demo.plain) (Some Demo.explanation)))%list
                     Demo.stale) <> 0)
    by (vm_compute; discriminate).
  split; [exact H1 | split; [exact H2 |]].
  exact (proj1 (proj1
    (C8_compdb_failure_aborts (Demo.env [Demo.explanation] 1 true)
       (set_reason (Demo.task Demo.plain) (Some Demo.explanation)) Demo.stale) H1 H2)).
Defined.

(** C8 as stated fails: the export exits with status 1, [build] aborts,
    and the real build is never spawned. *)
Lemma C8_counterexample :
  let env := Demo.env [Demo.explanation] 1 true in
  let self := set_reason (Demo.task Demo.plain) (Some Demo.explanation) in
  rc (outcome env self (["-t"; "compdb"] ++ ninja_targets self)%list Demo.stale) = 1
  /\ fst (build env self Demo.stale) = Err (AbortRun (inr ([], [])))
  /\ procs (snd (build env self Demo.stale)) = [compdb_entry env self]
  /\ ~ spawned (build_entry env self) (snd (build env self Demo.stale)).
Proof.
  cbv zeta. repeat split; try (vm_compute; reflexivity).
  unfold spawned.
  assert (H : procs (snd (build (Demo.env [Demo.explanation] 1 true)
                 (set_reason (Demo.task Demo.plain) (Some Demo.explanation)) Demo.stale))
              = [(["ninja"; "-j"; "1"; "-t"; "compdb"], "/ws/out/amd64")])
    by (vm_compute; reflexivity).
  rewrite H. intros [E | []]. vm_compute in E. discriminate E.
Qed.

(* ===================================================================== *)
(** ** The staleness protocol *)
(* ===================================================================== *)

Lemma needs_build_eq (env : Env) (self : NinjaBuildTask) (w : World) :
  let args := (["-n"; "-d"; "explain"] ++ ninja_targets self)%list in
  Ninja.needs_build env (ninja self) w
  = (if rc (outcome env self args w) =? 0
     then read_dry_run (outcome env self args w)
     else Err (run_failure env (outcome env self args w) true),
     after_run env self args w).
Proof.
  cbv zeta. unfold Ninja.needs_build, bind.
  change (Ninja.targets (ninja self)) with (ninja_targets self).
  rewrite _run_eq. destruct (rc _ =? 0); [|reflexivity].
  unfold read_dry_run.
  destruct (err_lines _) as [|d ds].
  - destruct (out_lines _) as [|l [|l' ls]]; try reflexivity.
    destruct (String.eqb l "ninja: no work to do."); reflexivity.
  - destruct (List.filter _ (d :: ds)); reflexivity.
Qed.

Lemma needsBuild_cases (env : Env) (self : NinjaBuildTask) (newestInput : option Z)
    (w : World) :
  needsBuild env self newestInput w
  = let generic := inh_needsBuild (args self) (target_arch self) newestInput w in
    if fst generic
    then (Ok ((true, snd generic), set_reason self (snd generic)), w)
    else if negb (exists_ (_manifest self) w)
    then (Ok ((true, Some "no build manifest"),
              set_reason self (Some "no build manifest")), w)
    else match Ninja.needs_build env (ninja self) w with
         | (Ok (is_needed, reason), w') =>
             (Ok ((is_needed, Some reason), set_reason self (Some reason)), w')
         | (Err e, w') => (Err e, w')
         end.
Proof.
  cbv zeta. unfold needsBuild, bind, gets.
  destruct (inh_needsBuild _ _ _ _) as [needed reason]. simpl.
  destruct needed; [reflexivity|].
  change (_manifest (set_reason self reason)) with (_manifest self).
  change (ninja (set_reason self reason)) with (ninja self).
  destruct (exists_ (_manifest self) w); simpl; [|reflexivity].
  destruct (Ninja.needs_build env (ninja self) w) as [[[n r]|e] w']; reflexivity.
Qed.

(** C1: the staleness query of a Ninja build task goes through its checks
    in a fixed order.  The generic check comes first, and when it asks for a
    build its reason is the answer; otherwise a missing manifest gives
    NeedsBuild with reason "no build manifest"; otherwise the answer is the
    one of the executor's dry run: NeedsBuild with the first explanation line
    when the executor explains pending work, NotNeeded when it has nothing
    to do.  The dry run is the only process spawned and is spawned only when
    the first two checks pass; NotNeeded comes out only when all three do. *)
Theorem C1_needsBuild_protocol (env : Env) (self : NinjaBuildTask)
    (newestInput : option Z) (w : World) :
  let generic := inh_needsBuild (args self) (target_arch self) newestInput w in
  let args_ := (["-n"; "-d"; "explain"] ++ ninja_targets self)%list in
  let r := outcome env self args_ w in
  needsBuild env self newestInput w
  = (if fst generic
     then (Ok ((true, snd generic), set_reason self (snd generic)), w)
     else if negb (exists_ (_manifest self) w)
     then (Ok ((true, Some "no build manifest"),
               set_reason self (Some "no build manifest")), w)
     else match Ninja.needs_build env (ninja self) w with
          | (Ok (is_needed, reason), w') =>
              (Ok ((is_needed, Some reason), set_reason self (Some reason)), w')
          | (Err e, w') => (Err e, w')
          end)
  /\ Ninja.needs_build env (ninja self) w
     = (if rc r =? 0 then read_dry_run r else Err (run_failure env r true),
        after_run env self args_ w)
  /\ procs (after_run env self args_ w) = (procs w ++ [dry_run_entry env self])%list
  /\ (forall line rest,
        err_lines r = line :: rest ->
        read_dry_run r
        = match List.filter (fun l => Py.startswith l "ninja explain:") (line :: rest) with
          | l :: _ => Ok (true, l)
          | [] => Err PyIndexError
          end)
  /\ (err_lines r = [] -> out_lines r = ["ninja: no work to do."] ->
      read_dry_run r = Ok (false, "ninja: no work to do."))
  /\ (forall reason self' w',
        needsBuild env self newestInput w = (Ok ((false, reason), self'), w') ->
        fst generic = false
        /\ exists_ (_manifest self) w = true
        /\ rc r = 0
        /\ err_lines r = []
        /\ reason = Some "ninja: no work to do."
        /\ _reason self' = reason
        /\ w' = after_run env self args_ w).
Proof.
  cbv zeta.
  refine (conj (needsBuild_cases env self newestInput w)
            (conj (needs_build_eq env self w) (conj eq_refl (conj _ (conj _ _))))).
  - intros line rest H. unfold read_dry_run. rewrite H. reflexivity.
  - intros H1 H2. unfold read_dry_run. rewrite H1, H2. reflexivity.
  - intros reason self' w'. rewrite needsBuild_cases. cbv zeta.
    destruct (fst (inh_needsBuild _ _ _ _)); [discriminate|].
    destruct (exists_ (_manifest self) w); simpl; [|discriminate].
    rewrite needs_build_eq. cbv zeta.
    destruct (rc _ =? 0) eqn:Hrc; [|discriminate].
    apply Z.eqb_eq in Hrc.
    unfold read_dry_run.
    destruct (err_lines _) as [|d ds] eqn:Hd.
    + destruct (out_lines _) as [|l [|l' ls]]; try discriminate.
      destruct (String.eqb l "ninja: no work to do.") eqn:El; [|discriminate].
      apply String.eqb_eq in El. subst l.
      intros H. inversion H. subst. simpl. auto 10.
    + destruct (List.filter _ (d :: ds)); discriminate.
Qed.

Lemma C1_needsBuild_protocol_witness :
  needsBuild Demo.quiet (Demo.task Demo.plain) None Demo.stale
  = (Ok ((false, Some "ninja: no work to do."),
         set_reason (Demo.task Demo.plain) (Some "ninja: no work to do.")),
     after_run Demo.quiet (Demo.task Demo.plain)
       (["-n"; "-d"; "explain"] ++ ninja_targets (Demo.task Demo.plain))%list Demo.stale)
  /\ exists_ (_manifest (Demo.task Demo.plain)) Demo.stale = true.
Proof.
  assert (H : needsBuild Demo.quiet (Demo.task Demo.plain) None Demo.stale
              = (Ok ((false, Some "ninja: no work to do."),
                     set_reason (Demo.task Demo.plain) (Some "ninja: no work to do.")),
                 after_run Demo.quiet (Demo.task Demo.plain)
                   (["-n"; "-d"; "explain"] ++ ninja_targets (Demo.task Demo.plain))%list
                   Demo.stale))
    by (vm_compute; reflexivity).
  split; [exact H|].
  destruct (C1_needsBuild_protocol Demo.quiet (Demo.task Demo.plain) None Demo.stale)
    as (_ & _ & _ & _ & _ & Hn).
  destruct (Hn _ _ _ H) as (_ & He & _). exact He.
Defined.

(* ===================================================================== *)
(** ** Toolchain availability *)
(* ===================================================================== *)

Lemma unavailable_iff (env : Env) (arch : string) :
  Toolchain.is_available env (Toolchain.for_ arch) = false <-> arch <> get_arch env.
Proof.
  unfold Toolchain.is_available, Toolchain.is_native, Toolchain.for_. simpl.
  apply String.eqb_neq.
Qed.

(** C6: a task for an architecture other than the host's has no toolchain
    available; when its build is not otherwise forbidden, [buildForbidden]
    aborts with the message "Missing toolchain for <arch>.", the task aborts
    with it, and the world, whose process log counts the processes spawned,
    is left as it was. *)
Theorem C6_missing_toolchain_aborts (env : Env) (self : NinjaBuildTask)
    (newestInput : option Z) (w : World) :
  target_arch self <> get_arch env ->
  inh_buildForbidden (args self) (target_arch self) w = false ->
  Toolchain.is_available env (Toolchain.for_ (target_arch self)) = false
  /\ buildForbidden env self w
     = (Err (AbortMsg ("Missing toolchain for " +:+ target_arch self +:+ ".")), w)
  /\ execute env newestInput self w
     = (Err (AbortMsg ("Missing toolchain for " +:+ target_arch self +:+ ".")), w)
  /\ procs (snd (buildForbidden env self w)) = procs w
  /\ procs (snd (execute env newestInput self w)) = procs w.
Proof.
  intros Harch Hforb.
  assert (Hav : Toolchain.is_available env (Toolchain.for_ (target_arch self)) = false)
    by now apply unavailable_iff.
  assert (Hb : buildForbidden env self w
               = (Err (AbortMsg ("Missing toolchain for " +:+ target_arch self +:+ ".")), w)).
  { unfold buildForbidden, bind, gets. rewrite Hforb, Hav. reflexivity. }
  assert (He : execute env newestInput self w
               = (Err (AbortMsg ("Missing toolchain for " +:+ target_arch self +:+ ".")), w)).
  { unfold execute. now rewrite (bind_err _ _ _ _ _ Hb). }
  rewrite Hb, He. auto.
Qed.

Lemma C6_missing_toolchain_aborts_witness :
  let self := _build_task Demo.plain Demo.inherited "aarch64" in
  target_arch self <> get_arch Demo.quiet
  /\ execute Demo.quiet None self Demo.stale
     = (Err (AbortMsg "Missing toolchain for aarch64."), Demo.stale).
Proof.
  cbv zeta.
  assert (H1 : target_arch (_build_task Demo.plain Demo.inherited "aarch64")
               <> get_arch Demo.quiet) by (simpl; discriminate).
  split; [exact H1|].
  exact (proj1 (proj2 (proj2
    (C6_missing_toolchain_aborts Demo.quiet
       (_build_task Demo.plain Demo.inherited "aarch64") None Demo.stale H1 eq_refl)))).
Defined.

(* ===================================================================== *)
(** ** Multi-architecture composition *)
(* ===================================================================== *)

Section Newest.

Import TimeStampFile.

Lemma newest_acc (l : list (option Z)) (acc : option Z) :
  (foldl newer acc l = None <-> acc = None /\ forall o, In o l -> o = None)
  /\ (forall m, foldl newer acc l = Some m ->
        (acc = Some m \/ In (Some m) l)
        /\ (forall x, acc = Some x \/ In (Some x) l -> x <= m)).
Proof.
  revert acc. induction l as [|o l IH]; intros acc; simpl.
  - split.
    + split; [intros ->; split; [reflexivity | intros ? []] | intros [-> _]; reflexivity].
    + intros m ->. split; [auto|]. intros x [H | []]. inversion H. lia.
  - destruct (IH (newer acc o)) as [IHn IHs]. split.
    + rewrite IHn. split.
      * intros [Hn Hall]. destruct acc as [a|], o as [c|]; simpl in Hn;
          try discriminate; [destruct (a <? c); discriminate|].
        split; [reflexivity|]. intros o' [<- | Ho]; auto.
      * intros [-> Hall]. rewrite (Hall o (or_introl eq_refl)). simpl.
        split; [reflexivity|]. intros o' Ho. apply Hall. now right.
    + intros m Hm. destruct (IHs m Hm) as [Hin Hmax]. split.
      * destruct Hin as [Hin | Hin]; [|auto].
        destruct acc as [a|], o as [c|]; simpl in Hin; auto.
        destruct (a <? c); inversion Hin; subst; auto.
      * intros x Hx.
        assert (Hle : forall y, newer acc o = Some y -> y <= m)
          by (intros y Hy; apply Hmax; now left).
        destruct Hx as [Hx | [Hx | Hx]]; [| |apply Hmax; now right].
        -- subst acc. destruct o as [c|]; simpl in Hle.
           ++ destruct (x <? c) eqn:E; [apply Z.ltb_lt in E | ];
                specialize (Hle _ eq_refl); lia.
           ++ now apply Hle.
        -- subst o. destruct acc as [a|]; simpl in Hle.
           ++ destruct (a <? x) eqn:E; [|apply Z.ltb_ge in E];
                specialize (Hle _ eq_refl); lia.
           ++ now apply Hle.
Qed.

(** [newest] is the maximum of the time stamps that exist. *)
Lemma newest_is_max (l : list (option Z)) :
  (newest l = None <-> forall o, In o l -> o = None)
  /\ (forall m, newest l = Some m <->
        In (Some m) l /\ forall x, In (Some x) l -> x <= m).
Proof.
  unfold newest. destruct (newest_acc l None) as [Hn Hs]. split.
  - rewrite Hn. tauto.
  - intros m. split.
    + intros H. destruct (Hs m H) as [[Hin | Hin] Hmax]; [discriminate|].
      split; [assumption|]. intros x Hx. apply Hmax. now right.
    + intros [Hin Hmax].
      case_eq (foldl newer None l); [intros m' E | intros E].
      * destruct (Hs m' E) as [[Hin' | Hin'] Hmax']; [discriminate|].
        f_equal. apply Z.le_antisymm; [apply Hmax | apply Hmax']; auto.
      * apply Hn in E. destruct E as [_ E]. specialize (E _ Hin). discriminate.
Qed.

End Newest.

Lemma mapM_runs (exec : NinjaBuildTask -> M World NinjaBuildTask)
    (ts ts' : list NinjaBuildTask) (w w' : World) :
  mapM exec ts w = (Ok ts', w') <-> runs_in_order exec ts w ts' w'.
Proof.
  split.
  - revert ts' w. induction ts as [|t ts IH]; intros ts' w; simpl.
    + unfold ret. intros H. inversion H. constructor.
    + unfold bind. destruct (exec t w) as [[t1|e] w1] eqn:E; [|discriminate].
      destruct (mapM exec ts w1) as [[ts1|e] w2] eqn:E2; [|discriminate].
      unfold ret. intros H. inversion H. subst.
      econstructor; [exact E | now apply IH].
  - induction 1 as [w0 | t t' ts ts' w0 w1 w2 He Hr IH]; simpl; [reflexivity|].
    unfold bind. rewrite He, IH. reflexivity.
Qed.

Lemma runs_length (exec : NinjaBuildTask -> M World NinjaBuildTask)
    (ts ts' : list NinjaBuildTask) (w w' : World) :
  runs_in_order exec ts w ts' w' -> length ts' = length ts.
Proof. induction 1; simpl; congruence. Qed.

Lemma mapM_total (exec : NinjaBuildTask -> M World NinjaBuildTask)
    (ts : list NinjaBuildTask) (w : World) :
  (forall t w0, In t ts -> exists t' w1, exec t w0 = (Ok t', w1)) ->
  exists ts' w', mapM exec ts w = (Ok ts', w').
Proof.
  revert w. induction ts as [|t ts IH]; intros w Hall; simpl.
  - unfold ret. eauto.
  - destruct (Hall t w (or_introl eq_refl)) as (t' & w1 & E).
    destruct (IH w1 (fun t0 w0 H => Hall t0 w0 (or_intror H))) as (ts' & w' & E').
    unfold bind, ret. rewrite E, E'. eauto.
Qed.

(** A sequence fails at its first failing sub-task, with that sub-task's
    error and in the world it left. *)
Lemma mapM_fails (exec : NinjaBuildTask -> M World NinjaBuildTask)
    (ts : list NinjaBuildTask) (w w' : World) (e : Error) :
  (exists before t after_ done w1,
     ts = (before ++ t :: after_)%list
     /\ runs_in_order exec before w done w1
     /\ exec t w1 = (Err e, w'))
  <-> mapM exec ts w = (Err e, w').
Proof.
  split.
  - intros (before & t & after_ & done & w1 & -> & Hr & He).
    induction Hr as [w0 | t0 t0' ts0 ts0' w0 w1 w2 Ht Hr IH]; simpl.
    + unfold bind. now rewrite He.
    + unfold bind. rewrite Ht.
      unfold bind in IH. rewrite (IH He). reflexivity.
  - revert w. induction ts as [|t ts IH]; intros w; simpl.
    + unfold ret. discriminate.
    + unfold bind. destruct (exec t w) as [[t1|e1] w1] eqn:E.
      * destruct (mapM exec ts w1) as [[ts1|e2] w2] eqn:E2; [discriminate|].
        intros H. inversion H. subst.
        destruct (IH _ E2) as (before & t0 & after_ & done & w3 & -> & Hr & He).
        exists (t :: before), t0, after_, (t1 :: done), w3.
        refine (conj eq_refl (conj _ He)). econstructor; eassumption.
      * intros H. inversion H. subst.
        exists [], t, ts, [], w. refine (conj eq_refl (conj _ E)). constructor.
Qed.

Lemma multi_execute_eq (exec : NinjaBuildTask -> M World NinjaBuildTask)
    (m : MultiarchBuildTask) (w : World) :
  multi_execute exec m w
  = match mapM exec (subtasks m) w with
    | (Ok executed, w') =>
        (Ok {| subtasks := executed; multi_built := existsb built executed |}, w')
    | (Err e, w') => (Err e, w')
    end.
Proof.
  unfold multi_execute, TaskSequence_execute, bind.
  destruct (mapM exec (subtasks m) w) as [[l|e] w']; reflexivity.
Qed.

(** C3: with multiarch in use the build task of a project is the composed
    task, with one sub-task per declared architecture, in the order of the
    declaration.  Executing it runs every sub-task once, one after the
    other: it succeeds when every sub-task does, and fails with the error
    of the first sub-task that fails, the later ones not run.  Afterwards
    its [built] flag is the disjunction of the sub-tasks' flags, and its
    newest output is the maximum of the sub-tasks' newest outputs (none when
    no sub-task has one). *)
Theorem C3_multiarch_aggregation (env : Env) (p : Project) (a : Inherited)
    (exec : NinjaBuildTask -> M World NinjaBuildTask) (w : World) :
  _use_multiarch env p = true ->
  exists m,
    getBuildTask env p a = MultiarchTask m
    /\ subtasks m = map (_build_task p a) (multiarch p)
    /\ map target_arch (subtasks m) = multiarch p
    /\ (forall m' w',
          multi_execute exec m w = (Ok m', w') ->
          runs_in_order exec (subtasks m) w (subtasks m') w'
          /\ length (subtasks m') = length (multiarch p)
          /\ multi_built m' = existsb built (subtasks m')
          /\ (multi_built m' = true <-> exists t, In t (subtasks m') /\ built t = true)
          /\ multi_newestOutput env m' w'
             = TimeStampFile.newest (map (fun t => newestOutput env t w') (subtasks m'))
          /\ (multi_newestOutput env m' w' = None
              <-> forall t, In t (subtasks m') -> newestOutput env t w' = None)
          /\ (forall ts, multi_newestOutput env m' w' = Some ts
              <-> (exists t, In t (subtasks m') /\ newestOutput env t w' = Some ts)
                  /\ forall t ts', In t (subtasks m') ->
                                   newestOutput env t w' = Some ts' -> ts' <= ts))
    /\ (forall executed w',
          runs_in_order exec (subtasks m) w executed w' ->
          multi_execute exec m w
          = (Ok {| subtasks := executed; multi_built := existsb built executed |}, w'))
    /\ ((forall t w0, In t (subtasks m) -> exists t' w1, exec t w0 = (Ok t', w1)) ->
        exists m' w', multi_execute exec m w = (Ok m', w'))
    /\ (forall e w',
          multi_execute exec m w = (Err e, w') <->
          exists before t after_ done w1,
            subtasks m = (before ++ t :: after_)%list
            /\ runs_in_order exec before w done w1
            /\ exec t w1 = (Err e, w')).
Proof.
  intros Huse.
  exists {| subtasks := map (_build_task p a) (multiarch p); multi_built := false |}.
  refine (conj _ (conj eq_refl (conj _ (conj _ (conj _ (conj _ _)))))).
  - unfold getBuildTask. now rewrite Huse.
  - simpl. rewrite map_map. simpl. apply map_id.
  - intros m' w'. rewrite multi_execute_eq. simpl.
    destruct (mapM exec _ w) as [[l|e] w1] eqn:E; [|discriminate].
    intros H. inversion H. subst. clear H. simpl.
    apply mapM_runs in E.
    refine (conj E (conj _ (conj eq_refl (conj _ (conj eq_refl (conj _ _)))))).
    + rewrite (runs_length _ _ _ _ _ E). apply length_map.
    + rewrite existsb_exists. reflexivity.
    + unfold multi_newestOutput. simpl.
      rewrite (proj1 (newest_is_max _)). split.
      * intros H t Ht. apply H. apply in_map_iff. eauto.
      * intros H o Ho. apply in_map_iff in Ho. destruct Ho as (t & <- & Ht). auto.
    + intros ts. unfold multi_newestOutput. simpl.
      rewrite (proj2 (newest_is_max _)). split.
      * intros [Hin Hmax]. apply in_map_iff in Hin. destruct Hin as (t & Ht & Hin).
        split; [eauto|]. intros t' ts' Ht' Hn. apply Hmax.
        apply in_map_iff. eauto.
      * intros [(t & Ht & Hn) Hmax]. split.
        -- apply in_map_iff. eauto.
        -- intros x Hx. apply in_map_iff in Hx. destruct Hx as (t' & Hn' & Ht'). eauto.
  - intros executed w' Hr. rewrite multi_execute_eq.
    apply mapM_runs in Hr. now rewrite Hr.
  - intros Hall. rewrite multi_execute_eq.
    destruct (mapM_total exec _ w Hall) as (ts' & w' & E). rewrite E. eauto.
  - intros e w'. rewrite multi_execute_eq. simpl.
    transitivity (mapM exec (map (_build_task p a) (multiarch p)) w = (Err e, w'));
      [|symmetry; apply mapM_fails].
    destruct (mapM exec _ w) as [[l|e1] w1]; split; intros H;
      try discriminate; inversion H; reflexivity.
Qed.

Lemma C3_multiarch_aggregation_witness :
  let env := Demo.env [Demo.explanation] 0 false in
  let p := Demo.project ["amd64"; "aarch64"] Demo.tree [] in
  _use_multiarch env p = true
  /\ exists m,
       getBuildTask env p Demo.host_only = MultiarchTask m
       /\ map target_arch (subtasks m) = ["amd64"; "aarch64"]
       /\ exists m' w',
            multi_execute (execute env None) m Demo.two_outputs = (Ok m', w')
            /\ map built (subtasks m') = [true; false]
            /\ procs w' = [dry_run_entry env (Demo.task (Demo.project ["amd64"; "aarch64"]
                                                          Demo.tree []));
                           build_entry env (Demo.task (Demo.project ["amd64"; "aarch64"]
                                                        Demo.tree []))]
            /\ multi_built m' = true
            /\ map (fun t => newestOutput env t w') (subtasks m') = [Some 20; Some 10]
            /\ multi_newestOutput env m' w' = Some 20.
Proof.
  cbv zeta. split; [reflexivity|].
  destruct (C3_multiarch_aggregation (Demo.env [Demo.explanation] 0 false)
              (Demo.project ["amd64"; "aarch64"] Demo.tree []) Demo.host_only
              (execute (Demo.env [Demo.explanation] 0 false) None) Demo.two_outputs eq_refl)
    as (m & H1 & H2 & H3 & H4 & _).
  exists m. refine (conj H1 (conj H3 _)).
  destruct (multi_execute (execute (Demo.env [Demo.explanation] 0 false) None) m
              Demo.two_outputs) as [[m'|e] w'] eqn:E.
  - exists m', w'. destruct (H4 m' w' eq_refl) as (_ & _ & Hb & _ & Hn & _).
    assert (Hm : m = {| subtasks := map (_build_task
                                           (Demo.project ["amd64"; "aarch64"] Demo.tree [])
                                           Demo.host_only)
                                        ["amd64"; "aarch64"];
                        multi_built := false |})
      by (vm_compute in H1; injection H1 as <-; reflexivity).
    subst m. vm_compute in E. injection E as <- <-.
    rewrite Hb, Hn. repeat split; vm_compute; reflexivity.
  - exfalso.
    assert (Hm : m = {| subtasks := map (_build_task
                                           (Demo.project ["amd64"; "aarch64"] Demo.tree [])
                                           Demo.host_only)
                                        ["amd64"; "aarch64"];
                        multi_built := false |})
      by (vm_compute in H1; injection H1 as <-; reflexivity).
    subst m. vm_compute in E. discriminate E.
Defined.

(** The scenario of the specification: one sub-task builds and leaves an
    output at [t1], the other does not build and has an older output. *)
Lemma aggregation_example (a b : NinjaBuildTask) (t1 t2 : Z) :
  built a = true -> t2 < t1 ->
  existsb built [a; b] = true /\ TimeStampFile.newest [Some t1; Some t2] = Some t1.
Proof.
  intros Ha Hlt. simpl. rewrite Ha. split; [reflexivity|].
  unfold TimeStampFile.newest. simpl.
  destruct (t1 <? t2) eqn:E; [apply Z.ltb_lt in E; lia | reflexivity].
Qed.

(* ===================================================================== *)
(** ** Archivable results *)
(* ===================================================================== *)

Section Archivable.

Variable env : Env.
Variable p : Project.
Variables use_relpath single : bool.

Lemma collect_map_cases {A B} (f : A -> Res B) (c : A -> bool) (g : A -> B)
    (e : Error) (l : list A) :
  (forall x, f x = if c x then Ok (g x) else Err e) ->
  collect (map f l) = if forallb c l then Ok (map g l) else Err e.
Proof.
  intros Hf. induction l as [|x l IH]; simpl; [reflexivity|].
  rewrite Hf. destruct (c x); simpl; [|reflexivity].
  rewrite IH. destruct (forallb c l); reflexivity.
Qed.

Lemma result_cases (base_dir file_path : string) :
  result use_relpath base_dir file_path
  = if negb (posixpath.isabs file_path)
    then Ok (posixpath.join base_dir file_path, archive_name use_relpath file_path)
    else Err PyAssertionError.
Proof. unfold result. destruct (posixpath.isabs file_path); reflexivity. Qed.

Lemma _archivable_results_cases (target_arch : string) :
  _archivable_results env p target_arch use_relpath single
  = if asserts_hold env p single then Ok (raw_pairs env p use_relpath single target_arch)
    else Err PyAssertionError.
Proof.
  unfold _archivable_results, asserts_hold, raw_pairs. simpl.
  rewrite result_cases.
  destruct (posixpath.isabs (_target env p)); simpl; [reflexivity|].
  destruct single; simpl; [reflexivity|].
  rewrite (collect_map_cases _
             (fun header => negb (posixpath.isabs (posixpath.join include header)))
             (fun header => (posixpath.join (dir p) (posixpath.join include header),
                             archive_name use_relpath (posixpath.join include header)))
             PyAssertionError).
  - destruct (forallb _ (include_listing p)); reflexivity.
  - intros header. apply result_cases.
Qed.

Lemma archivable_for_cases (target_arch : string) :
  archivable_for env p use_relpath single target_arch
  = if Toolchain.is_native env (Toolchain.for_ target_arch) || negb single
    then if asserts_hold env p single
         then Ok (expected_pairs env p use_relpath single target_arch)
         else Err PyAssertionError
    else Ok [].
Proof.
  unfold archivable_for. rewrite _archivable_results_cases.
  destruct (_ || _); [|reflexivity].
  destruct (asserts_hold env p single); [|reflexivity].
  unfold raw_pairs, expected_pairs, arch_prefix. simpl. f_equal. f_equal.
  destruct single; [reflexivity|]. now rewrite map_map.
Qed.

Lemma collect_archs (archs : list string) :
  match collect (map (archivable_for env p use_relpath single) archs) with
  | Ok ls => Ok (concat ls)
  | Err e => Err e
  end
  = let visited :=
      List.filter (fun a => Toolchain.is_native env (Toolchain.for_ a) || negb single)
                  archs in
    if asserts_hold env p single || negb (nonempty visited)
    then Ok (concat (map (expected_pairs env p use_relpath single) visited))
    else Err PyAssertionError.
Proof.
  cbv zeta. induction archs as [|a archs IH]; simpl.
  - now rewrite orb_true_r.
  - rewrite archivable_for_cases.
    destruct (Toolchain.is_native env (Toolchain.for_ a) || negb single); simpl.
    + destruct (asserts_hold env p single); simpl; [|reflexivity].
      simpl in IH.
      destruct (collect (map (archivable_for env p use_relpath single) archs));
        inversion IH; reflexivity.
    + destruct (collect (map (archivable_for env p use_relpath single) archs));
        simpl in *; exact IH.
Qed.

End Archivable.

Lemma append_assoc (s1 s2 s3 : string) : (s1 +:+ s2) +:+ s3 = s1 +:+ s2 +:+ s3.
Proof.
  induction s1 as [|c s1 IH]; [reflexivity|].
  change (String c ((s1 +:+ s2) +:+ s3) = String c (s1 +:+ s2 +:+ s3)).
  now rewrite IH.
Qed.

Lemma join_relative (a b : string) :
  posixpath.isabs b = false -> Py.truthy a = true -> Py.endswith_char a "/" = false ->
  posixpath.join a b = a +:+ "/" +:+ b.
Proof.
  unfold posixpath.join, posixpath.isabs, posixpath.sep. intros -> -> ->. reflexivity.
Qed.

Lemma join_no_prefix (b : string) : posixpath.join "" b = b.
Proof. unfold posixpath.join. destruct (Py.startswith b "/"); reflexivity. Qed.

Lemma target_truthy (env : Env) (arch : string) :
  Py.truthy (Toolchain.target env (Toolchain.for_ arch)) = true.
Proof. unfold Toolchain.target. destruct (get_os env); reflexivity. Qed.

(** C9 (amended): [getArchivableResults] goes through the declared
    architectures when multiarch is in use and through the host
    architecture alone otherwise; in single mode it yields for the native
    one only, and outside single mode for every one of them, whether or not
    a toolchain is available for it.  For each it yields the pair of the
    deliverable and, outside single mode, one pair per entry of the public
    header directory; when multiarch is declared the archive paths sit under
    the subdirectory [<os>-<arch>]. *)
Theorem C9_archivable_results (env : Env) (p : Project) (use_relpath single : bool) :
  getArchivableResults env p use_relpath single
  = (if asserts_hold env p single || negb (nonempty (yielding env p single))
     then Ok (concat (map (expected_pairs env p use_relpath single)
                          (yielding env p single)))
     else Err PyAssertionError)
  /\ archivable_archs env p
     = (if nonempty (multiarch p) && opt_multiarch env
        then multiarch p else [get_arch env])
  /\ (forall a, In a (yielding env p single)
                <-> In a (archivable_archs env p) /\ (a = get_arch env \/ single = false))
  /\ (forall a, arch_prefix env p a
                = if nonempty (multiarch p) then get_os env +:+ "-" +:+ a else "")
  /\ (forall a x,
        posixpath.isabs x = false ->
        Py.endswith_char (Toolchain.target env (Toolchain.for_ a)) "/" = false ->
        posixpath.join (Toolchain.target env (Toolchain.for_ a)) x
        = get_os env +:+ "-" +:+ a +:+ "/" +:+ x)
  /\ (forall x, posixpath.join "" x = x).
Proof.
  refine (conj _ (conj eq_refl (conj _ (conj (fun _ => eq_refl) (conj _ join_no_prefix))))).
  - unfold getArchivableResults, yielding. apply collect_archs.
  - intros a. unfold yielding. rewrite filter_In.
    unfold Toolchain.is_native, Toolchain.for_. simpl.
    rewrite orb_true_iff, String.eqb_eq, negb_true_iff. tauto.
  - intros a x Hx He. rewrite join_relative; auto using target_truthy.
    unfold Toolchain.target, Toolchain.for_. simpl.
    now rewrite !append_assoc.
Qed.

(** C9 as stated fails: outside single mode the results of an architecture
    without toolchain are yielded as well. *)
Lemma C9_counterexample :
  let p := Demo.project ["amd64"; "aarch64"] Demo.tree [] in
  Toolchain.is_available Demo.quiet (Toolchain.for_ "aarch64") = false
  /\ getArchivableResults Demo.quiet p true false
     = Ok [("/ws/out/amd64/libnative.a", "linux-amd64/libnative.a");
           ("/ws/native/include/a.h", "linux-amd64/include/a.h");
           ("/ws/native/include/b.h", "linux-amd64/include/b.h");
           ("/ws/out/aarch64/libnative.a", "linux-aarch64/libnative.a");
           ("/ws/native/include/a.h", "linux-aarch64/include/a.h");
           ("/ws/native/include/b.h", "linux-aarch64/include/b.h")]
  /\ getArchivableResults Demo.quiet p true false
     <> Ok (concat (map (expected_pairs Demo.quiet p true false)
                        (List.filter
                           (fun a => Toolchain.is_available Demo.quiet (Toolchain.for_ a))
                           (archivable_archs Demo.quiet p)))).
Proof.
  cbv zeta. repeat split; try (vm_compute; reflexivity).
  vm_compute. intros H. discriminate H.
Qed.

(* ===================================================================== *)
(** ** Determinism of manifest generation *)
(* ===================================================================== *)

(** C5: for a fixed project and host, manifest generation gives the same
    outcome whatever the name of the file it writes to and whatever the
    world it starts from, and when it goes through, the text it writes is
    the same, character for character: the text depends on the project, the
    host and the directory of the manifest only.  In particular two
    regenerations by [build] that pick different temporary names in the
    same directory write the same text. *)
Theorem C5_manifest_deterministic (env : Env) (p : Project) (output_dir : string)
    (filename1 filename2 : string) (w1 w2 : World) :
  let run1 := generate_manifest env p output_dir filename1 w1 in
  let run2 := generate_manifest env p output_dir filename2 w2 in
  fst run1 = fst run2
  /\ (is_ok (fst run1) = true ->
      fs (snd run1) !! posixpath.join output_dir filename1
      = Some (manifest_text env p output_dir)
      /\ fs (snd run2) !! posixpath.join output_dir filename2
         = Some (manifest_text env p output_dir))
  /\ (is_ok (fst run1) = false -> snd run1 = w1 /\ snd run2 = w2)
  /\ (forall (self : NinjaBuildTask) (w w' : World),
        subject self = p ->
        posixpath.dirname (tmp_path env self w) = posixpath.dirname (tmp_path env self w') ->
        new_text env self w = new_text env self w').
Proof.
  cbv zeta. rewrite !generate_manifest_cases.
  destruct (all_tolerated p); simpl.
  - refine (conj eq_refl (conj _ (conj _ _))).
    + intros _. split; apply lookup_insert_eq.
    + discriminate.
    + intros self w w' _ H. unfold new_text. now rewrite H.
  - refine (conj eq_refl (conj _ (conj _ _))).
    + discriminate.
    + auto.
    + intros self w w' _ H. unfold new_text. now rewrite H.
Qed.

Lemma C5_manifest_deterministic_witness :
  is_ok (fst (generate_manifest Demo.quiet Demo.plain "/ws/out/amd64" "tmp0build.ninja"
                (Demo.world ∅))) = true
  /\ fs (snd (generate_manifest Demo.quiet Demo.plain "/ws/out/amd64" "tmp0build.ninja"
                (Demo.world ∅)))
       !! posixpath.join "/ws/out/amd64" "tmp0build.ninja"
     = Some (manifest_text Demo.quiet Demo.plain "/ws/out/amd64")
  /\ fs (snd (generate_manifest Demo.quiet Demo.plain "/ws/out/amd64" "tmp1build.ninja"
                Demo.stale))
       !! posixpath.join "/ws/out/amd64" "tmp1build.ninja"
     = Some (manifest_text Demo.quiet Demo.plain "/ws/out/amd64").
Proof.
  assert (H : is_ok (fst (generate_manifest Demo.quiet Demo.plain "/ws/out/amd64"
                            "tmp0build.ninja" (Demo.world ∅))) = true)
    by (vm_compute; reflexivity).
  split; [exact H|].
  exact (proj1 (proj2
    (C5_manifest_deterministic Demo.quiet Demo.plain "/ws/out/amd64"
       "tmp0build.ninja" "tmp1build.ninja" (Demo.world ∅) Demo.stale)) H).
Defined.

Lemma C10_tolerated_extensions_witness :
  In "src/start.S" (files_with_ext Demo.plain ".S")
  /\ exists src_,
       In (Build [Gen._output Demo.quiet "src/start.S" None] "asm" [src_] [])
          (asm_stmts Demo.quiet Demo.plain "src/start.S").
Proof.
  assert (H : In "src/start.S" (files_with_ext Demo.plain ".S"))
    by (vm_compute; left; reflexivity).
  split; [exact H|].
  exact (proj2 (proj2 (proj2 (proj2 (proj2
    (C10_tolerated_extensions Demo.quiet Demo.plain "/ws/out/amd64" "tmp0build.ninja"
       (Demo.world ∅)))))) _ H).
Defined.

Lemma C9_archivable_results_witness :
  posixpath.isabs "libnative.a" = false
  /\ Py.endswith_char (Toolchain.target Demo.quiet (Toolchain.for_ "aarch64")) "/" = false
  /\ posixpath.join (Toolchain.target Demo.quiet (Toolchain.for_ "aarch64")) "libnative.a"
     = "linux-aarch64/libnative.a".
Proof.
  split; [reflexivity | split; [reflexivity|]].
  exact (proj1 (proj2 (proj2 (proj2 (proj2
    (C9_archivable_results Demo.quiet
       (Demo.project ["amd64"; "aarch64"] Demo.tree []) true false))))) "aarch64"
    "libnative.a" eq_refl eq_refl).
Defined.

(* ===================================================================== *)
(** ** Strings and paths *)
(* ===================================================================== *)

Section Strings.

Lemma append_nil_r (s : string) : s +:+ "" = s.
Proof.
  induction s as [|c s IH]; [reflexivity|].
  change (String c (s +:+ "") = String c s). now rewrite IH.
Qed.

Lemma substring_all (s : string) : String.substring 0 (String.length s) s = s.
Proof. induction s as [|c s IH]; simpl; [reflexivity | now rewrite IH]. Qed.

Lemma substring_take_drop (s : string) (n : nat) :
  String.substring 0 n s +:+ String.substring n (String.length s - n) s = s.
Proof.
  revert n. induction s as [|c s IH]; intros [|n]; simpl; try reflexivity.
  - now rewrite substring_all.
  - change (String c (String.substring 0 n s
                      +:+ String.substring n (String.length s - n) s) = String c s).
    now rewrite IH.
Qed.

Lemma take_drop (s : string) (i : Z) : Py.take i s +:+ Py.drop i s = s.
Proof. apply substring_take_drop. Qed.

Lemma drop_cons (c : ascii) (s : string) (i : Z) :
  0 <= i -> Py.drop (i + 1) (String c s) = Py.drop i s.
Proof.
  intros Hi. unfold Py.drop.
  replace (Z.to_nat (i + 1)) with (S (Z.to_nat i)) by lia. reflexivity.
Qed.

Lemma drop_0 (s : string) : Py.drop 0 s = s.
Proof. unfold Py.drop. simpl. rewrite Nat.sub_0_r. apply substring_all. Qed.

(** What [rfind] finds: nothing, and the character does not occur; or an
    index after which it does not occur. *)
Lemma rfind_from_spec (c : ascii) (s : string) (i0 : Z) :
  0 <= i0 ->
  (Py.rfind_from i0 c s = -1 /\ lacks c s = true)
  \/ (i0 <= Py.rfind_from i0 c s < i0 + Py.len s
      /\ lacks c (Py.drop (Py.rfind_from i0 c s - i0 + 1) s) = true).
Proof.
  revert i0. induction s as [|a s IH]; intros i0 Hi0; simpl.
  - left. split; reflexivity.
  - destruct (IH (i0 + 1) ltac:(lia)) as [[Hk Hl] | [Hk Hl]].
    + rewrite Hk. simpl. destruct (Ascii.eqb a c) eqn:E.
      * right. split.
        -- unfold Py.len. simpl. lia.
        -- replace (i0 - i0 + 1) with (0 + 1) by lia.
           rewrite drop_cons by lia. now rewrite drop_0.
      * left. split; [reflexivity|]. now rewrite Hl.
    + assert (Hpos : (0 <=? Py.rfind_from (i0 + 1) c s) = true)
        by (apply Z.leb_le; lia).
      rewrite Hpos. right. split.
      * unfold Py.len in *. simpl. lia.
      * replace (Py.rfind_from (i0 + 1) c s - i0 + 1)
          with ((Py.rfind_from (i0 + 1) c s - (i0 + 1) + 1) + 1) by lia.
        rewrite drop_cons by lia. exact Hl.
Qed.

Lemma rfind_bounds (c : ascii) (s : string) : -1 <= Py.rfind s c < Py.len s.
Proof.
  unfold Py.rfind. destruct (rfind_from_spec c s 0 ltac:(lia)) as [[-> _] | [H _]].
  - unfold Py.len. lia.
  - lia.
Qed.

Lemma lacks_after_rfind (c : ascii) (s : string) :
  lacks c (Py.drop (Py.rfind s c + 1) s) = true.
Proof.
  unfold Py.rfind. destruct (rfind_from_spec c s 0 ltac:(lia)) as [[-> Hl] | [_ Hl]].
  - simpl. now rewrite drop_0.
  - now rewrite Z.sub_0_r in Hl.
Qed.

Lemma lacks_drop_cons (c a : ascii) (s : string) (n : nat) :
  lacks c (String.substring n (String.length s - n) s) = true ->
  lacks c (String.substring (S n) (String.length s - S n) s) = true.
Proof.
  revert n. induction s as [|b s IH]; intros n; [destruct n; reflexivity|].
  destruct n as [|n].
  - simpl. rewrite substring_all. intros H. apply andb_true_iff in H.
    destruct H as [_ H]. rewrite Nat.sub_0_r. now rewrite substring_all.
  - simpl. apply IH.
Qed.

Lemma lacks_drop_mono (c : ascii) (s : string) (i j : Z) :
  0 <= i <= j -> lacks c (Py.drop i s) = true -> lacks c (Py.drop j s) = true.
Proof.
  intros [Hi Hij]. unfold Py.drop.
  assert (Hn : (Z.to_nat i <= Z.to_nat j)%nat) by lia.
  induction Hn as [|m Hm IH]; [auto|].
  intros H. apply (lacks_drop_cons c "a"%char). auto.
Qed.

End Strings.

Lemma rfind_from_at (c : ascii) (s : string) (i0 : Z) :
  0 <= i0 -> 0 <= Py.rfind_from i0 c s ->
  Py.drop (Py.rfind_from i0 c s - i0) s
  = String c (Py.drop (Py.rfind_from i0 c s - i0 + 1) s).
Proof.
  revert i0. induction s as [|a s IH]; intros i0 Hi0; simpl; [lia|].
  destruct (rfind_from_spec c s (i0 + 1) ltac:(lia)) as [[Hk _] | [Hk _]].
  - rewrite Hk. simpl. destruct (Ascii.eqb a c) eqn:E; [|lia].
    intros _. apply Ascii.eqb_eq in E. subst a.
    replace (i0 - i0) with 0 by lia. rewrite drop_0.
    replace (0 + 1) with (0 + 1) by lia. rewrite drop_cons by lia.
    now rewrite drop_0.
  - assert (Hpos : (0 <=? Py.rfind_from (i0 + 1) c s) = true)
      by (apply Z.leb_le; lia).
    rewrite Hpos. intros _.
    replace (Py.rfind_from (i0 + 1) c s - i0)
      with ((Py.rfind_from (i0 + 1) c s - (i0 + 1)) + 1) by lia.
    rewrite drop_cons by lia. rewrite IH by lia.
    f_equal.
    replace (Py.rfind_from (i0 + 1) c s - (i0 + 1) + 1 + 1)
      with ((Py.rfind_from (i0 + 1) c s - (i0 + 1) + 1) + 1) by lia.
    now rewrite drop_cons by lia.
Qed.

(** X1: the extension [os.path.splitext] cuts off, which is the key
    [_source] files a source under and the part [_output] replaces, is
    either empty or a dot followed by characters that are neither dots nor
    slashes; the stem and the extension put together give the name back;
    and [_output] is the stem followed by the object suffix ([.obj] on
    Windows, [.o] elsewhere) or by the suffix it is given. *)
Theorem X1_output_replaces_extension (env : Env) (f e : string) :
  fst (posixpath.splitext f) +:+ ext_of f = f
  /\ (ext_of f = ""
      \/ exists rest, ext_of f = String "." rest
                      /\ lacks "." rest = true /\ lacks "/" rest = true)
  /\ Gen._output env f None
     = fst (posixpath.splitext f) +:+ (if is_windows env then ".obj" else ".o")
  /\ Gen._output env f (Some e) = fst (posixpath.splitext f) +:+ e.
Proof.
  refine (conj _ (conj _ (conj eq_refl eq_refl))).
  - unfold ext_of, posixpath.splitext.
    destruct (_ && _); simpl; [apply take_drop | apply append_nil_r].
  - unfold ext_of, posixpath.splitext.
    destruct ((Py.rfind f posixpath.sep <? Py.rfind f posixpath.extsep) && _) eqn:C;
      simpl; [|now left].
    apply andb_true_iff in C. destruct C as [C _]. apply Z.ltb_lt in C.
    pose proof (rfind_bounds posixpath.sep f) as Hs.
    right. exists (Py.drop (Py.rfind f posixpath.extsep + 1) f).
    refine (conj _ (conj _ _)).
    + pose proof (rfind_from_at posixpath.extsep f 0 ltac:(lia)) as H.
      fold (Py.rfind f posixpath.extsep) in H.
      rewrite !Z.sub_0_r in H. apply H. lia.
    + apply lacks_after_rfind.
    + apply (lacks_drop_mono _ _ (Py.rfind f posixpath.sep + 1)); [lia|].
      apply lacks_after_rfind.
Qed.

(* ===================================================================== *)
(** ** The source tree, grouped *)
(* ===================================================================== *)

(** X2: [_source] files every file of the walk, as the path joined to its
    directory, under the extension of its name and nowhere else, in the
    order of the walk; an extension is a key only when a file has it, so a
    key never holds an empty list and [h_files], [c_files], [cxx_files] and
    [asm_sources] are exactly the files named [*.h], [*.c], [*.cc], [*.S]. *)
Theorem X2_source_grouping (p : Project) :
  (forall e, files_get p e = files_with_ext p e)
  /\ (forall rel_root files f,
        In (rel_root, files) (walk p) -> In f files ->
        In (posixpath.join rel_root f) (files_get p (ext_of f)))
  /\ (forall e path,
        In path (files_get p e) ->
        exists rel_root files f,
          In (rel_root, files) (walk p) /\ In f files /\ ext_of f = e
          /\ path = posixpath.join rel_root f)
  /\ (forall e, e ∈ dom (_source_files p) <-> files_get p e <> []).
Proof.
  assert (Hin : forall rel_root files f,
            In (rel_root, files) (walk p) -> In f files ->
            In (posixpath.join rel_root f) (files_get p (ext_of f))).
  { intros r fl f Hr Hf. rewrite files_get_spec. unfold files_with_ext.
    apply in_concat. exists (map (posixpath.join r)
      (List.filter (fun f' => String.eqb (ext_of f') (ext_of f)) fl)).
    split.
    - apply in_map_iff. exists (r, fl). auto.
    - apply in_map. apply filter_In. split; [assumption | apply String.eqb_refl]. }
  assert (Hout : forall e path,
            In path (files_get p e) ->
            exists rel_root files f,
              In (rel_root, files) (walk p) /\ In f files /\ ext_of f = e
              /\ path = posixpath.join rel_root f).
  { intros e path. rewrite files_get_spec. unfold files_with_ext.
    rewrite in_concat. intros (l & Hl & Hp).
    apply in_map_iff in Hl. destruct Hl as ([r fl] & <- & Hr).
    apply in_map_iff in Hp. destruct Hp as (f & <- & Hf).
    apply filter_In in Hf. destruct Hf as [Hf He]. apply String.eqb_eq in He.
    exists r, fl, f. auto. }
  refine (conj (files_get_spec p) (conj Hin (conj Hout _))).
  intros e. rewrite source_files_dom. split.
  - intros (r & fl & f & Hr & Hf & <-) Hnil.
    specialize (Hin r fl f Hr Hf). rewrite Hnil in Hin. destruct Hin.
  - intros Hne. destruct (files_get p e) as [|path l] eqn:E; [congruence|].
    destruct (Hout e path) as (r & fl & f & Hr & Hf & He & _);
      [rewrite E; now left|].
    exists r, fl, f. auto.
Qed.

Lemma X2_source_grouping_witness :
  In ("src", ["foo.c"; "bar.cc"; "start.S"; ".foo.c.swp"]) (walk Demo.plain)
  /\ In (posixpath.join "src" "bar.cc") (files_get Demo.plain (ext_of "bar.cc")).
Proof.
  assert (H : In ("src", ["foo.c"; "bar.cc"; "start.S"; ".foo.c.swp"]) (walk Demo.plain))
    by (right; left; reflexivity).
  split; [exact H|].
  exact (proj1 (proj2 (X2_source_grouping Demo.plain)) _ _ "bar.cc" H
           (or_intror (or_introl eq_refl))).
Defined.

(* ===================================================================== *)
(** ** The shape of the manifest *)
(* ===================================================================== *)

Section ManifestShape.

Variable env : Env.
Variable p : Project.

Lemma terminal_eq :
  (if Kind_eqb (_kind p) static_lib
   then Gen.ar (_target env p) (object_files env p)
   else (if negb (match cxx_files p with [] => true | _ => false end)
         then Gen.linkxx else Gen.link)
          (_target env p) (object_files env p ++ dep_libs p)%list)
  = [terminal_stmt env p].
Proof.
  unfold terminal_stmt, Gen.ar, Gen.linkxx, Gen.link.
  destruct (_kind p); simpl; try reflexivity; destruct (cxx_files p); reflexivity.
Qed.

Lemma ldvars_eq :
  (if negb (Kind_eqb (_kind p) static_lib)
   then [Variable_ "ldflags" (inr (map (path_substitute env) (ldflags env p)));
         Variable_ "ldlibs" (inr (ldlibs p)); Newline]
   else [])
  = match _kind p with
    | static_lib => []
    | _ => [Variable_ "ldflags" (inr (map (path_substitute env) (ldflags env p)));
            Variable_ "ldlibs" (inr (ldlibs p)); Newline]
    end.
Proof. destruct (_kind p); reflexivity. Qed.

(** The manifest, segment by segment. *)
Lemma manifest_segments (output_dir : string) :
  manifest_stmts env p output_dir
  = ([Comment "Generated by mx. Do not edit."; Newline;
      Variable_ "ninja_required_version" (inl "1.3"); Newline;
      Comment "Directories";
      Variable_ "project" (inl (relpath env (dir p) output_dir)); Newline;
      Comment "Manifest dependencies"]
     ++ map (fun d => Build [Gen._resolve d] "phony" [] []) (source_tree p)
     ++ [Newline; Comment "Used by mx to check...";
         Rule "dry_run" "DRY_RUN $out" true; Newline;
         Comment "...whether manifest needs to be regenerated";
         Build [Ninja.default_manifest] "dry_run" []
               (map Gen._resolve (source_tree p) ++ [suite_py p]);
         Newline;
         Comment "Toolchain configuration";
         Include (escape_path env (posixpath.join (toolchain_output p) "toolchain.ninja"));
         Newline;
         Variable_ "cflags" (inr (map (path_substitute env) (cflags env p))); Newline]
     ++ match _kind p with
        | static_lib => []
        | _ => [Variable_ "ldflags" (inr (map (path_substitute env) (ldflags env p)));
                Variable_ "ldlibs" (inr (ldlibs p)); Newline]
        end
     ++ [Variable_ "includes" (inr (Gen.include_flags p (include_search_list p)));
         Newline; Comment "Compiled project sources"]
     ++ concat (map fst (map (Gen.cc env) (c_files p))) ++ [Newline]
     ++ concat (map fst (map (Gen.cxx env) (cxx_files p))) ++ [Newline]
     ++ concat (map fst (map (Gen.asm env p) (asm_sources p)))
     ++ [Newline; Comment "Project deliverable"]
     ++ [terminal_stmt env p])%list.
Proof.
  unfold manifest_stmts, manifest_body, Gen._generate, Gen._generate_mx_interface,
    Gen.include_dirs, Gen.variables1, compile_cc, compile_cxx, compile_asm.
  rewrite terminal_eq, ldvars_eq.
  simpl. repeat (rewrite <- ?app_assoc; simpl). reflexivity.
Qed.

Lemma filter_segment_nil {A} (P : Stmt -> bool) (g : A -> list Stmt * string)
    (l : list A) :
  (forall x, List.filter P (fst (g x)) = []) ->
  List.filter P (concat (map fst (map g l))) = [].
Proof.
  intros H. induction l as [|x l IH]; simpl; [reflexivity|].
  now rewrite List.filter_app, H, IH.
Qed.

Lemma filter_map_nil {A} (P : Stmt -> bool) (g : A -> Stmt) (l : list A) :
  (forall x, P (g x) = false) -> List.filter P (map g l) = [].
Proof.
  intros H. induction l as [|x l IH]; simpl; [reflexivity|]. now rewrite H.
Qed.

Lemma filter_map_all {A} (P : Stmt -> bool) (g : A -> Stmt) (l : list A) :
  (forall x, P (g x) = true) -> List.filter P (map g l) = map g l.
Proof.
  intros H. induction l as [|x l IH]; simpl; [reflexivity|]. now rewrite H, IH.
Qed.

Lemma asm_fst_cases (f : string) :
  fst (Gen.asm env p f) = asm_stmts env p f /\ snd (Gen.asm env p f) = Gen._output env f None.
Proof. unfold Gen.asm, asm_stmts. destruct (asm_requires_cpp p); split; reflexivity. Qed.

End ManifestShape.

(** X3: a manifest holds exactly one statement that produces the
    deliverable, and it is its last statement: [ar] for a static library,
    otherwise [linkxx] when the project has [.cc] sources and [link] when it
    has none.  Its output is the target, its inputs are the object files,
    followed for a link by the libraries of the build dependencies. *)
Theorem X3_one_terminal_statement (env : Env) (p : Project) (output_dir : string) :
  List.filter is_terminal_stmt (manifest_stmts env p output_dir) = [terminal_stmt env p]
  /\ List.last (manifest_stmts env p output_dir) Newline = terminal_stmt env p
  /\ terminal_stmt env p
     = Build [_target env p]
             (match _kind p with
              | static_lib => "ar"
              | _ => if nonempty (files_with_ext p ".cc") then "linkxx" else "link"
              end)
             (object_files env p
              ++ match _kind p with static_lib => [] | _ => dep_libs p end)%list
             [].
Proof.
  refine (conj _ (conj _ _)).
  - rewrite manifest_segments.
    repeat rewrite List.filter_app.
    rewrite (filter_map_nil is_terminal_stmt) by reflexivity.
    rewrite !(filter_segment_nil is_terminal_stmt);
      [| intros f; rewrite (proj1 (asm_fst_cases env p f)); unfold asm_stmts;
         destruct (asm_requires_cpp p); reflexivity
       | reflexivity | reflexivity].
    assert (Hl : List.filter is_terminal_stmt
                   match _kind p with
                   | static_lib => []
                   | _ => [Variable_ "ldflags"
                             (inr (map (path_substitute env) (ldflags env p)));
                           Variable_ "ldlibs" (inr (ldlibs p)); Newline]
                   end = []) by (destruct (_kind p); reflexivity).
    rewrite Hl. simpl.
    unfold terminal_stmt. destruct (_kind p); simpl; try reflexivity;
      destruct (cxx_files p); reflexivity.
  - rewrite manifest_segments. rewrite !app_assoc. apply last_last.
  - unfold terminal_stmt, cxx_files. rewrite files_get_spec.
    destruct (_kind p); simpl; try reflexivity.
    + now rewrite app_nil_r.
    + destruct (files_with_ext p ".cc"); reflexivity.
    + destruct (files_with_ext p ".cc"); reflexivity.
Qed.

Lemma compiled_outputs_app (l1 l2 : list Stmt) :
  compiled_outputs (l1 ++ l2)%list = (compiled_outputs l1 ++ compiled_outputs l2)%list.
Proof. unfold compiled_outputs. now rewrite map_app, concat_app. Qed.

Lemma compiled_outputs_segment {A} (g : A -> list Stmt * string) (l : list A) :
  (forall x, compiled_outputs (fst (g x)) = [snd (g x)]) ->
  compiled_outputs (concat (map fst (map g l))) = map snd (map g l).
Proof.
  intros H. induction l as [|x l IH]; simpl; [reflexivity|].
  now rewrite compiled_outputs_app, H, IH.
Qed.

Lemma compiled_outputs_phony (l : list string) :
  compiled_outputs (map (fun d => Build [Gen._resolve d] "phony" [] []) l) = [].
Proof. induction l as [|d l IH]; [reflexivity | exact IH]. Qed.

Lemma object_files_eq (env : Env) (p : Project) :
  object_files env p
  = map (fun f => Gen._output env f None)
        (files_with_ext p ".c" ++ files_with_ext p ".cc" ++ files_with_ext p ".S")%list.
Proof.
  unfold object_files, compile_cc, compile_cxx, compile_asm,
    c_files, cxx_files, asm_sources.
  rewrite !files_get_spec, !map_app, !map_map.
  apply f_equal2; [reflexivity|]. apply f_equal2; [reflexivity|].
  apply map_ext. intros f. apply (proj2 (asm_fst_cases env p f)).
Qed.

(** X4: the outputs of the compile statements of a manifest ([cc], [cxx]
    and [asm]; a [cpp] step only feeds its [asm] statement) are, in order,
    the object files handed to the statement that produces the deliverable:
    one object per [.c], [.cc] and [.S] source, named by [_output]. *)
Theorem X4_objects_are_compiled (env : Env) (p : Project) (output_dir : string) :
  compiled_outputs (manifest_stmts env p output_dir) = object_files env p
  /\ object_files env p
     = map (fun f => Gen._output env f None)
           (files_with_ext p ".c" ++ files_with_ext p ".cc" ++ files_with_ext p ".S")%list
  /\ length (object_files env p)
     = (length (c_files p) + length (cxx_files p) + length (asm_sources p))%nat.
Proof.
  refine (conj _ (conj (object_files_eq env p) _)).
  - rewrite manifest_segments. rewrite !compiled_outputs_app.
    rewrite compiled_outputs_phony.
    rewrite !compiled_outputs_segment;
      [| intros f; destruct (asm_fst_cases env p f) as [-> ->]; unfold asm_stmts;
         destruct (asm_requires_cpp p); reflexivity
       | reflexivity | reflexivity].
    assert (Hl : compiled_outputs
                   match _kind p with
                   | static_lib => []
                   | _ => [Variable_ "ldflags"
                             (inr (map (path_substitute env) (ldflags env p)));
                           Variable_ "ldlibs" (inr (ldlibs p)); Newline]
                   end = []) by (destruct (_kind p); reflexivity).
    rewrite Hl.
    assert (Ht : compiled_outputs [terminal_stmt env p] = [])
      by (unfold terminal_stmt; destruct (_kind p); try reflexivity;
          destruct (cxx_files p); reflexivity).
    rewrite Ht. unfold object_files, compile_cc, compile_cxx, compile_asm.
    simpl. now rewrite !app_nil_r.
  - unfold object_files, compile_cc, compile_cxx, compile_asm.
    rewrite !length_app, !length_map. lia.
Qed.

(** X5: the tracking part of a manifest: one [phony] statement per
    directory of the source tree, in the order of the walk, and one
    [dry_run] statement, for [build.ninja] itself, whose implicit inputs are
    those directories followed by the suite's [suite.py]. *)
Theorem X5_manifest_tracks_its_inputs (env : Env) (p : Project) (output_dir : string) :
  List.filter (has_rule "phony") (manifest_stmts env p output_dir)
  = map (fun d => Build [Gen._resolve d] "phony" [] []) (source_tree p)
  /\ List.filter (has_rule "dry_run") (manifest_stmts env p output_dir)
     = [Build [Ninja.default_manifest] "dry_run" []
              (map Gen._resolve (source_tree p) ++ [suite_py p])]
  /\ source_tree p = map fst (walk p).
Proof.
  assert (Hl : forall r, List.filter (has_rule r)
                   match _kind p with
                   | static_lib => []
                   | _ => [Variable_ "ldflags"
                             (inr (map (path_substitute env) (ldflags env p)));
                           Variable_ "ldlibs" (inr (ldlibs p)); Newline]
                   end = []) by (intros r; destruct (_kind p); reflexivity).
  assert (Ht : forall r, mem r ["ar"; "link"; "linkxx"] = false ->
                 List.filter (has_rule r) [terminal_stmt env p] = []).
  { intros r Hr. unfold terminal_stmt. unfold mem in Hr. simpl in Hr.
    rewrite !orb_false_iff in Hr. destruct Hr as (H1 & H2 & H3 & _).
    rewrite String.eqb_sym in H1. rewrite String.eqb_sym in H2.
    rewrite String.eqb_sym in H3.
    destruct (_kind p); [| destruct (cxx_files p) | destruct (cxx_files p)];
      cbv [List.filter has_rule]; rewrite ?H1, ?H2, ?H3; reflexivity. }
  refine (conj _ (conj _ eq_refl)).
  - rewrite manifest_segments. repeat rewrite List.filter_app.
    rewrite (filter_map_all (has_rule "phony")) by reflexivity.
    rewrite !(filter_segment_nil (has_rule "phony"));
      [| intros f; rewrite (proj1 (asm_fst_cases env p f)); unfold asm_stmts;
         destruct (asm_requires_cpp p); reflexivity
       | reflexivity | reflexivity].
    rewrite Hl, Ht by reflexivity. simpl. now rewrite !app_nil_r.
  - rewrite manifest_segments. repeat rewrite List.filter_app.
    rewrite (filter_map_nil (has_rule "dry_run")) by reflexivity.
    rewrite !(filter_segment_nil (has_rule "dry_run"));
      [| intros f; rewrite (proj1 (asm_fst_cases env p f)); unfold asm_stmts;
         destruct (asm_requires_cpp p); reflexivity
       | reflexivity | reflexivity].
    rewrite Hl, Ht by reflexivity. reflexivity.
Qed.

Lemma variable_keys_app (l1 l2 : list Stmt) :
  variable_keys (l1 ++ l2)%list = (variable_keys l1 ++ variable_keys l2)%list.
Proof. unfold variable_keys. now rewrite map_app, concat_app. Qed.

Lemma variable_keys_segment {A} (g : A -> list Stmt * string) (l : list A) :
  (forall x, variable_keys (fst (g x)) = []) ->
  variable_keys (concat (map fst (map g l))) = [].
Proof.
  intros H. induction l as [|x l IH]; simpl; [reflexivity|].
  now rewrite variable_keys_app, H, IH.
Qed.

Lemma variable_keys_phony (l : list string) :
  variable_keys (map (fun d => Build [Gen._resolve d] "phony" [] []) l) = [].
Proof. induction l as [|d l IH]; [reflexivity | exact IH]. Qed.

(** X6: the variables a manifest declares, in order:
    [ninja_required_version], [project], [cflags], then [ldflags] and
    [ldlibs] unless the deliverable is a static library, then [includes];
    a static library has no linker variables at all. *)
Theorem X6_manifest_variables (env : Env) (p : Project) (output_dir : string) :
  variable_keys (manifest_stmts env p output_dir)
  = (["ninja_required_version"; "project"; "cflags"]
     ++ match _kind p with static_lib => [] | _ => ["ldflags"; "ldlibs"] end
     ++ ["includes"])%list.
Proof.
  rewrite manifest_segments. rewrite !variable_keys_app.
  rewrite variable_keys_phony.
  rewrite !variable_keys_segment;
    [| intros f; rewrite (proj1 (asm_fst_cases env p f)); unfold asm_stmts;
       destruct (asm_requires_cpp p); reflexivity
     | reflexivity | reflexivity].
  assert (Ht : variable_keys [terminal_stmt env p] = [])
    by (unfold terminal_stmt; destruct (_kind p); try reflexivity;
        destruct (cxx_files p); reflexivity).
  rewrite Ht. destruct (_kind p); reflexivity.
Qed.

(* ===================================================================== *)
(** ** Default flags *)
(* ===================================================================== *)

Lemma basename_lacks_sep (path : string) :
  lacks "/" (posixpath.basename path) = true.
Proof.
  unfold posixpath.basename, posixpath.split_raw. simpl.
  apply (lacks_after_rfind posixpath.sep).
Qed.

(** X7: the flags of a project are the defaults followed by its own, so
    its own come last on the command line.  On Linux and macOS the
    compiler flags always carry the two debug-prefix maps (version-control
    root and JDK home) and [-gno-record-gcc-switches]; each map replaces the
    directory by its last component, which holds no slash.  A shared
    library is compiled with [-MD] on Windows and [-fPIC] elsewhere, as its
    first flag.  Leaving Morello aside, a project that is not a shared
    library has no default linker flag, and off Linux and macOS no default
    compiler flag either. *)
Theorem X7_default_flags (env : Env) (p : Project) :
  (exists defaults, cflags env p = (defaults ++ _cflags p)%list)
  /\ (exists defaults, ldflags env p = (defaults ++ _ldflags p)%list)
  /\ ((is_linux env || is_darwin env) = true ->
      In (add_debug_prefix (vc_dir p)) (cflags env p)
      /\ In (add_debug_prefix (jdk_home env)) (cflags env p)
      /\ In "-gno-record-gcc-switches" (cflags env p))
  /\ (forall d, add_debug_prefix d
                = "-fdebug-prefix-map=" +:+ quote_if_spaces d +:+ "="
                    +:+ quote_if_spaces (posixpath.basename d)
                /\ lacks "/" (posixpath.basename d) = true)
  /\ (_kind p = shared_lib ->
      exists rest,
        cflags env p
        = (if String.eqb (get_os env) "windows" then "-MD" else "-fPIC") :: rest)
  /\ (_kind p <> shared_lib -> morello_applies env p = false ->
      ldflags env p = _ldflags p
      /\ ((is_linux env || is_darwin env) = false -> cflags env p = _cflags p)).
Proof.
  refine (conj _ (conj _ (conj _ (conj _ (conj _ _))))).
  - unfold cflags. eexists. rewrite !app_assoc. reflexivity.
  - unfold ldflags. eexists. rewrite !app_assoc. reflexivity.
  - intros H. unfold cflags. rewrite H. rewrite !in_app_iff. simpl. auto 10.
  - intros d. split; [reflexivity | apply basename_lacks_sep].
  - intros Hk. unfold cflags. rewrite Hk. simpl.
    destruct (String.eqb (get_os env) "windows"); eexists; reflexivity.
  - intros Hk Hm. unfold ldflags, cflags. rewrite Hm.
    assert (Hs : Kind_eqb (_kind p) shared_lib = false)
      by (destruct (_kind p); try reflexivity; congruence).
    rewrite Hs. split; [reflexivity|]. intros ->. reflexivity.
Qed.

Lemma X7_default_flags_witness :
  (is_linux Demo.quiet || is_darwin Demo.quiet) = true
  /\ In "-fdebug-prefix-map=/ws=ws" (cflags Demo.quiet Demo.plain)
  /\ In "-fdebug-prefix-map=/opt/jdk=jdk" (cflags Demo.quiet Demo.plain).
Proof.
  split; [reflexivity|].
  destruct (proj1 (proj2 (proj2 (X7_default_flags Demo.quiet Demo.plain))) eq_refl)
    as (H1 & H2 & _).
  split; [exact H1 | exact H2].
Defined.

(* ===================================================================== *)
(** ** More on the executor adapter *)
(* ===================================================================== *)

(** X8: each operation of the adapter spawns exactly one process, in the
    build directory of the task: whatever the outcome, the process log
    grows by the one entry of the operation.  [build], [clean] and [compdb]
    succeed exactly when the exit status is 0, and otherwise abort with the
    payload of [_run]; [compdb] hands the lines the executor printed to
    the sink of the compile database before the exit status is tested, so
    the sink has them after a failing export too, and no other operation
    writes to the sink. *)
Theorem X8_one_process_per_operation (env : Env) (self : NinjaBuildTask) (w : World) :
  (procs (snd (Ninja.build env (ninja self) w)) = (procs w ++ [build_entry env self])%list
   /\ is_ok (fst (Ninja.build env (ninja self) w))
      = (rc (outcome env self (ninja_targets self) w) =? 0))
  /\ (procs (snd (Ninja.clean env (ninja self) w)) = (procs w ++ [clean_entry env self])%list
      /\ is_ok (fst (Ninja.clean env (ninja self) w))
         = (rc (outcome env self (["-t"; "clean"] ++ ninja_targets self)%list w) =? 0))
  /\ (procs (snd (Ninja.compdb env (ninja self) w))
      = (procs w ++ [compdb_entry env self])%list
      /\ is_ok (fst (Ninja.compdb env (ninja self) w))
         = (rc (outcome env self (["-t"; "compdb"] ++ ninja_targets self)%list w) =? 0)
      /\ compdb_data (snd (Ninja.compdb env (ninja self) w))
         = (compdb_data w
            ++ out_lines (outcome env self (["-t"; "compdb"] ++ ninja_targets self)%list w))%list
      /\ compdb_data (snd (Ninja.build env (ninja self) w)) = compdb_data w
      /\ compdb_data (snd (Ninja.clean env (ninja self) w)) = compdb_data w)
  /\ (procs (snd (Ninja.needs_build env (ninja self) w))
      = (procs w ++ [dry_run_entry env self])%list
      /\ compdb_data (snd (Ninja.needs_build env (ninja self) w)) = compdb_data w
      /\ ((rc (outcome env self (["-n"; "-d"; "explain"] ++ ninja_targets self)%list w) =? 0)
          = false ->
          fst (Ninja.needs_build env (ninja self) w)
          = Err (run_failure env
                   (outcome env self (["-n"; "-d"; "explain"] ++ ninja_targets self)%list w)
                   true)))
  /\ (forall a, snd (entry env self a) = task_out_dir self
                /\ exists flags,
                     fst (entry env self a)
                     = ([ninja_binary env; "-j"; inh_parallelism (args self)]
                        ++ flags ++ a)%list
                     /\ (flags = ["-v"] \/ flags = [])).
Proof.
  refine (conj _ (conj _ (conj _ (conj _ _)))).
  - rewrite ninja_build_eq. simpl. split; [reflexivity|].
    destruct (rc _ =? 0); reflexivity.
  - rewrite ninja_clean_eq. simpl. split; [reflexivity|].
    destruct (rc _ =? 0); reflexivity.
  - rewrite ninja_compdb_eq, ninja_build_eq, ninja_clean_eq. cbv zeta.
    destruct (rc (outcome env self (["-t"; "compdb"] ++ ninja_targets self)%list w) =? 0);
      simpl; auto.
  - rewrite needs_build_eq. simpl. refine (conj eq_refl (conj eq_refl _)).
    intros ->. reflexivity.
  - intros a. split; [reflexivity|]. unfold entry, Ninja.cmdline. simpl.
    destruct (opt_very_verbose env || Ninja.opt_truthy (MX_VERBOSE env));
      eexists; split; try reflexivity; auto.
Qed.

(** X9: what the dry run can answer.  A NeedsBuild answer carries a line
    of the executor's explanation that starts with "ninja explain:"; a
    NotNeeded answer is the line "ninja: no work to do." and is given only
    when the executor explained nothing; both need exit status 0.  An
    explanation without any "ninja explain:" line ends in [IndexError], and
    silence with any other output than "ninja: no work to do." in
    [AssertionError]. *)
Theorem X9_dry_run_answers (env : Env) (self : NinjaBuildTask) (w : World) :
  let o := outcome env self (["-n"; "-d"; "explain"] ++ ninja_targets self)%list w in
  (forall r w', Ninja.needs_build env (ninja self) w = (Ok (true, r), w') ->
     rc o = 0 /\ Py.startswith r "ninja explain:" = true /\ In r (err_lines o))
  /\ (forall r w', Ninja.needs_build env (ninja self) w = (Ok (false, r), w') ->
        rc o = 0 /\ r = "ninja: no work to do." /\ err_lines o = []
        /\ out_lines o = [r])
  /\ (rc o = 0 -> err_lines o <> [] ->
      (forall l, In l (err_lines o) -> Py.startswith l "ninja explain:" = false) ->
      fst (Ninja.needs_build env (ninja self) w) = Err PyIndexError)
  /\ (rc o = 0 -> err_lines o = [] -> out_lines o <> ["ninja: no work to do."] ->
      fst (Ninja.needs_build env (ninja self) w) = Err PyAssertionError).
Proof.
  cbv zeta. rewrite needs_build_eq. cbv zeta.
  set (o := outcome env self (["-n"; "-d"; "explain"] ++ ninja_targets self)%list w).
  refine (conj _ (conj _ (conj _ _))).
  - intros r w'. destruct (rc o =? 0) eqn:Hrc; [|discriminate].
    apply Z.eqb_eq in Hrc. unfold read_dry_run.
    destruct (err_lines o) as [|d ds] eqn:Hd.
    + destruct (out_lines o) as [|l [|l' ls]]; try discriminate.
      destruct (String.eqb l "ninja: no work to do."); discriminate.
    + destruct (List.filter _ (d :: ds)) as [|l ls] eqn:Hf; [discriminate|].
      intros H. inversion H. subst l.
      assert (Hin : In r (List.filter (fun l => Py.startswith l "ninja explain:")
                            (d :: ds))) by (rewrite Hf; now left).
      apply filter_In in Hin. tauto.
  - intros r w'. destruct (rc o =? 0) eqn:Hrc; [|discriminate].
    apply Z.eqb_eq in Hrc. unfold read_dry_run.
    destruct (err_lines o) as [|d ds] eqn:Hd.
    + destruct (out_lines o) as [|l [|l' ls]]; try discriminate.
      destruct (String.eqb l "ninja: no work to do.") eqn:El; [|discriminate].
      apply String.eqb_eq in El. intros H. inversion H. subst. auto.
    + destruct (List.filter _ (d :: ds)); discriminate.
  - intros Hrc Hne Hall. apply Z.eqb_eq in Hrc. rewrite Hrc. simpl.
    unfold read_dry_run. destruct (err_lines o) as [|d ds] eqn:Hd; [congruence|].
    destruct (List.filter _ (d :: ds)) as [|l ls] eqn:Hf; [reflexivity|].
    assert (Hin : In l (List.filter (fun l => Py.startswith l "ninja explain:")
                          (d :: ds))) by (rewrite Hf; now left).
    apply filter_In in Hin. destruct Hin as [Hin Hs].
    rewrite (Hall l Hin) in Hs. discriminate.
  - intros Hrc He Ho. apply Z.eqb_eq in Hrc. rewrite Hrc. simpl.
    unfold read_dry_run. rewrite He.
    destruct (out_lines o) as [|l [|l' ls]]; try reflexivity.
    destruct (String.eqb l "ninja: no work to do.") eqn:El; [|reflexivity].
    apply String.eqb_eq in El. subst. congruence.
Qed.

Lemma X9_dry_run_answers_witness :
  let env := Demo.env [Demo.explanation] 0 false in
  Ninja.needs_build env (ninja (Demo.task Demo.plain)) Demo.stale
  = (Ok (true, Demo.explanation),
     after_run env (Demo.task Demo.plain)
       (["-n"; "-d"; "explain"] ++ ninja_targets (Demo.task Demo.plain))%list Demo.stale)
  /\ Py.startswith Demo.explanation "ninja explain:" = true.
Proof.
  cbv zeta.
  assert (H : Ninja.needs_build (Demo.env [Demo.explanation] 0 false)
                (ninja (Demo.task Demo.plain)) Demo.stale
              = (Ok (true, Demo.explanation),
                 after_run (Demo.env [Demo.explanation] 0 false) (Demo.task Demo.plain)
                   (["-n"; "-d"; "explain"] ++ ninja_targets (Demo.task Demo.plain))%list
                   Demo.stale)) by (vm_compute; reflexivity).
  split; [exact H|].
  destruct (X9_dry_run_answers (Demo.env [Demo.explanation] 0 false)
              (Demo.task Demo.plain) Demo.stale) as (H1 & _).
  destruct (H1 _ _ H) as (_ & Hs & _). exact Hs.
Defined.

(* ===================================================================== *)
(** ** From the staleness query to the build *)
(* ===================================================================== *)

Lemma must_regenerate_set_reason (self : NinjaBuildTask) (r : option string)
    (w : World) :
  must_regenerate (set_reason self r) w
  = negb (exists_ (_manifest self) w)
    || match r with
       | None => true
       | Some r => Py.contains (posixpath.basename (_manifest self)) r
                   || Py.contains "phony" r
       end.
Proof. reflexivity. Qed.

(** X10: a staleness query that answers leaves its answer in the task:
    the recorded reason is the reason returned, a string or [None], and
    nothing else of the task changes.  The build that follows regenerates
    the manifest exactly when the manifest is missing, the reason is [None],
    or the reason mentions [build.ninja] or [phony].  A [None] reason can
    only be the one of the generic check asking for a build, which leaves
    the world as it was: the build then regenerates although a manifest may
    be on disk.  After the answer "no build manifest", which leaves the
    world as it was too, it always regenerates; and an answer of the dry
    run always carries a reason. *)
Theorem X10_reason_reaches_build (env : Env) (self self' : NinjaBuildTask)
    (newestInput : option Z) (w w' : World) (is_needed : bool)
    (reason : option string) :
  needsBuild env self newestInput w = (Ok ((is_needed, reason), self'), w') ->
  self' = set_reason self reason
  /\ must_regenerate self' w'
     = negb (exists_ (_manifest self) w')
       || match reason with
          | None => true
          | Some r => Py.contains (posixpath.basename (_manifest self)) r
                      || Py.contains "phony" r
          end
  /\ (reason = None ->
      inh_needsBuild (args self) (target_arch self) newestInput w = (true, None)
      /\ is_needed = true /\ w' = w
      /\ must_regenerate self' w' = true)
  /\ (fst (inh_needsBuild (args self) (target_arch self) newestInput w) = true ->
      is_needed = true
      /\ reason = snd (inh_needsBuild (args self) (target_arch self) newestInput w)
      /\ w' = w)
  /\ (fst (inh_needsBuild (args self) (target_arch self) newestInput w) = false ->
      exists_ (_manifest self) w = false ->
      is_needed = true /\ reason = Some "no build manifest" /\ w' = w
      /\ must_regenerate self' w' = true)
  /\ (fst (inh_needsBuild (args self) (target_arch self) newestInput w) = false ->
      exists_ (_manifest self) w = true ->
      exists r, reason = Some r
                /\ Ninja.needs_build env (ninja self) w = (Ok (is_needed, r), w')).
Proof.
  rewrite needsBuild_cases. cbv zeta. intros H.
  assert (Hs : self' = set_reason self reason).
  { destruct (fst (inh_needsBuild _ _ _ _)); [inversion H; reflexivity|].
    destruct (exists_ (_manifest self) w); simpl in H; [|inversion H; reflexivity].
    destruct (Ninja.needs_build env (ninja self) w) as [[[n r]|e] w1];
      inversion H; reflexivity. }
  subst self'.
  refine (conj eq_refl (conj (must_regenerate_set_reason _ _ _) (conj _ (conj _ (conj _ _))))).
  - intros ->. rewrite must_regenerate_set_reason, orb_true_r.
    destruct (inh_needsBuild _ _ _ _) as [needed r]. simpl in H.
    destruct needed.
    + inversion H. subst. auto.
    + destruct (exists_ (_manifest self) w); simpl in H; [|discriminate].
      destruct (Ninja.needs_build env (ninja self) w) as [[[n r0]|e] w1];
        discriminate.
  - intros Hg. rewrite Hg in H. inversion H. auto.
  - intros Hg He. rewrite Hg, He in H. simpl in H. inversion H. subst.
    rewrite must_regenerate_set_reason, He. auto.
  - intros Hg He. rewrite Hg, He in H. simpl in H.
    destruct (Ninja.needs_build env (ninja self) w) as [[[n r0]|e] w1];
      [|discriminate].
    inversion H. subst. eauto.
Qed.

Lemma X10_reason_reaches_build_witness :
  let env := Demo.env [Demo.explanation] 0 false in
  needsBuild env (Demo.forced_task Demo.plain) None Demo.stale
  = (Ok ((true, None), set_reason (Demo.forced_task Demo.plain) None), Demo.stale)
  /\ exists_ (_manifest (Demo.forced_task Demo.plain)) Demo.stale = true
  /\ must_regenerate (set_reason (Demo.forced_task Demo.plain) None) Demo.stale = true.
Proof.
  cbv zeta.
  assert (H : needsBuild (Demo.env [Demo.explanation] 0 false)
                (Demo.forced_task Demo.plain) None Demo.stale
              = (Ok ((true, None), set_reason (Demo.forced_task Demo.plain) None),
                 Demo.stale)) by (vm_compute; reflexivity).
  refine (conj H (conj _ _)); [vm_compute; reflexivity|].
  destruct (X10_reason_reaches_build _ _ _ _ _ _ _ _ H) as (_ & _ & Hn & _).
  destruct (Hn eq_refl) as (_ & _ & _ & Hm). exact Hm.
Defined.

(** X11: [build] never runs the executor without a manifest on disk.
    Whatever process comes first (the clean after a change of the manifest,
    the compile-database export, or the build itself), it runs in a world
    where the manifest exists: the old one for the clean, the new one after
    a regeneration, the one already there otherwise. *)
Theorem X11_executor_sees_a_manifest (env : Env) (self : NinjaBuildTask) (w : World) :
  all_tolerated (subject self) = true ->
  tmp_well_formed env self w ->
  exists_ (_manifest self) (first_executor_world env self w) = true
  /\ build env self w
     = if must_regenerate self w && manifest_changed env self w
       then match Ninja.clean env (ninja self) (first_executor_world env self w) with
            | (Ok _, w2) =>
                export_and_build env self
                  (rename_if_exists (tmp_path env self w) (_manifest self) w2)
            | (Err e, w2) =>
                (Err e, set_fs (delete (tmp_path env self w) (fs w2)) w2)
            end
       else export_and_build env self (first_executor_world env self w).
Proof.
  intros Htol Hwf. split.
  - unfold first_executor_world, exists_.
    destruct (must_regenerate self w) eqn:Hr.
    + destruct (manifest_changed env self w) eqn:Hc.
      * rewrite exists_with_tmp by apply Hwf.
        unfold manifest_changed in Hc.
        destruct (fs w !! _manifest self); [reflexivity | discriminate].
      * now rewrite swapped_manifest.
    + unfold must_regenerate in Hr. apply orb_false_iff in Hr.
      destruct Hr as [Hr _]. apply negb_false_iff in Hr. exact Hr.
  - rewrite (build_cases env self w Htol Hwf). unfold first_executor_world.
    destruct (must_regenerate self w); [|reflexivity].
    destruct (manifest_changed env self w); reflexivity.
Qed.

Lemma X11_executor_sees_a_manifest_witness :
  all_tolerated (subject (Demo.task Demo.plain)) = true
  /\ tmp_well_formed Demo.quiet (Demo.task Demo.plain) (Demo.world ∅)
  /\ exists_ (_manifest (Demo.task Demo.plain))
       (first_executor_world Demo.quiet (Demo.task Demo.plain) (Demo.world ∅)) = true.
Proof.
  assert (H1 : all_tolerated (subject (Demo.task Demo.plain)) = true)
    by (vm_compute; reflexivity).
  assert (H2 : tmp_well_formed Demo.quiet (Demo.task Demo.plain) (Demo.world ∅))
    by (split; [apply String.eqb_neq | ]; vm_compute; reflexivity).
  split; [exact H1 | split; [exact H2 |]].
  exact (proj1 (X11_executor_sees_a_manifest Demo.quiet (Demo.task Demo.plain)
                  (Demo.world ∅) H1 H2)).
Defined.

(** X12: a regenerated manifest is stable.  Once a manifest has been
    swapped into place, a second regeneration from the same project, with a
    temporary file in the same directory, finds the content unchanged: it
    does not run the executor's clean and leaves the same manifest. *)
Theorem X12_regeneration_is_stable (env : Env) (self : NinjaBuildTask) (w : World) :
  let w1 := swapped env self w in
  all_tolerated (subject self) = true ->
  tmp_well_formed env self w1 ->
  posixpath.dirname (tmp_path env self w1) = posixpath.dirname (tmp_path env self w) ->
  manifest_changed env self w1 = false
  /\ fs (swapped env self w1) !! _manifest self = fs w1 !! _manifest self
  /\ build env self w1
     = export_and_build env self (if must_regenerate self w1 then swapped env self w1
                                  else w1).
Proof.
  cbv zeta. intros Htol Hwf Hdir.
  assert (Ht : new_text env self (swapped env self w) = new_text env self w)
    by (unfold new_text; now rewrite Hdir).
  assert (Hc : manifest_changed env self (swapped env self w) = false).
  { unfold manifest_changed. rewrite swapped_manifest, Ht.
    now rewrite String.eqb_refl. }
  refine (conj Hc (conj _ _)).
  - now rewrite !swapped_manifest, Ht.
  - rewrite (build_cases env self _ Htol Hwf), Hc.
    destruct (must_regenerate self (swapped env self w)); reflexivity.
Qed.

Lemma X12_regeneration_is_stable_witness :
  let w1 := swapped Demo.quiet (Demo.task Demo.plain) Demo.stale in
  tmp_well_formed Demo.quiet (Demo.task Demo.plain) w1
  /\ manifest_changed Demo.quiet (Demo.task Demo.plain) Demo.stale = true
  /\ manifest_changed Demo.quiet (Demo.task Demo.plain) w1 = false.
Proof.
  cbv zeta.
  assert (H2 : tmp_well_formed Demo.quiet (Demo.task Demo.plain)
                 (swapped Demo.quiet (Demo.task Demo.plain) Demo.stale))
    by (split; [apply String.eqb_neq | ]; vm_compute; reflexivity).
  split; [exact H2 | split; [vm_compute; reflexivity |]].
  exact (proj1 (X12_regeneration_is_stable Demo.quiet (Demo.task Demo.plain) Demo.stale
                  ltac:(vm_compute; reflexivity) H2 ltac:(vm_compute; reflexivity))).
Defined.

(* ===================================================================== *)
(** ** The toolchain registry and the memoized attributes *)
(* ===================================================================== *)

Lemma registry_ok_empty : registry_ok ∅.
Proof. intros k t H. rewrite lookup_empty in H. discriminate. Qed.

(** X13: the registry of toolchains hands out one descriptor per
    architecture.  In a registry whose descriptors sit under their own
    architecture, [for_] answers with the descriptor of the architecture
    asked for, keeps that property, leaves the other entries alone, and,
    asked again, answers the same without changing the registry; the
    descriptor is available on the host architecture only. *)
Theorem X13_toolchain_registry (env : Env) (arch : string)
    (registry : gmap string Toolchain.t) :
  registry_ok registry ->
  fst (registry_for_ arch registry) = Toolchain.for_ arch
  /\ registry_ok (snd (registry_for_ arch registry))
  /\ snd (registry_for_ arch registry) !! arch = Some (Toolchain.for_ arch)
  /\ (forall k, k <> arch -> snd (registry_for_ arch registry) !! k = registry !! k)
  /\ registry_for_ arch (snd (registry_for_ arch registry))
     = (Toolchain.for_ arch, snd (registry_for_ arch registry))
  /\ (Toolchain.is_available env (fst (registry_for_ arch registry)) = true
      <-> arch = get_arch env).
Proof.
  intros Hok. unfold registry_for_, setdefault, Toolchain.for_.
  destruct (registry !! arch) as [t|] eqn:E; simpl.
  - assert (Ht : t = Toolchain.mk arch)
      by (destruct t as [a]; f_equal; exact (Hok _ _ E)).
    subst t. rewrite E.
    refine (conj eq_refl (conj Hok (conj eq_refl (conj _ (conj eq_refl _))))).
    + reflexivity.
    + unfold Toolchain.is_available, Toolchain.is_native. simpl. apply String.eqb_eq.
  - rewrite lookup_insert_eq.
    refine (conj eq_refl (conj _ (conj eq_refl (conj _ (conj eq_refl _))))).
    + intros k t. destruct (decide (k = arch)) as [-> | Hne].
      * rewrite lookup_insert_eq. intros H. inversion H. reflexivity.
      * rewrite lookup_insert_ne by congruence. apply Hok.
    + intros k Hne. apply lookup_insert_ne. congruence.
    + unfold Toolchain.is_available, Toolchain.is_native. simpl. apply String.eqb_eq.
Qed.

Lemma X13_toolchain_registry_witness :
  registry_ok ∅
  /\ registry_for_ "aarch64" (snd (registry_for_ "aarch64" ∅))
     = (Toolchain.for_ "aarch64", snd (registry_for_ "aarch64" ∅)).
Proof.
  split; [exact registry_ok_empty|].
  exact (proj1 (proj2 (proj2 (proj2 (proj2
    (X13_toolchain_registry Demo.quiet "aarch64" ∅ registry_ok_empty)))))).
Defined.

(** X14: an attribute computed lazily is computed once.  After a read of
    a [lazy_default] attribute has given a value, every later read gives the
    same value and leaves the instance as it is, whatever the initialiser
    would now compute, even an error; the other entries of the instance are
    never touched, and a failing initialiser stores nothing.  A
    [lazy_class_default] attribute keeps its value in the descriptor: once
    computed for one class, it is what every class reads. *)
Theorem X14_lazy_attributes {O V : Type} (init_name : string) :
  (forall (init init' : Res V) (vars_ d : gmap string V) (v : V),
     lazy_default_read init_name init vars_ = (Ok v, d) ->
     lazy_default_read init_name init' d = (Ok v, d)
     /\ d !! init_name = Some v
     /\ (forall k, k <> init_name -> d !! k = vars_ !! k))
  /\ (forall (e : Error) (vars_ : gmap string V),
        vars_ !! init_name = None ->
        lazy_default_read init_name (Err e) vars_ = (Err e, vars_))
  /\ (forall (init init' : O -> Res V) (owner owner' : O)
             (vars_self d : gmap string V) (v : V),
        lazy_class_default_get init_name init owner vars_self = (Ok v, d) ->
        lazy_class_default_get init_name init' owner' d = (Ok v, d)
        /\ (forall k, k <> init_name -> d !! k = vars_self !! k)).
Proof.
  refine (conj _ (conj _ _)).
  - intros init init' vars_ d v. unfold lazy_default_read, setdefault.
    destruct (vars_ !! init_name) as [v0|] eqn:E.
    + intros H. inversion H. subst. rewrite E. auto.
    + destruct init as [v0|e]; [|discriminate].
      intros H. inversion H. subst. rewrite lookup_insert_eq.
      refine (conj eq_refl (conj eq_refl _)).
      intros k Hk. apply lookup_insert_ne. congruence.
  - intros e vars_ H. unfold lazy_default_read. now rewrite H.
  - intros init init' owner owner' vars_self d v.
    unfold lazy_class_default_get, setdefault.
    destruct (vars_self !! init_name) as [v0|] eqn:E.
    + intros H. inversion H. subst. rewrite E. auto.
    + destruct (init owner) as [v0|e]; [|discriminate].
      intros H. inversion H. subst. rewrite lookup_insert_eq.
      split; [reflexivity|]. intros k Hk. apply lookup_insert_ne. congruence.
Qed.

Lemma X14_lazy_attributes_witness :
  lazy_default_read "_source" (Ok 1) (∅ : gmap string Z) = (Ok 1, {[ "_source" := 1 ]})
  /\ lazy_default_read "_source" (Err PyOSError) ({[ "_source" := 1 ]} : gmap string Z)
     = (Ok 1, {[ "_source" := 1 ]}).
Proof.
  assert (H : lazy_default_read "_source" (Ok 1) (∅ : gmap string Z)
              = (Ok 1, {[ "_source" := 1 ]})) by (vm_compute; reflexivity).
  split; [exact H|].
  exact (proj1 (proj1 (X14_lazy_attributes (O := unit) "_source")
                  (Ok 1) (Err PyOSError) ∅ _ 1 H)).
Defined.

(* ===================================================================== *)
(** ** The constructors *)
(* ===================================================================== *)

Lemma mem_elements (x : string) (l : list string) :
  mem x (elements (list_to_set l : gset string)) = true <-> In x l.
Proof.
  rewrite mem_In, <- !list_elem_of_In, elem_of_elements, elem_of_list_to_set.
  reflexivity.
Qed.

(** X15: the [multiarch] attribute after construction.  Without the
    keyword it is empty.  With it, the constructor goes through exactly when
    the host architecture is among the declared architectures, once
    substituted, and aborts otherwise; the attribute then holds each of them
    once, whatever the repetitions of the declaration.  An empty declaration
    aborts. *)
Theorem X15_multiarch_attribute (env : Env) (substitute : string -> string) :
  multiarch_init env substitute None = Ok []
  /\ (forall declared attr,
        multiarch_init env substitute (Some declared) = Ok attr ->
        List.NoDup attr /\ In (get_arch env) attr
        /\ forall a, In a attr <-> In a (map substitute declared))
  /\ (forall declared,
        multiarch_init env substitute (Some declared) = Err (host_missing env)
        <-> ~ In (get_arch env) (map substitute declared))
  /\ multiarch_init env substitute (Some []) = Err (host_missing env).
Proof.
  refine (conj eq_refl (conj _ (conj _ _))).
  - intros declared attr. unfold multiarch_init.
    destruct (mem (get_arch env) _) eqn:Hm; simpl; [|discriminate].
    intros H. inversion H. subst attr. clear H.
    refine (conj _ (conj _ _)).
    + apply NoDup_ListNoDup, NoDup_elements.
    + apply mem_In. exact Hm.
    + intros a. rewrite <- mem_In. apply mem_elements.
  - intros declared. unfold multiarch_init.
    destruct (mem (get_arch env) _) eqn:Hm; simpl.
    + split; [discriminate|]. intros Hn. exfalso. apply Hn.
      now apply mem_elements.
    + split; [|reflexivity]. intros _ Hin. apply mem_elements in Hin.
      rewrite Hin in Hm. discriminate.
  - unfold multiarch_init. simpl. reflexivity.
Qed.

Lemma X15_multiarch_attribute_witness :
  exists attr,
    multiarch_init Demo.quiet (fun a => a) (Some ["aarch64"; "amd64"; "aarch64"]) = Ok attr
    /\ List.NoDup attr /\ length attr = 2%nat.
Proof.
  eexists. split; [vm_compute; reflexivity|].
  split; [|reflexivity].
  exact (proj1 (proj1 (proj2 (X15_multiarch_attribute Demo.quiet (fun a => a)))
                  ["aarch64"; "amd64"; "aarch64"] _ ltac:(vm_compute; reflexivity))).
Defined.

(* ===================================================================== *)
(** ** More on archivable results and on the tasks of a project *)
(* ===================================================================== *)

Lemma filter_host_nodup (host : string) (l : list string) :
  List.NoDup l -> In host l -> List.filter (fun a => String.eqb a host) l = [host].
Proof.
  induction 1 as [|a l Ha Hl IH]; intros Hin; [destruct Hin|]. simpl.
  destruct (String.eqb a host) eqn:E.
  - apply String.eqb_eq in E. subst a. f_equal.
    clear IH Hin. induction l as [|b l IH]; [reflexivity|]. simpl.
    destruct (String.eqb b host) eqn:Eb.
    + apply String.eqb_eq in Eb. subst b. exfalso. apply Ha. now left.
    + apply IH.
      * intros H. apply Ha. now right.
      * now inversion Hl.
  - apply String.eqb_neq in E. destruct Hin as [-> | Hin]; [congruence | auto].
Qed.

(** X16: in single mode the results are those of the host alone.  For a
    project whose [multiarch] attribute is as its constructor leaves it (no
    repetition, the host in it when it is not empty) and whose deliverable
    has a relative name, [getArchivableResults] in single mode yields one
    pair and no more: the deliverable built for the host, whether or not
    multiarch is in use. *)
Theorem X16_single_mode_yields_host_deliverable (env : Env) (p : Project)
    (use_relpath : bool) :
  List.NoDup (multiarch p) ->
  (multiarch p <> [] -> In (get_arch env) (multiarch p)) ->
  posixpath.isabs (_target env p) = false ->
  getArchivableResults env p use_relpath true
  = Ok [(posixpath.join (posixpath.join (out_dir p) (get_arch env)) (_target env p),
         posixpath.join (arch_prefix env p (get_arch env))
                        (archive_name use_relpath (_target env p)))].
Proof.
  intros Hnd Hhost Habs. unfold getArchivableResults. rewrite collect_archs.
  cbv zeta.
  assert (Hy : List.filter
                 (fun a => Toolchain.is_native env (Toolchain.for_ a) || negb true)
                 (archivable_archs env p) = [get_arch env]).
  { rewrite (filter_ext_in_bool _ (fun a => String.eqb a (get_arch env)))
      by (intros a _; unfold Toolchain.is_native; simpl; apply orb_false_r).
    unfold archivable_archs, _use_multiarch.
    destruct (multiarch p) as [|a l] eqn:E; simpl.
    - now rewrite String.eqb_refl.
    - destruct (opt_multiarch env).
      + apply filter_host_nodup; [assumption | apply Hhost; discriminate].
      + simpl. now rewrite String.eqb_refl. }
  rewrite Hy. unfold asserts_hold. rewrite Habs. reflexivity.
Qed.

Lemma X16_single_mode_yields_host_deliverable_witness :
  let p := Demo.project ["aarch64"; "amd64"] Demo.tree [] in
  List.NoDup (multiarch p)
  /\ getArchivableResults Demo.quiet p true true
     = Ok [("/ws/out/amd64/libnative.a", "linux-amd64/libnative.a")].
Proof.
  cbv zeta.
  assert (H1 : List.NoDup (multiarch (Demo.project ["aarch64"; "amd64"] Demo.tree []))).
  { simpl. repeat constructor; simpl; intuition discriminate. }
  split; [exact H1|].
  exact (X16_single_mode_yields_host_deliverable Demo.quiet
           (Demo.project ["aarch64"; "amd64"] Demo.tree []) true H1
           (fun _ => or_intror (or_introl eq_refl)) eq_refl).
Defined.

(** X17: with relative paths off, the archive path of every result of
    [_archivable_results] is a bare file name, without any directory part;
    with them on it is the path relative to its base directory.  The source
    path of the deliverable lies in the output directory of the
    architecture, the source path of a header in the public header directory
    of the project. *)
Theorem X17_archive_paths (env : Env) (p : Project) (target_arch : string)
    (use_relpath single : bool) (l : list (string * string)) :
  _archivable_results env p target_arch use_relpath single = Ok l ->
  l = raw_pairs env p use_relpath single target_arch
  /\ length l = (if single then 1 else S (length (include_listing p)))%nat
  /\ (use_relpath = false ->
      forall file_path archive_path,
        In (file_path, archive_path) l -> lacks "/" archive_path = true)
  /\ (forall file_path archive_path,
        In (file_path, archive_path) l ->
        (file_path = posixpath.join (posixpath.join (out_dir p) target_arch)
                                    (_target env p)
         /\ archive_path = archive_name use_relpath (_target env p))
        \/ (single = false
            /\ exists header,
                 In header (include_listing p)
                 /\ file_path = posixpath.join (dir p) (posixpath.join include header)
                 /\ archive_path
                    = archive_name use_relpath (posixpath.join include header))).
Proof.
  rewrite _archivable_results_cases.
  destruct (asserts_hold env p single); [|discriminate].
  intros H. inversion H. subst l. clear H.
  assert (Hshape : forall file_path archive_path,
            In (file_path, archive_path) (raw_pairs env p use_relpath single target_arch) ->
            (file_path = posixpath.join (posixpath.join (out_dir p) target_arch)
                                        (_target env p)
             /\ archive_path = archive_name use_relpath (_target env p))
            \/ (single = false
                /\ exists header,
                     In header (include_listing p)
                     /\ file_path = posixpath.join (dir p) (posixpath.join include header)
                     /\ archive_path
                        = archive_name use_relpath (posixpath.join include header))).
  { intros fp ap. unfold raw_pairs. intros [Hd | Hh].
    - left. inversion Hd. auto.
    - right. destruct single; [destruct Hh|]. split; [reflexivity|].
      apply in_map_iff in Hh. destruct Hh as (h & Hp & Hin). inversion Hp.
      exists h. auto. }
  refine (conj eq_refl (conj _ (conj _ Hshape))).
  - unfold raw_pairs. simpl. destruct single; simpl; [reflexivity|].
    now rewrite length_map.
  - intros -> fp ap Hin.
    destruct (Hshape fp ap Hin) as [[_ ->] | [_ (h & _ & _ & ->)]];
      apply basename_lacks_sep.
Qed.

Lemma X17_archive_paths_witness :
  _archivable_results Demo.quiet Demo.plain "amd64" false false
  = Ok [("/ws/out/amd64/libnative.a", "libnative.a");
        ("/ws/native/include/a.h", "a.h"); ("/ws/native/include/b.h", "b.h")]
  /\ length [("/ws/out/amd64/libnative.a", "libnative.a");
             ("/ws/native/include/a.h", "a.h"); ("/ws/native/include/b.h", "b.h")]
     = 3%nat.
Proof.
  assert (H : _archivable_results Demo.quiet Demo.plain "amd64" false false
              = Ok [("/ws/out/amd64/libnative.a", "libnative.a");
                    ("/ws/native/include/a.h", "a.h"); ("/ws/native/include/b.h", "b.h")])
    by (vm_compute; reflexivity).
  split; [exact H|].
  exact (proj1 (proj2 (X17_archive_paths Demo.quiet Demo.plain "amd64" false false _ H))).
Defined.

(** X18: without multiarch in use the build task of a project is the one
    task of the host architecture, and that task cannot fail for want of a
    toolchain: [buildForbidden] gives what the inherited check gives and
    leaves the world as it is.  The same holds for the host's task among the
    sub-tasks of a multiarch build. *)
Theorem X18_host_task_has_a_toolchain (env : Env) (p : Project) (a : Inherited)
    (w : World) :
  (_use_multiarch env p = false ->
   getBuildTask env p a = TargetArchTask (_build_task p a (get_arch env)))
  /\ buildForbidden env (_build_task p a (get_arch env)) w
     = (Ok (inh_buildForbidden a (get_arch env) w), w)
  /\ (forall self, target_arch self = get_arch env ->
        buildForbidden env self w
        = (Ok (inh_buildForbidden (args self) (get_arch env) w), w)).
Proof.
  assert (H : forall self, target_arch self = get_arch env ->
            buildForbidden env self w
            = (Ok (inh_buildForbidden (args self) (get_arch env) w), w)).
  { intros self Ht. unfold buildForbidden, bind, gets.
    unfold Toolchain.is_available, Toolchain.is_native, Toolchain.for_. simpl.
    rewrite Ht, String.eqb_refl. simpl. now rewrite andb_false_r. }
  refine (conj _ (conj (H (_build_task p a (get_arch env)) eq_refl) H)).
  intros Hu. unfold getBuildTask. now rewrite Hu.
Qed.

Lemma X18_host_task_has_a_toolchain_witness :
  _use_multiarch Demo.quiet Demo.plain = false
  /\ getBuildTask Demo.quiet Demo.plain Demo.inherited
     = TargetArchTask (Demo.task Demo.plain).
Proof.
  split; [reflexivity|].
  exact (proj1 (X18_host_task_has_a_toolchain Demo.quiet Demo.plain Demo.inherited
                  Demo.stale) eq_refl).
Defined.

Lemma kind_of_string_static (kind : string) (k : Kind) :
  kind_of_string kind = Some k ->
  (String.eqb kind "static_lib" = true <-> k = static_lib).
Proof.
  unfold kind_of_string.
  destruct (String.eqb kind "static_lib"); [intros H; inversion H; tauto|].
  destruct (String.eqb kind "shared_lib"); [intros H; inversion H; split; discriminate|].
  destruct (String.eqb kind "executable"); [intros H; inversion H; split; discriminate|].
  discriminate.
Qed.

(** X19: the constructor of a default native project checks, in this
    order, that no source directory is given, that the multiarch
    declaration contains the host, that the kind is one of [static_lib],
    [shared_lib], [executable], and that the public header directory is
    flat, and aborts at the first check that fails, each check with a
    message of its own: a later check is reached only when the earlier ones
    passed, whatever it would have found.  The constructor goes through
    exactly when the four checks pass.  When it goes through,
    the source directories are [include] and [src], the project contributes
    its header directory to its dependents, a deliverable not named
    otherwise is the last dot-separated component of the project name, and a
    static library, and only a static library, contributes one library: the
    very file the host's build task produces. *)
Theorem X19_default_native_project_init (env : Env) (substitute : string -> string)
    (a : InitArgs) :
  (nonempty (arg_srcDirs a) = true ->
   DefaultNativeProject_init env substitute a = Err sourceDirs_unsupported)
  /\ (forall e, arg_srcDirs a = [] ->
        multiarch_init env substitute (arg_multiarch a) = Err e ->
        DefaultNativeProject_init env substitute a = Err e)
  /\ (forall m, arg_srcDirs a = [] ->
        multiarch_init env substitute (arg_multiarch a) = Ok m ->
        kind_of_string (arg_kind a) = None ->
        DefaultNativeProject_init env substitute a = Err (unknown_kind (arg_kind a)))
  /\ (forall m k, arg_srcDirs a = [] ->
        multiarch_init env substitute (arg_multiarch a) = Ok m ->
        kind_of_string (arg_kind a) = Some k ->
        nonempty (arg_include_subdirs a) = true ->
        DefaultNativeProject_init env substitute a = Err not_flat)
  /\ (sourceDirs_unsupported <> unknown_kind (arg_kind a)
      /\ sourceDirs_unsupported <> not_flat
      /\ unknown_kind (arg_kind a) <> not_flat)
  /\ is_ok (DefaultNativeProject_init env substitute a)
     = negb (nonempty (arg_srcDirs a))
       && is_ok (multiarch_init env substitute (arg_multiarch a))
       && match kind_of_string (arg_kind a) with Some _ => true | None => false end
       && negb (nonempty (arg_include_subdirs a))
  /\ (forall c,
        DefaultNativeProject_init env substitute a = Ok c ->
        arg_srcDirs a = [] /\ c_srcDirs c = ["include"; "src"]
        /\ multiarch_init env substitute (arg_multiarch a) = Ok (c_multiarch c)
        /\ kind_of_string (arg_kind a) = Some (c_kind c)
        /\ arg_include_subdirs a = []
        /\ c_include_dirs c = [posixpath.join (arg_dir a) "include"]
        /\ (arg_deliverable a = None ->
            c_deliverable c = last_component (arg_name a)
            /\ lacks "." (c_deliverable c) = true)
        /\ (c_libs c <> [] <-> c_kind c = static_lib)
        /\ (forall p inh,
              constructed_as c (arg_out_dir a) p -> c_kind c = static_lib ->
              c_libs c
              = [posixpath.join (task_out_dir (_build_task p inh (get_arch env)))
                                (_target env p)])).
Proof.
  refine (conj _ (conj _ (conj _ (conj _ (conj _ (conj _ _)))))).
  - intros H. unfold DefaultNativeProject_init. now rewrite H.
  - intros e Hs Hm. unfold DefaultNativeProject_init. now rewrite Hs, Hm.
  - intros m Hs Hm Hk. unfold DefaultNativeProject_init. now rewrite Hs, Hm, Hk.
  - intros m k Hs Hm Hk Hf. unfold DefaultNativeProject_init.
    now rewrite Hs, Hm, Hk, Hf.
  - unfold sourceDirs_unsupported, unknown_kind, not_flat.
    repeat split; intros H; inversion H.
  - unfold DefaultNativeProject_init.
    destruct (nonempty (arg_srcDirs a)); [reflexivity|].
    destruct (multiarch_init env substitute (arg_multiarch a)); [|reflexivity].
    destruct (kind_of_string (arg_kind a)); [|reflexivity].
    destruct (nonempty (arg_include_subdirs a)); reflexivity.
  - intros c. unfold DefaultNativeProject_init.
    destruct (arg_srcDirs a) as [|s ss] eqn:Hs; simpl; [|discriminate].
    destruct (multiarch_init env substitute (arg_multiarch a)) as [m|e]; [|discriminate].
    destruct (kind_of_string (arg_kind a)) as [k|] eqn:Hk; [|discriminate].
    destruct (arg_include_subdirs a) as [|d ds]; simpl; [|discriminate].
    intros H. inversion H. subst c. clear H. simpl.
    pose proof (kind_of_string_static _ _ Hk) as Hst.
    refine (conj eq_refl (conj eq_refl (conj eq_refl (conj eq_refl
              (conj eq_refl (conj eq_refl (conj _ (conj _ _)))))))).
    + intros ->. simpl. split; [reflexivity|].
      apply (lacks_after_rfind "."%char).
    + destruct (String.eqb (arg_kind a) "static_lib").
      * split; [intros _; now apply Hst | discriminate].
      * split; [congruence|]. intros Hk'. apply Hst in Hk'. discriminate.
    + intros p inh (Hd & Hkind & _ & Hout) Hs'. simpl in Hd, Hkind.
      apply Hst in Hs'. rewrite Hs'.
      unfold join3, task_out_dir, _build_task, _target. simpl.
      now rewrite Hout, Hd, Hkind.
Qed.

Lemma X19_default_native_project_init_witness :
  (exists c,
     DefaultNativeProject_init Demo.quiet (fun s => s) demo_init_args = Ok c
     /\ c_deliverable c = "native"
     /\ c_libs c = ["/ws/out/amd64/libnative.a"]
     /\ lacks "." (c_deliverable c) = true)
  /\ nonempty (arg_include_subdirs demo_bad_args) = true
  /\ DefaultNativeProject_init Demo.quiet (fun s => s) demo_bad_args
     = Err (unknown_kind "jar").
Proof.
  split.
  - eexists. split; [vm_compute; reflexivity|].
    split; [reflexivity | split; [reflexivity|]].
    destruct (X19_default_native_project_init Demo.quiet (fun s => s) demo_init_args)
      as (_ & _ & _ & _ & _ & _ & H).
    destruct (H _ ltac:(vm_compute; reflexivity)) as (_ & _ & _ & _ & _ & _ & Hd & _).
    exact (proj2 (Hd eq_refl)).
  - split; [reflexivity|].
    destruct (X19_default_native_project_init Demo.quiet (fun s => s) demo_bad_args)
      as (_ & _ & H & _).
    exact (H [] eq_refl eq_refl eq_refl).
Defined.

(* ===================================================================== *)
(** ** Paths that do not collide *)
(* ===================================================================== *)

Section Collisions.

Lemma length_append (s1 s2 : string) :
  String.length (s1 +:+ s2) = (String.length s1 + String.length s2)%nat.
Proof.
  induction s1 as [|c s1 IH]; [reflexivity|].
  change (S (String.length (s1 +:+ s2)) = S (String.length s1 + String.length s2)).
  now rewrite IH.
Qed.

Lemma append_cancel_r (s x1 x2 : string) : x1 +:+ s = x2 +:+ s -> x1 = x2.
Proof.
  revert x2. induction x1 as [|c x1 IH]; intros [|d x2] H.
  - reflexivity.
  - apply (f_equal String.length) in H.
    change (String.length s = S (String.length (x2 +:+ s))) in H.
    rewrite length_append in H. lia.
  - apply (f_equal String.length) in H.
    change (S (String.length (x1 +:+ s)) = String.length s) in H.
    rewrite length_append in H. lia.
  - change (String c (x1 +:+ s) = String d (x2 +:+ s)) in H.
    inversion H. f_equal. now apply IH.
Qed.

Lemma lacks_not_abs (a : string) : lacks "/" a = true -> posixpath.isabs a = false.
Proof.
  destruct a as [|c r]; [reflexivity|]. simpl. intros H.
  apply andb_true_iff in H. destruct H as [H _]. apply negb_true_iff in H.
  destruct (Ascii.eqb_spec c "/"%char) as [-> | Hne]; [discriminate|].
  cbv [posixpath.isabs Py.startswith String.prefix].
  destruct (ascii_dec "/" c) as [E | _]; [congruence | reflexivity].
Qed.

Lemma endswith_lacks (a : string) (c : ascii) :
  lacks c a = true -> Py.endswith_char a c = false.
Proof.
  induction a as [|b r IH]; [reflexivity|]. simpl. intros H.
  apply andb_true_iff in H. destruct H as [Hb Hr]. apply negb_true_iff in Hb.
  destruct r; [exact Hb | now apply IH].
Qed.

Lemma endswith_append (s a : string) (c : ascii) :
  a <> "" -> Py.endswith_char (s +:+ a) c = Py.endswith_char a c.
Proof.
  intros Ha. induction s as [|b s IH]; [reflexivity|].
  change (Py.endswith_char (String b (s +:+ a)) c = Py.endswith_char a c).
  simpl. destruct (s +:+ a) eqn:E; [|exact IH].
  destruct s as [|b' s'];
    [change (a = "") in E; congruence
    | change (String b' (s' +:+ a) = "") in E; discriminate E].
Qed.

Lemma truthy_append (s a : string) : a <> "" -> Py.truthy (s +:+ a) = true.
Proof. intros Ha. destruct s; [destruct a; [congruence | reflexivity] | reflexivity]. Qed.

(** [join] with a relative second part: a prefix that depends on the first
    part only, then the second part. *)
Lemma join_relative_shape (o a : string) :
  posixpath.isabs a = false ->
  posixpath.join o a
  = (if negb (Py.truthy o) || Py.endswith_char o posixpath.sep then o else o +:+ "/")
      +:+ a.
Proof.
  unfold posixpath.join, posixpath.isabs. intros ->.
  destruct (negb (Py.truthy o) || Py.endswith_char o posixpath.sep); [reflexivity|].
  now rewrite append_assoc.
Qed.

Lemma join_inj_relative (o a b : string) :
  posixpath.isabs a = false -> posixpath.isabs b = false ->
  posixpath.join o a = posixpath.join o b -> a = b.
Proof.
  intros Ha Hb. rewrite !join_relative_shape by assumption.
  apply String.app_inj.
Qed.

End Collisions.

(** X20: the tasks of two different architectures never share their
    output directory, nor, for architectures named without a slash, their
    manifest: each task of a multiarch build works in a directory of its
    own, under the output root of the project. *)
Theorem X20_tasks_do_not_share_directories (p : Project) (inh : Inherited)
    (a b : string) :
  a <> b ->
  (posixpath.isabs a = false -> posixpath.isabs b = false ->
   task_out_dir (_build_task p inh a) <> task_out_dir (_build_task p inh b)
   /\ Ninja.build_dir (ninja (_build_task p inh a))
      <> Ninja.build_dir (ninja (_build_task p inh b)))
  /\ (a <> "" -> b <> "" -> lacks "/" a = true -> lacks "/" b = true ->
      _manifest (_build_task p inh a) <> _manifest (_build_task p inh b)
      /\ _manifest (_build_task p inh a)
         = task_out_dir (_build_task p inh a) +:+ "/build.ninja").
Proof.
  intros Hab.
  assert (Hdir : posixpath.isabs a = false -> posixpath.isabs b = false ->
                 task_out_dir (_build_task p inh a) <> task_out_dir (_build_task p inh b)).
  { intros Ha Hb H. apply Hab. unfold task_out_dir in H. simpl in H.
    eapply join_inj_relative; eauto. }
  split; [intros Ha Hb; split; [auto | simpl; auto]|].
  intros Hna Hnb Hla Hlb.
  assert (Hm : forall c, c <> "" -> lacks "/" c = true ->
            _manifest (_build_task p inh c)
            = task_out_dir (_build_task p inh c) +:+ "/build.ninja").
  { intros c Hc Hl. unfold _manifest, task_out_dir. simpl.
    rewrite (join_relative_shape (out_dir p) c) by now apply lacks_not_abs.
    rewrite (join_relative_shape _ Ninja.default_manifest) by reflexivity.
    rewrite truthy_append by assumption.
    unfold posixpath.sep. rewrite endswith_append by assumption.
    rewrite (endswith_lacks c) by assumption. simpl.
    now rewrite append_assoc. }
  split; [|now apply Hm].
  rewrite !Hm by assumption. intros H. apply append_cancel_r in H.
  revert H. apply Hdir; now apply lacks_not_abs.
Qed.

Lemma X20_tasks_do_not_share_directories_witness :
  "amd64" <> "aarch64"
  /\ _manifest (_build_task Demo.plain Demo.inherited "amd64")
     <> _manifest (_build_task Demo.plain Demo.inherited "aarch64").
Proof.
  assert (H : "amd64" <> "aarch64") by discriminate.
  split; [exact H|].
  exact (proj1 (proj2 (X20_tasks_do_not_share_directories Demo.plain Demo.inherited
                         "amd64" "aarch64" H)
                  ltac:(discriminate) ltac:(discriminate) eq_refl eq_refl)).
Defined.

(* ===================================================================== *)
(** ** The include flags *)
(* ===================================================================== *)

Section IncludeFlags.

Lemma prefix_nil (s : string) : String.prefix "" s = true.
Proof. destruct s; reflexivity. Qed.

Lemma prefix_of_nil (sub : string) : String.prefix sub "" = true -> sub = "".
Proof. destruct sub; [reflexivity | discriminate]. Qed.

Lemma prefix_append (sub x b : string) :
  String.prefix sub x = true -> String.prefix sub (x +:+ b) = true.
Proof.
  revert x. induction sub as [|a sub IH]; intros x H; [apply prefix_nil|].
  destruct x as [|c x]; [discriminate|].
  change (String.prefix (String a sub) (String c (x +:+ b)) = true).
  simpl in *. destruct (ascii_dec a c); [now apply IH | discriminate].
Qed.

Lemma contains_nil (s : string) : Py.contains "" s = true.
Proof. destruct s; reflexivity. Qed.

Lemma contains_append_l (sub x b : string) :
  Py.contains sub x = true -> Py.contains sub (x +:+ b) = true.
Proof.
  induction x as [|c x IH]; intros H.
  - simpl in H. apply prefix_of_nil in H. subst sub. apply contains_nil.
  - change (Py.contains sub (String c (x +:+ b)) = true).
    simpl in H. apply orb_true_iff in H.
    change (String.prefix sub (String c (x +:+ b)) || Py.contains sub (x +:+ b) = true).
    apply orb_true_iff. destruct H as [H | H].
    + left. now apply (prefix_append sub (String c x) b).
    + right. now apply IH.
Qed.

Lemma contains_append_r (sub a x : string) :
  Py.contains sub x = true -> Py.contains sub (a +:+ x) = true.
Proof.
  intros H. induction a as [|c a IH]; [exact H|].
  change (String.prefix sub (String c (a +:+ x)) || Py.contains sub (a +:+ x) = true).
  rewrite IH. apply orb_true_r.
Qed.

Variable p : Project.

Lemma has_spaces_inside (a x b : string) :
  has_spaces p x = true -> has_spaces p (a +:+ x +:+ b) = true.
Proof.
  unfold has_spaces. intros H. apply orb_true_iff in H. apply orb_true_iff.
  destruct H as [H | H].
  - left. apply contains_append_r. now apply contains_append_l.
  - right. apply andb_true_iff in H. destruct H as [H1 H2].
    rewrite H2, andb_true_r. apply contains_append_r. now apply contains_append_l.
Qed.

Lemma quote_inj (x y : string) : Gen.quote p x = Gen.quote p y -> x = y.
Proof.
  unfold Gen.quote. fold (has_spaces p x). fold (has_spaces p y).
  destruct (has_spaces p x) eqn:Hx, (has_spaces p y) eqn:Hy; intros H.
  - apply String.app_inj in H. now apply append_cancel_r in H.
  - rewrite <- H, has_spaces_inside in Hy by assumption. discriminate.
  - rewrite H, has_spaces_inside in Hx by assumption. discriminate.
  - exact H.
Qed.

Lemma resolve_cases (d : string) :
  Gen._resolve d = if posixpath.isabs d then d else "$project/" +:+ d.
Proof.
  unfold Gen._resolve, posixpath.join, posixpath.isabs.
  destruct (Py.startswith d "/"); reflexivity.
Qed.

Lemma resolve_inj (d1 d2 : string) : Gen._resolve d1 = Gen._resolve d2 -> d1 = d2.
Proof.
  rewrite !resolve_cases.
  destruct (posixpath.isabs d1) eqn:H1, (posixpath.isabs d2) eqn:H2; intros H.
  - exact H.
  - rewrite H in H1. discriminate H1.
  - rewrite <- H in H2. discriminate H2.
  - now apply String.app_inj in H.
Qed.

Lemma include_flag_inj (d1 d2 : string) :
  "-I" +:+ Gen.quote p (Gen._resolve d1) = "-I" +:+ Gen.quote p (Gen._resolve d2) ->
  d1 = d2.
Proof.
  intros H. apply String.app_inj in H. apply quote_inj in H. now apply resolve_inj.
Qed.

End IncludeFlags.

Lemma NoDup_map_injective (g : string -> string) (l : list string) :
  (forall x y, g x = g y -> x = y) -> List.NoDup l -> List.NoDup (map g l).
Proof.
  intros Hg. induction 1 as [|a l Ha Hl IH]; simpl; constructor; [|assumption].
  intros Hin. apply in_map_iff in Hin. destruct Hin as (b & Hb & Hin).
  apply Hg in Hb. subst b. contradiction.
Qed.

(** X21: different directories never give the same include flag.  A
    relative directory is resolved under [$project] and an absolute one is
    kept as it is; the flag is [-I] followed by the resolved directory, in
    double quotes when it has a space (or goes through [$project] while the
    project directory has one).  So the [includes] variable of a manifest
    has one flag per directory of the search list, without repetition. *)
Theorem X21_include_flags_are_distinct (p : Project) :
  (forall d, Gen._resolve d = if posixpath.isabs d then d else "$project/" +:+ d)
  /\ (forall d1 d2,
        "-I" +:+ Gen.quote p (Gen._resolve d1) = "-I" +:+ Gen.quote p (Gen._resolve d2) ->
        d1 = d2)
  /\ List.NoDup (Gen.include_flags p (include_search_list p))
  /\ length (Gen.include_flags p (include_search_list p))
     = length (include_search_list p).
Proof.
  refine (conj resolve_cases (conj (include_flag_inj p) (conj _ _))).
  - unfold Gen.include_flags. apply NoDup_map_injective.
    + intros d1 d2. apply include_flag_inj.
    + unfold include_search_list. rewrite ordered_keys_spec. apply dedup_NoDup.
  - unfold Gen.include_flags. apply length_map.
Qed.
